(** * chantools [genimportscript]: a shallow embedding and its properties

    The development follows [cmd/chantools/genimportscript.go]:
    - [genImportScriptCommand] and its [Execute] method, which reads a root
      key, fills in defaults, walks the external and the internal branch and
      prints one import line per derived key, then one rescan line;
    - the three printers [printBitcoinCli], [printBitcoinCliWatchOnly] and
      [printBitcoinImportWallet];
    - [seedBirthdayToBlock], the estimate of a block height from a wallet
      birthday.

    Standard output is a list of written chunks (one per [fmt.Printf] or
    [fmt.Println] call, each with its trailing newline), a Go call ends in a
    value, a returned error or a panic, and the packages the file imports
    ([hdkeychain], [btcutil], [txscript], [lnd]) are the fields of an
    environment record. *)

From Stdlib Require Import ZArith QArith Qround Qpower Lia Lqa.
From Stdlib Require Import List String Ascii Bool.
From Stdlib Require Import DecimalString DecimalPos DecimalZ.
From Stdlib Require Import PrimFloat SpecFloat FloatOps Uint63.
Import ListNotations.

Local Open Scope Z_scope.

(** ** Outcomes and standard output *)

(** How a Go call ends: with a value, with a non-nil [error] (its message),
    or with a panic that nothing recovers (the panic value's message). *)
Inductive result (A : Type) : Type :=
| Ok (a : A)
| Err (msg : string)
| Panic (msg : string).

Arguments Ok {A} a.
Arguments Err {A} msg.
Arguments Panic {A} msg.

(** A computation that writes to standard output: the chunks written, in
    order, and how the call ended. *)
Definition M (A : Type) : Type := (list string * result A)%type.

Definition ret {A : Type} (a : A) : M A := ([], Ok a).

Definition bind {A B : Type} (m : M A) (f : A -> M B) : M B :=
  match snd m with
  | Ok a => (fst m ++ fst (f a), snd (f a))
  | Err e => (fst m, Err e)
  | Panic p => (fst m, Panic p)
  end.

Notation "x <- m ;; k" := (bind m (fun x => k))
  (at level 61, m at next level, right associativity).
Notation "m ;;; k" := (bind m (fun _ => k))
  (at level 61, right associativity).

(** A call that writes nothing. *)
Definition call {A : Type} (r : result A) : M A := ([], r).

(** [if err != nil { return fmt.Errorf(prefix + "%v", err) }]. *)
Definition wrapErr {A : Type} (prefix : string) (r : result A) : result A :=
  match r with
  | Ok a => Ok a
  | Err e => Err (prefix ++ e)
  | Panic p => Panic p
  end.

(** One [fmt.Printf] or [fmt.Println]. *)
Definition print (s : string) : M unit := ([s], Ok tt).

(** ** Formatting verbs *)

Definition nl : string := String (ascii_of_nat 10) EmptyString.
Definition dquote : string := String (ascii_of_nat 34) EmptyString.

(** [%d] of an integer. *)
Definition fmt_d (z : Z) : string := NilZero.string_of_int (Z.to_int z).

Definition hexDigit (n : N) : ascii :=
  match n with
  | 0%N => "0" | 1%N => "1" | 2%N => "2" | 3%N => "3"
  | 4%N => "4" | 5%N => "5" | 6%N => "6" | 7%N => "7"
  | 8%N => "8" | 9%N => "9" | 10%N => "a" | 11%N => "b"
  | 12%N => "c" | 13%N => "d" | 14%N => "e" | _ => "f"
  end%char.

(** [%x] of a byte slice: two lower-case hexadecimal digits per byte. *)
Fixpoint fmt_x (bs : list Byte.byte) : string :=
  match bs with
  | [] => EmptyString
  | b :: rest =>
      let n := Byte.to_N b in
      String (hexDigit (n / 16)) (String (hexDigit (n mod 16)) (fmt_x rest))
  end.

(** ** float64 arithmetic

    A finite float64 is the rational it denotes; every operation is the exact
    rational operation followed by IEEE 754 rounding to the nearest value with
    a 53-bit significand, ties to even, with the gradual underflow of the
    format.  Overflow to infinity is left out: the magnitudes this program
    computes stay below 2^64. *)
Module Float64.

Local Open Scope Q_scope.

Definition prec : Z := 53.
Definition emin : Z := -1074.

Definition pow2 (e : Z) : Q := 2 ^ e.

(** [floor (log2 x)] for a positive [x]. *)
Definition ilog2 (x : Q) : Z :=
  let g := (Z.log2 (Qnum x) - Z.log2 (Zpos (Qden x)))%Z in
  if Qle_bool (pow2 g) x then g else (g - 1)%Z.

(** Nearest integer, ties to even. *)
Definition rne (q : Q) : Z :=
  let f := Qfloor q in
  match Qcompare (q - inject_Z f) (1 # 2) with
  | Lt => f
  | Gt => (f + 1)%Z
  | Eq => if Z.even f then f else (f + 1)%Z
  end.

(** The exponent of the unit in the last place of [x]. *)
Definition expo (x : Q) : Z := Z.max (ilog2 x - (prec - 1)) emin.

Definition roundPos (x : Q) : Q :=
  inject_Z (rne (x / pow2 (expo x))) * pow2 (expo x).

Definition round (x : Q) : Q :=
  match Qnum x with
  | Z0 => 0
  | Zpos _ => roundPos x
  | Zneg _ => - roundPos (- x)
  end.

(** [float64(z)] of an integer. *)
Definition of_int (z : Z) : Q := round (inject_Z z).
Definition add (x y : Q) : Q := round (x + y).
Definition div (x y : Q) : Q := round (x / y).

(** The integer part, towards zero. *)
Definition trunc (x : Q) : Z := Z.quot (Qnum x) (Zpos (Qden x)).

End Float64.

(** [uint32(x)] of a float64 [x] that is not a constant.  The fraction is
    discarded; when the truncated value does not fit, the language leaves the
    result to the implementation ("the conversion succeeds but the result
    value is implementation-dependent"): [oor] is what the implementation
    yields then, reduced to 32 bits. *)
Definition uint32_of_float64 (oor : Z -> Z) (x : Q) : Z :=
  let z := Float64.trunc x in
  if (0 <=? z) && (z <? 2 ^ 32) then z else oor z mod 2 ^ 32.

(** The gc compiler on amd64 converts to a signed 64-bit integer first
    (CVTTSD2SQ, which yields -2^63 out of its range) and keeps the low 32
    bits. *)
Definition oor_amd64 (z : Z) : Z :=
  if (- 2 ^ 63 <=? z) && (z <? 2 ^ 63) then z else - 2 ^ 63.

(** On arm64 the conversion saturates (FCVTZU). *)
Definition oor_arm64 (z : Z) : Z :=
  if z <? 0 then 0 else 2 ^ 32 - 1.

(** ** Package [time]

    A [time.Time] is the number of nanoseconds since the Unix epoch (the
    monotonic reading and the location play no part here), a [time.Duration]
    a signed 64-bit count of nanoseconds. *)
Module time.

Definition Time : Type := Z.
Definition Duration : Type := Z.

Definition Second : Duration := 1000000000.
Definition Hour : Duration := 3600 * Second.

Definition minDuration : Duration := - 2 ^ 63.
Definition maxDuration : Duration := 2 ^ 63 - 1.

(** [time.Unix(sec, nsec)]. *)
Definition Unix (sec nsec : Z) : Time := sec * Second + nsec.

(** [t.Add(d)]. *)
Definition Add (t : Time) (d : Duration) : Time := t + d.

(** [t.Sub(u)]: the difference, or the largest (smallest) duration when it
    does not fit one. *)
Definition Sub (t u : Time) : Duration :=
  let d := t - u in
  if d <? minDuration then minDuration
  else if maxDuration <? d then maxDuration
  else d.

(** [d.Seconds()]:
    [sec := d / Second; nsec := d % Second;
     return float64(sec) + float64(nsec)/1e9]. *)
Definition Seconds (d : Duration) : Q :=
  let sec := Z.quot d Second in
  let nsec := Z.rem d Second in
  Float64.add (Float64.of_int sec)
              (Float64.div (Float64.of_int nsec) (Float64.of_int 1000000000)).

End time.

(** ** Package [chaincfg]: the genesis block timestamps *)
Module chaincfg.

(** [MainNetParams.GenesisBlock.Header.Timestamp], 2009-01-03 18:15:05 UTC. *)
Definition MainNetGenesisTimestamp : time.Time := time.Unix 1231006505 0.

(** [TestNet3Params.GenesisBlock.Header.Timestamp], 2011-02-02 23:16:42 UTC. *)
Definition TestNet3GenesisTimestamp : time.Time := time.Unix 1296688602 0.

End chaincfg.

(** The float64 value of [float64(nsec)/1e9], and the float64 height of a
    duration before its conversion to [uint32]. *)
Definition frac (nsec : Z) : Q :=
  Float64.div (Float64.of_int nsec) (Float64.of_int 1000000000).

Definition height64 (d : Z) : Q :=
  Float64.div (time.Seconds d) (Float64.of_int 600).

(** The same computation on the primitive binary64 numbers of the proof
    assistant, to compare the rounding model with. *)
Module Binary64.

Definition of_Z (z : Z) : float :=
  match z with
  | Z0 => PrimFloat.zero
  | Zpos _ => PrimFloat.of_uint63 (Uint63.of_Z z)
  | Zneg _ => PrimFloat.opp (PrimFloat.of_uint63 (Uint63.of_Z (- z)))
  end.

Definition Seconds (d : Z) : float :=
  let sec := Z.quot d time.Second in
  let nsec := Z.rem d time.Second in
  PrimFloat.add (of_Z sec) (PrimFloat.div (of_Z nsec) (of_Z 1000000000)).

Definition height (d : Z) : float := PrimFloat.div (Seconds d) (of_Z 600).

(** The rational a finite binary64 number denotes. *)
Definition value (f : float) : option Q :=
  match Prim2SF f with
  | S754_zero _ => Some 0%Q
  | S754_finite s m e =>
      Some ((if s then - inject_Z (Zpos m) else inject_Z (Zpos m))
            * Float64.pow2 e)%Q
  | _ => None
  end.

Definition sameValue (f : float) (q : Q) : bool :=
  match value f with
  | Some v => Qeq_bool v q
  | None => false
  end.

(** Both the seconds and the height of a duration agree. *)
Definition agrees (d : Z) : bool :=
  sameValue (Seconds d) (time.Seconds d) && sameValue (height d) (height64 d).

(** Durations to compare on: around zero, around a second, around multiples
    of 600 seconds, the two bounds, and a spread of others. *)
Definition samples : list Z :=
  [0; 1; -1; 999999999; 1000000000; 1000000001; -999999999; -1000000001;
   599999999999; 600000000000; 600000000001; -600000000000;
   346829999999999999; 346830000000000000; 346830000000000001;
   5999999999999999999; 6000000000000000000;
   2 ^ 63 - 1; - 2 ^ 63; -3600000000000; 172800000000000]
  ++ map (fun k => k * 7919 * 104729 * 1299709 + k * k * k)
         (map Z.of_nat (seq 1 40))
  ++ map (fun k => - (k * 7919 * 104729 * 1299709 * 15485863) + k * k * k)
         (map Z.of_nat (seq 1 40)).

End Binary64.

(** ** Extended keys *)

(** Modelled from the spec: [hdkeychain.ExtendedKey] is declared outside the
    source file.  An extended key has a depth, a 32-byte chain code, a child
    index, a network identity, and either full private material or
    public-only material. *)
Inductive KeyMaterial : Type :=
| PrivateMaterial (scalar : list Byte.byte)
| PublicOnly (point : list Byte.byte).

Record ExtendedKey : Type := mkExtendedKey {
  depth : Z;
  chainCode : list Byte.byte;
  childIndex : Z;
  network : string;
  material : KeyMaterial
}.

Definition ErrNotPrivExtKey : string :=
  "unable to create private keys from a public extended key".

(** The error of a printer that needs the signing key of a public-only key. *)
Definition signingKeyError : string :=
  ("could not derive private key: " ++ ErrNotPrivExtKey)%string.

(** Modelled from the spec: [ExtendedKey.ECPrivKey] is outside the source
    file.  The signing key requires private material; it fails otherwise. *)
Definition ECPrivKey (k : ExtendedKey) : result (list Byte.byte) :=
  match material k with
  | PrivateMaterial scalar => Ok scalar
  | PublicOnly _ => Err ErrNotPrivExtKey
  end.

(** Modelled from the spec: [hdkeychain.HardenedKeyStart] is outside the
    source file.  A path level is an unsigned 32-bit number; hardened indices
    are encoded by adding 2^31. *)
Definition HardenedKeyStart : Z := 2 ^ 31.

Definition isHardened (level : Z) : bool := HardenedKeyStart <=? level.

(** ** The environment of a run

    What the file takes from other packages and from the platform. *)
Record Env : Type := mkEnv {
  PublicKey : Type;
  WIF : Type;
  Address : Type;
  (** [chainParams.Name], set by [setupChainParams] *)
  chainParamsName : string;
  (** how the platform converts a float64 that does not fit a [uint32] *)
  cvtOutOfRange : Z -> Z;
  (** [time.Now().UTC()] as [%s] prints it *)
  now : string;
  NewKeyFromString : string -> result ExtendedKey;
  rootKeyFromConsole : M (ExtendedKey * time.Time);
  ParsePath : string -> result (list Z);
  DeriveChildren : ExtendedKey -> list Z -> result ExtendedKey;
  ECPubKey : ExtendedKey -> result PublicKey;
  NewWIF : list Byte.byte -> bool -> result WIF;
  WIFString : WIF -> string;
  SerializeCompressed : PublicKey -> list Byte.byte;
  Hash160 : list Byte.byte -> list Byte.byte;
  NewAddressPubKeyHash : list Byte.byte -> result Address;
  NewAddressWitnessPubKeyHash : list Byte.byte -> result Address;
  PayToAddrScript : Address -> result (list Byte.byte);
  NewAddressScriptHash : list Byte.byte -> result Address;
  EncodeAddress : Address -> string
}.

(** ** The command *)

Definition defaultRecoveryWindow : Z := 2500.
Definition defaultRescanFrom : Z := 500000.
Definition defaultDerivationPath : string := "m/84'/0'/0'".

(** The two [uint32] fields hold values in [0, 2^32). *)
Record genImportScriptCommand : Type := mkCommand {
  RootKey : string;
  Format : string;
  DerivationPath : string;
  RecoveryWindow : Z;
  RescanFrom : Z
}.

Definition isUint32 (z : Z) : Prop := 0 <= z < 2 ^ 32.

Definition withRescanFrom (c : genImportScriptCommand) (h : Z)
  : genImportScriptCommand :=
  mkCommand (RootKey c) (Format c) (DerivationPath c) (RecoveryWindow c) h.

Definition withFormat (c : genImportScriptCommand) (f : string)
  : genImportScriptCommand :=
  mkCommand (RootKey c) f (DerivationPath c) (RecoveryWindow c) (RescanFrom c).

Definition withRecoveryWindow (c : genImportScriptCommand) (w : Z)
  : genImportScriptCommand :=
  mkCommand (RootKey c) (Format c) (DerivationPath c) w (RescanFrom c).

Definition withDerivationPath (c : genImportScriptCommand) (p : string)
  : genImportScriptCommand :=
  mkCommand (RootKey c) (Format c) p (RecoveryWindow c) (RescanFrom c).

(** ** The source file *)
Section GenImportScript.

Context (E : Env).

Local Open Scope string_scope.

(** [seedBirthdayToBlock]: the genesis timestamp of the active network,
    then [uint32(birthdayTimestamp.Sub(genesisTimestamp).Seconds() / 600)].
    On regtest and simnet the answer is 0; any other network panics. *)
Definition estimateFrom (genesisTimestamp birthdayTimestamp : time.Time) : Z :=
  uint32_of_float64 (cvtOutOfRange E)
    (Float64.div (time.Seconds (time.Sub birthdayTimestamp genesisTimestamp))
                 (Float64.of_int 600)).

Definition seedBirthdayToBlock (birthdayTimestamp : time.Time) : result Z :=
  let name := chainParamsName E in
  if String.eqb name "mainnet" then
    Ok (estimateFrom chaincfg.MainNetGenesisTimestamp birthdayTimestamp)
  else if String.eqb name "testnet3" then
    Ok (estimateFrom chaincfg.TestNet3GenesisTimestamp birthdayTimestamp)
  else if String.eqb name "regtest" || String.eqb name "simnet" then
    Ok 0
  else
    Panic ("unimplemented network " ++ name).

(** The label every printer writes: [<path>/<branch>/<index>/]. *)
Definition keyLabel (path : string) (branch index : Z) : string :=
  path ++ "/" ++ fmt_d branch ++ "/" ++ fmt_d index ++ "/".

(** [printBitcoinCli]. *)
Definition printBitcoinCli (hdKey : ExtendedKey) (path : string)
           (branch index : Z) : M unit :=
  privKey <- call (wrapErr "could not derive private key: " (ECPrivKey hdKey)) ;;
  wif <- call (wrapErr "could not encode WIF: " (NewWIF E privKey true)) ;;
  print ("bitcoin-cli importprivkey " ++ WIFString E wif ++ " " ++ dquote
         ++ keyLabel path branch index ++ dquote ++ " false" ++ nl).

(** [printBitcoinCliWatchOnly]. *)
Definition printBitcoinCliWatchOnly (hdKey : ExtendedKey) (path : string)
           (branch index : Z) : M unit :=
  pubKey <- call (wrapErr "could not derive private key: " (ECPubKey E hdKey)) ;;
  print ("bitcoin-cli importpubkey " ++ fmt_x (SerializeCompressed E pubKey)
         ++ " " ++ dquote ++ keyLabel path branch index ++ dquote
         ++ " false" ++ nl).

(** [printBitcoinImportWallet]. *)
Definition printBitcoinImportWallet (hdKey : ExtendedKey) (path : string)
           (branch index : Z) : M unit :=
  privKey <- call (wrapErr "could not derive private key: " (ECPrivKey hdKey)) ;;
  wif <- call (wrapErr "could not encode WIF: " (NewWIF E privKey true)) ;;
  pubKey <- call (wrapErr "could not derive private key: " (ECPubKey E hdKey)) ;;
  let hash160 := Hash160 E (SerializeCompressed E pubKey) in
  addrP2PKH <- call (wrapErr "could not create address: "
                             (NewAddressPubKeyHash E hash160)) ;;
  addrP2WKH <- call (wrapErr "could not create address: "
                             (NewAddressWitnessPubKeyHash E hash160)) ;;
  script <- call (wrapErr "could not create script: "
                          (PayToAddrScript E addrP2WKH)) ;;
  addrNP2WKH <- call (wrapErr "could not create address: "
                              (NewAddressScriptHash E script)) ;;
  print (WIFString E wif ++ " 1970-01-01T00:00:01Z label="
         ++ keyLabel path branch index ++ " # addr="
         ++ EncodeAddress E addrP2PKH ++ "," ++ EncodeAddress E addrNP2WKH
         ++ "," ++ EncodeAddress E addrP2WKH ++ nl).

Definition PrintFn : Type := ExtendedKey -> string -> Z -> Z -> M unit.

Definition pasteComment : string :=
  "# Paste the following lines into a command line window." ++ nl.

Definition importwalletComment : string :=
  "# Save this output to a file and use the importwallet command of "
  ++ "bitcoin core." ++ nl.

(** The [switch c.Format]: the printer and the comment line it announces.
    The [default] clause falls through to ["bitcoin-cli"]. *)
Definition selectFormat (format : string) : PrintFn * string :=
  if String.eqb format "bitcoin-cli" then
    (printBitcoinCli, pasteComment)
  else if String.eqb format "bitcoin-cli-watchonly" then
    (printBitcoinCliWatchOnly, pasteComment)
  else if String.eqb format "bitcoin-importwallet" then
    (printBitcoinImportWallet, importwalletComment)
  else
    (printBitcoinCli, pasteComment).

(** The [switch] on [c.RootKey]: the root key, and the command with
    [RescanFrom] overwritten when the key comes from the console. *)
Definition readRootKey (c : genImportScriptCommand)
  : M (ExtendedKey * genImportScriptCommand) :=
  if negb (String.eqb (RootKey c) EmptyString) then
    extendedKey <- call (wrapErr "error reading root key: "
                                 (NewKeyFromString E (RootKey c))) ;;
    ret (extendedKey, c)
  else
    kb <- (fst (rootKeyFromConsole E),
           wrapErr "error reading root key: " (snd (rootKeyFromConsole E))) ;;
    height <- call (seedBirthdayToBlock
                      (time.Add (snd kb) (- 48 * time.Hour))) ;;
    ret (fst kb, withRescanFrom c height).

(** "Set default values." *)
Definition setDefaults (c : genImportScriptCommand) : genImportScriptCommand :=
  let c := if Z.eqb (RecoveryWindow c) 0
           then withRecoveryWindow c defaultRecoveryWindow else c in
  let c := if Z.eqb (RescanFrom c) 0
           then withRescanFrom c defaultRescanFrom else c in
  if String.eqb (DerivationPath c) EmptyString
  then withDerivationPath c defaultDerivationPath else c.

(** [append(derivationPath, branch, i)]. *)
Definition keyPath (derivationPath : list Z) (branch i : Z) : list Z :=
  derivationPath ++ [branch; i].

(** The body of either loop: derive the key at [keyPath], print it; an
    error of either step is returned as it is. *)
Definition deriveAndPrint (printFn : PrintFn) (extendedKey : ExtendedKey)
           (derivationPath : list Z) (path : string) (branch i : Z) : M unit :=
  derivedKey <- call (DeriveChildren E extendedKey
                                     (keyPath derivationPath branch i)) ;;
  printFn derivedKey path branch i.

(** [for ; i < W; i++ { body }] with [n = W - i] rounds left. *)
Fixpoint forRange (n : nat) (i : Z) (body : Z -> M unit) : M unit :=
  match n with
  | O => ret tt
  | S n' => body i ;;; forRange n' (i + 1) body
  end.

Definition headerLine : string :=
  "# Wallet dump created by chantools on " ++ now E ++ nl.

Definition rescanLine (height : Z) : string :=
  "bitcoin-cli rescanblockchain " ++ fmt_d height ++ nl.

(** What [Execute] does once the root key is known and the defaults are
    set. *)
Definition generate (extendedKey : ExtendedKey) (c : genImportScriptCommand)
  : M unit :=
  derivationPath <- call (wrapErr "error parsing path: "
                                  (ParsePath E (DerivationPath c))) ;;
  print headerLine ;;;
  let printFn := fst (selectFormat (Format c)) in
  print (snd (selectFormat (Format c))) ;;;
  forRange (Z.to_nat (RecoveryWindow c)) 0
           (deriveAndPrint printFn extendedKey derivationPath
                           (DerivationPath c) 0) ;;;
  forRange (Z.to_nat (RecoveryWindow c)) 0
           (deriveAndPrint printFn extendedKey derivationPath
                           (DerivationPath c) 1) ;;;
  print (rescanLine (RescanFrom c)).

(** [genImportScriptCommand.Execute]. *)
Definition Execute (c : genImportScriptCommand) : M unit :=
  kc <- readRootKey c ;;
  generate (fst kc) (setDefaults (snd kc)).

End GenImportScript.

(** ** Vocabulary of the statements *)

(** The indices a loop with bound [W] visits: [0 .. W-1], ascending. *)
Definition indices (W : Z) : list Z := map Z.of_nat (seq 0 (Z.to_nat W)).

(** A body run over a list of indices, one after the other. *)
Fixpoint forEach (l : list Z) (body : Z -> M unit) : M unit :=
  match l with
  | [] => ret tt
  | i :: rest => body i ;;; forEach rest body
  end.

(** A printer writes one line when it succeeds and nothing when it fails. *)
Definition oneLineOrNothing (m : M unit) : Prop :=
  (exists line, m = ([line], Ok tt))
  \/ (fst m = [] /\ snd m <> Ok tt).

Definition printerShape (printFn : ExtendedKey -> string -> Z -> Z -> M unit)
  : Prop :=
  forall k path b i, oneLineOrNothing (printFn k path b i).

(** The key line of position [(branch, i)]: the single line the printer
    writes for the key derived along [keyPath]. *)
Definition keyLineAt (E : Env) (printFn : PrintFn) (root : ExtendedKey)
           (derivationPath : list Z) (path : string) (branch i : Z)
           (line : string) : Prop :=
  exists k, DeriveChildren E root (keyPath derivationPath branch i) = Ok k
            /\ printFn k path branch i = ([line], Ok tt).

(** Position [(branch, i)] derives and prints without error. *)
Definition stepSucceeds (E : Env) (printFn : PrintFn) (root : ExtendedKey)
           (derivationPath : list Z) (path : string) (branch i : Z) : Prop :=
  exists k, DeriveChildren E root (keyPath derivationPath branch i) = Ok k
            /\ snd (printFn k path branch i) = Ok tt.

(** The positions the two loops visit before [(branch, i)]. *)
Definition positionsBefore (W branch i : Z) : list (Z * Z) :=
  if Z.eqb branch 0 then map (pair 0) (indices i)
  else map (pair 0) (indices W) ++ map (pair 1) (indices i).

Definition keyLineOf (E : Env) (printFn : PrintFn) (root : ExtendedKey)
           (derivationPath : list Z) (path : string)
           (position : Z * Z) (line : string) : Prop :=
  keyLineAt E printFn root derivationPath path (fst position) (snd position) line.

(** The networks [seedBirthdayToBlock] knows. *)
Definition supportedNetwork (name : string) : Prop :=
  name = "mainnet"%string \/ name = "testnet3"%string
  \/ name = "regtest"%string \/ name = "simnet"%string.

(** ** More vocabulary *)

(** [generate] up to the rescan line: the path, the header, the comment and
    the two loops. *)
Definition generateLines (E : Env) (extendedKey : ExtendedKey)
           (c : genImportScriptCommand) : M unit :=
  derivationPath <- call (wrapErr "error parsing path: "
                                  (ParsePath E (DerivationPath c))) ;;
  print (headerLine E) ;;;
  print (snd (selectFormat E (Format c))) ;;;
  forRange (Z.to_nat (RecoveryWindow c)) 0
           (deriveAndPrint E (fst (selectFormat E (Format c))) extendedKey
                           derivationPath (DerivationPath c) 0) ;;;
  forRange (Z.to_nat (RecoveryWindow c)) 0
           (deriveAndPrint E (fst (selectFormat E (Format c))) extendedKey
                           derivationPath (DerivationPath c) 1).


(** The line [printBitcoinCliWatchOnly] writes for a public key. *)
Definition watchOnlyLine (E : Env) (pubKey : PublicKey E) (path : string)
           (branch index : Z) : string :=
  ("bitcoin-cli importpubkey " ++ fmt_x (SerializeCompressed E pubKey)
   ++ " " ++ dquote ++ keyLabel path branch index ++ dquote
   ++ " false" ++ nl)%string.

(** The watch-only key line of position [(branch, i)]. *)
Definition watchOnlyLineAt (E : Env) (root : ExtendedKey)
           (derivationPath : list Z) (path : string) (branch i : Z)
           (line : string) : Prop :=
  exists k pubKey,
    DeriveChildren E root (keyPath derivationPath branch i) = Ok k
    /\ ECPubKey E k = Ok pubKey
    /\ line = watchOnlyLine E pubKey path branch i.

(** A string in which the character [sep] does not occur. *)
Definition charFree (sep : ascii) (s : string) : Prop :=
  forall c, In c (list_ascii_of_string s) -> c <> sep.

(** The value of a lower-case hexadecimal digit, 16 for any other
    character. *)
Definition hexValue (c : ascii) : N :=
  match c with
  | "0" => 0 | "1" => 1 | "2" => 2 | "3" => 3
  | "4" => 4 | "5" => 5 | "6" => 6 | "7" => 7
  | "8" => 8 | "9" => 9 | "a" => 10 | "b" => 11
  | "c" => 12 | "d" => 13 | "e" => 14 | "f" => 15
  | _ => 16
  end%char%N.

(** ** A small environment to run the model on

    Keys carry their child index and depth, every library call
    succeeds but a hardened derivation from a public-only key and the
    parsing of an unknown path, and the console yields a private root key
    with the birthday 2020-01-01 00:00:00 UTC. *)
Module Sample.

Local Open Scope string_scope.

Definition rootKey : ExtendedKey :=
  mkExtendedKey 0 [] 0 "mainnet" (PrivateMaterial [Byte.x01]).

Definition pubRootKey : ExtendedKey :=
  mkExtendedKey 0 [] 0 "mainnet" (PublicOnly [Byte.x02]).

Definition birthday : time.Time := time.Unix 1577836800 0.

Definition isPublicOnly (k : ExtendedKey) : bool :=
  match material k with
  | PrivateMaterial _ => false
  | PublicOnly _ => true
  end.

(** A hardened step on a key without private material fails. *)
Definition derive (k : ExtendedKey) (path : list Z) : result ExtendedKey :=
  if isPublicOnly k && existsb isHardened path then
    Err "cannot derive a hardened key from a public key"
  else
    Ok (mkExtendedKey (depth k + Z.of_nat (List.length path)) (chainCode k)
                      (last path (childIndex k)) (network k) (material k)).

Definition parsePath (path : string) : result (list Z) :=
  if String.eqb path "m/84'/0'/0'" then
    Ok [84 + HardenedKeyStart; HardenedKeyStart; HardenedKeyStart]
  else if String.eqb path "m/0" then Ok [0]
  else Err "path must start with m/".

Definition env (name : string) (oor : Z -> Z) (consoleBirthday : time.Time)
  : Env :=
  {| PublicKey := list Byte.byte;
     WIF := list Byte.byte;
     Address := string;
     chainParamsName := name;
     cvtOutOfRange := oor;
     now := "2020-06-01 12:00:00 +0000 UTC";
     NewKeyFromString := fun s =>
       if String.eqb s "xpub" then Ok pubRootKey else Ok rootKey;
     rootKeyFromConsole := ([], Ok (rootKey, consoleBirthday));
     ParsePath := parsePath;
     DeriveChildren := derive;
     ECPubKey := fun k =>
       match material k with
       | PrivateMaterial s => Ok s
       | PublicOnly p => Ok p
       end;
     NewWIF := fun priv _ => Ok priv;
     WIFString := fun w => "K" ++ fmt_x w;
     SerializeCompressed := fun p => p;
     Hash160 := fun b => b;
     NewAddressPubKeyHash := fun h => Ok ("1" ++ fmt_x h);
     NewAddressWitnessPubKeyHash := fun h => Ok ("bc1" ++ fmt_x h);
     PayToAddrScript := fun _ => Ok [Byte.x00; Byte.x14];
     NewAddressScriptHash := fun s => Ok ("3" ++ fmt_x s);
     EncodeAddress := fun a => a |}.

Definition mainnet : Env := env "mainnet" oor_amd64 birthday.
Definition regtest : Env := env "regtest" oor_amd64 birthday.
Definition signet : Env := env "signet" oor_amd64 birthday.

(** A seed whose birthday is the day of the genesis block. *)
Definition mainnetDayZero : Env :=
  env "mainnet" oor_amd64 chaincfg.MainNetGenesisTimestamp.

Definition mainnet_arm64 : Env := env "mainnet" oor_arm64 birthday.

Definition cmd (rootkey format : string) (window rescan : Z)
  : genImportScriptCommand :=
  mkCommand rootkey format EmptyString window rescan.

(** A window that reaches past the non-hardened indices. *)
Definition hugeWindowCmd : genImportScriptCommand :=
  mkCommand "xprv" "bitcoin-cli" EmptyString (2 ^ 31 + 1) 0.

(** A public root key with a path without hardened levels. *)
Definition watchOnlyCmd (format : string) : genImportScriptCommand :=
  mkCommand "xpub" format "m/0" 2 0.

Definition defaultPrefix : list Z :=
  [84 + HardenedKeyStart; HardenedKeyStart; HardenedKeyStart].

End Sample.

(** ** An environment whose library calls can fail

    As [Sample.env] on mainnet and amd64, with the parser of the root key,
    the console and the derivation given. *)
Module Faulty.

Local Open Scope string_scope.

Definition env (newKey : string -> result ExtendedKey)
           (console : M (ExtendedKey * time.Time))
           (derive : ExtendedKey -> list Z -> result ExtendedKey) : Env :=
  mkEnv (list Byte.byte) (list Byte.byte) string "mainnet" oor_amd64
        "2020-06-01 12:00:00 +0000 UTC" newKey console Sample.parsePath derive
        (fun k => match material k with
                  | PrivateMaterial s => Ok s
                  | PublicOnly p => Ok p
                  end)
        (fun priv _ => Ok priv) (fun w => "K" ++ fmt_x w) (fun p => p)
        (fun b => b) (fun h => Ok ("1" ++ fmt_x h))
        (fun h => Ok ("bc1" ++ fmt_x h)) (fun _ => Ok [Byte.x00; Byte.x14])
        (fun s => Ok ("3" ++ fmt_x s)) (fun a => a).

Definition goodKey (s : string) : result ExtendedKey := Ok Sample.rootKey.

Definition badKey (s : string) : result ExtendedKey :=
  Err "the provided serialized extended key length is invalid".

Definition goodConsole : M (ExtendedKey * time.Time) :=
  (["Input your 24-word mnemonic: "], Ok (Sample.rootKey, Sample.birthday)).

Definition badConsole : M (ExtendedKey * time.Time) :=
  (["Input your 24-word mnemonic: "], Err "wrong number of words").

(** The derivation fails at index 1 of the internal branch. *)
Definition deriveUntil (k : ExtendedKey) (path : list Z)
  : result ExtendedKey :=
  if andb (Z.eqb (nth 3 path 0) 1) (Z.eqb (nth 4 path 0) 1)
  then Err "the extended key at this index is invalid"
  else Sample.derive k path.

End Faulty.



(** * Properties *)

(** ** Rounding to float64 *)
Module Float64Facts.

Import Float64.
Local Open Scope Q_scope.

Lemma pow2_pos (e : Z) : 0 < pow2 e.
Proof. apply Qpower_0_lt. reflexivity. Qed.

Lemma pow2_add (a b : Z) : pow2 (a + b) == pow2 a * pow2 b.
Proof. apply Qpower_plus. discriminate. Qed.

Lemma pow2_split (a b c : Z) : a = (b + c)%Z -> pow2 a == pow2 b * pow2 c.
Proof. intros ->. apply pow2_add. Qed.

Lemma pow2_le (a b : Z) : (a <= b)%Z -> pow2 a <= pow2 b.
Proof. intros H. apply Qpower_le_compat_l; [exact H | discriminate]. Qed.

Lemma pow2_lt (a b : Z) : (a < b)%Z -> pow2 a < pow2 b.
Proof. intros H. apply Qpower_lt_compat_l; [exact H | reflexivity]. Qed.

Lemma pow2_lt_inv (a b : Z) : pow2 a < pow2 b -> (a < b)%Z.
Proof. intros H. apply (Qpower_lt_compat_l_inv 2); [exact H | reflexivity]. Qed.

Lemma pow2_Z (n : Z) : (0 <= n)%Z -> pow2 n == inject_Z (2 ^ n).
Proof. intros H. unfold pow2. rewrite Zpower_Qpower by exact H. reflexivity. Qed.

Lemma Q_as_fraction (x : Q) : x * inject_Z (Zpos (Qden x)) == inject_Z (Qnum x).
Proof.
  destruct x as [n d]. unfold Qeq, Qmult, inject_Z. simpl.
  rewrite Pos.mul_1_r. ring.
Qed.

Lemma inject_Z_le (a b : Z) : (a <= b)%Z -> inject_Z a <= inject_Z b.
Proof. intros H. rewrite <- Zle_Qle. exact H. Qed.

Lemma inject_Z_lt (a b : Z) : (a < b)%Z -> inject_Z a < inject_Z b.
Proof. intros H. rewrite <- Zlt_Qlt. exact H. Qed.

(** [ilog2] is the floor of the binary logarithm. *)
Lemma ilog2_spec (x : Q) :
  0 < x -> pow2 (ilog2 x) <= x /\ x < pow2 (ilog2 x + 1).
Proof.
  intros Hx.
  assert (Hn : (0 < Qnum x)%Z).
  { destruct x as [n d]. unfold Qlt in Hx. simpl in *. lia. }
  pose proof (Q_as_fraction x) as Hfrac.
  set (n := Qnum x) in *. set (d := Zpos (Qden x)) in *.
  assert (Hd : (0 < d)%Z) by (subst d; lia).
  destruct (Z.log2_spec n Hn) as [Hn1 Hn2].
  destruct (Z.log2_spec d Hd) as [Hd1 Hd2].
  pose proof (Z.log2_nonneg n) as Hln. pose proof (Z.log2_nonneg d) as Hld.
  apply inject_Z_le in Hn1, Hd1. apply inject_Z_lt in Hn2, Hd2.
  rewrite <- pow2_Z in Hn1, Hn2, Hd1, Hd2 by lia.
  assert (HdQ : 0 < inject_Z d) by (apply (inject_Z_lt 0); exact Hd).
  unfold ilog2. fold n d. set (g := (Z.log2 n - Z.log2 d)%Z).
  destruct (Qle_bool (pow2 g) x) eqn:Hb.
  - apply Qle_bool_iff in Hb. split; [exact Hb|].
    apply (Qmult_lt_r _ _ (inject_Z d) HdQ). rewrite Hfrac.
    eapply Qlt_le_trans; [exact Hn2|].
    rewrite (pow2_split (Z.succ (Z.log2 n)) (g + 1) (Z.log2 d)) by (subst g; lia).
    apply Qmult_le_l; [apply pow2_pos | exact Hd1].
  - assert (Hlt : x < pow2 g).
    { apply Qnot_le_lt. intros Hle. apply Qle_bool_iff in Hle. congruence. }
    split.
    + apply (Qmult_le_r _ _ (inject_Z d) HdQ). rewrite Hfrac.
      eapply Qle_trans; [|exact Hn1].
      rewrite (pow2_split (Z.log2 n) (g - 1) (Z.succ (Z.log2 d))) by (subst g; lia).
      apply Qmult_le_l; [apply pow2_pos |].
      apply Qlt_le_weak. exact Hd2.
    + replace (g - 1 + 1)%Z with g by lia. exact Hlt.
Qed.

(** The logarithm is determined by the binade. *)
Lemma ilog2_unique (x : Q) (l : Z) :
  pow2 l <= x -> x < pow2 (l + 1) -> ilog2 x = l.
Proof.
  intros H1 H2.
  assert (Hx : 0 < x) by (eapply Qlt_le_trans; [apply (pow2_pos l) | exact H1]).
  destruct (ilog2_spec x Hx) as [H3 H4].
  assert (ilog2 x < l + 1)%Z.
  { apply pow2_lt_inv. eapply Qle_lt_trans; eassumption. }
  assert (l < ilog2 x + 1)%Z.
  { apply pow2_lt_inv. eapply Qle_lt_trans; eassumption. }
  lia.
Qed.

Lemma ilog2_mono (x y : Q) : 0 < x -> x <= y -> (ilog2 x <= ilog2 y)%Z.
Proof.
  intros Hx Hxy.
  assert (Hy : 0 < y) by (eapply Qlt_le_trans; eassumption).
  destruct (ilog2_spec x Hx) as [H1 _]. destruct (ilog2_spec y Hy) as [_ H2].
  assert (ilog2 x < ilog2 y + 1)%Z; [|lia].
  apply pow2_lt_inv. eapply Qle_lt_trans; [exact H1|].
  eapply Qle_lt_trans; eassumption.
Qed.


(** *** Nearest integer *)

Lemma rne_comp (x y : Q) : x == y -> rne x = rne y.
Proof.
  intros H. unfold rne.
  assert (Hf : Qfloor x = Qfloor y) by (rewrite H; reflexivity).
  rewrite Hf.
  assert (Hc : Qcompare (x - inject_Z (Qfloor y)) (1 # 2)
               = Qcompare (y - inject_Z (Qfloor y)) (1 # 2))
    by (rewrite H; reflexivity).
  rewrite Hc. reflexivity.
Qed.

Lemma rne_bounds (q : Q) : (Qfloor q <= rne q <= Qfloor q + 1)%Z.
Proof.
  unfold rne. destruct (Qcompare _ _); [destruct (Z.even _)| |]; lia.
Qed.

Lemma rne_inject_Z (z : Z) : rne (inject_Z z) = z.
Proof.
  unfold rne. rewrite Qfloor_Z.
  assert (H : Qcompare (inject_Z z - inject_Z z) (1 # 2) = Lt).
  { rewrite <- Qlt_alt. lra. }
  rewrite H. reflexivity.
Qed.

Lemma rne_ge_Z (q : Q) (z : Z) : inject_Z z <= q -> (z <= rne q)%Z.
Proof.
  intros H. apply Qfloor_resp_le in H. rewrite Qfloor_Z in H.
  pose proof (rne_bounds q). lia.
Qed.

Lemma rne_le_Z (q : Q) (z : Z) : q <= inject_Z z -> (rne q <= z)%Z.
Proof.
  intros H. pose proof (rne_bounds q) as Hb.
  destruct (Z_lt_le_dec (Qfloor q) z) as [Hlt | Hge]; [lia|].
  assert (Hq : q == inject_Z z).
  { apply Qle_antisym; [exact H|].
    eapply Qle_trans; [apply inject_Z_le; exact Hge | apply Qfloor_le]. }
  rewrite (rne_comp _ _ Hq), rne_inject_Z. lia.
Qed.

Lemma rne_mono (x y : Q) : x <= y -> (rne x <= rne y)%Z.
Proof.
  intros H. pose proof (Qfloor_resp_le _ _ H) as Hf.
  pose proof (rne_bounds x) as Hx. pose proof (rne_bounds y) as Hy.
  destruct (Z.eq_dec (Qfloor x) (Qfloor y)) as [He | Hne]; [|lia].
  unfold rne in *. rewrite He in *.
  destruct (Qcompare (x - inject_Z (Qfloor y)) (1 # 2)) eqn:Cx;
    destruct (Qcompare (y - inject_Z (Qfloor y)) (1 # 2)) eqn:Cy;
    try lia;
    try (destruct (Z.even (Qfloor y)); lia);
    exfalso;
    repeat match goal with
           | C : Qcompare _ _ = Eq |- _ => rewrite <- Qeq_alt in C
           | C : Qcompare _ _ = Lt |- _ => rewrite <- Qlt_alt in C
           | C : Qcompare _ _ = Gt |- _ => rewrite <- Qgt_alt in C
           end; lra.
Qed.

(** *** Rounding a positive number *)

Lemma roundPos_unfold (x : Q) :
  roundPos x = inject_Z (rne (x / pow2 (expo x))) * pow2 (expo x).
Proof. reflexivity. Qed.

Lemma pow2_neq0 (e : Z) : ~ pow2 e == 0.
Proof. pose proof (pow2_pos e). lra. Qed.

Lemma div_pow2_le (x y : Q) (e : Z) : x <= y -> x / pow2 e <= y / pow2 e.
Proof.
  intros H. apply Qmult_le_compat_r; [exact H|].
  apply Qlt_le_weak, Qinv_lt_0_compat, pow2_pos.
Qed.

Lemma div_pow2_lt (x y : Q) (e : Z) : x < y -> x / pow2 e < y / pow2 e.
Proof.
  intros H. apply Qmult_lt_compat_r; [|exact H].
  apply Qinv_lt_0_compat, pow2_pos.
Qed.

Lemma pow2_div (a b : Z) : pow2 a / pow2 b == pow2 (a - b).
Proof.
  rewrite (pow2_split a (a - b) b) by lia.
  field. apply pow2_neq0.
Qed.

(** The scaled value of a positive number lies below 2^53. *)
Lemma scaled_lt (x : Q) :
  0 < x -> x / pow2 (expo x) < inject_Z (2 ^ prec).
Proof.
  intros Hx. destruct (ilog2_spec x Hx) as [_ Hhi].
  rewrite <- pow2_Z by (unfold prec; lia).
  eapply Qlt_le_trans; [apply div_pow2_lt; exact Hhi|].
  rewrite pow2_div. apply pow2_le. unfold expo, prec. lia.
Qed.

(** In the normal range it lies at or above 2^52. *)
Lemma scaled_ge (x : Q) :
  0 < x -> (emin <= ilog2 x - (prec - 1))%Z ->
  inject_Z (2 ^ (prec - 1)) <= x / pow2 (expo x).
Proof.
  intros Hx Hn. destruct (ilog2_spec x Hx) as [Hlo _].
  rewrite <- pow2_Z by (unfold prec; lia).
  eapply Qle_trans; [|apply div_pow2_le; exact Hlo].
  rewrite pow2_div. apply pow2_le. unfold expo, prec in *. lia.
Qed.

Lemma roundPos_nonneg (x : Q) : 0 < x -> 0 <= roundPos x.
Proof.
  intros Hx. rewrite roundPos_unfold.
  apply Qmult_le_0_compat; [|apply Qlt_le_weak, pow2_pos].
  apply (inject_Z_le 0). apply rne_ge_Z.
  apply Qlt_le_weak. apply Qlt_shift_div_l; [apply pow2_pos |].
  rewrite Qmult_0_l. exact Hx.
Qed.

Lemma roundPos_comp (x y : Q) : 0 < x -> x == y -> roundPos x == roundPos y.
Proof.
  intros Hx Hxy. destruct (ilog2_spec x Hx) as [H1 H2].
  assert (Hl : ilog2 y = ilog2 x)
    by (apply ilog2_unique; rewrite <- Hxy; assumption).
  rewrite !roundPos_unfold. unfold expo. rewrite Hl.
  rewrite (rne_comp (y / _) (x / pow2 (Z.max (ilog2 x - (prec - 1)) emin))).
  - reflexivity.
  - unfold Qdiv. apply Qmult_comp; [symmetry; exact Hxy | reflexivity].
Qed.

Lemma roundPos_mono (x y : Q) : 0 < x -> x <= y -> roundPos x <= roundPos y.
Proof.
  intros Hx Hxy.
  assert (Hy : 0 < y) by (eapply Qlt_le_trans; eassumption).
  pose proof (ilog2_mono x y Hx Hxy) as Hl.
  destruct (Z.eq_dec (expo x) (expo y)) as [He | Hne].
  - rewrite !roundPos_unfold, He.
    apply Qmult_le_compat_r; [|apply Qlt_le_weak, pow2_pos].
    apply inject_Z_le, rne_mono, div_pow2_le, Hxy.
  - assert (Hlt : (expo x < expo y)%Z) by (unfold expo in *; lia).
    assert (Hny : (emin <= ilog2 y - (prec - 1))%Z) by (unfold expo in *; lia).
    apply Qle_trans with (pow2 (expo y + (prec - 1))).
    + rewrite roundPos_unfold.
      apply Qle_trans with (inject_Z (2 ^ prec) * pow2 (expo x)).
      * apply Qmult_le_compat_r; [|apply Qlt_le_weak, pow2_pos].
        apply inject_Z_le, rne_le_Z, Qlt_le_weak, scaled_lt, Hx.
      * rewrite <- pow2_Z by (unfold prec; lia).
        rewrite <- pow2_add. apply pow2_le. unfold prec. lia.
    + rewrite roundPos_unfold.
      apply Qle_trans with (inject_Z (2 ^ (prec - 1)) * pow2 (expo y)).
      * rewrite <- pow2_Z by (unfold prec; lia).
        rewrite <- pow2_add. apply pow2_le. lia.
      * apply Qmult_le_compat_r; [|apply Qlt_le_weak, pow2_pos].
        apply inject_Z_le, rne_ge_Z, scaled_ge; assumption.
Qed.

(** A value with a significand below 2^53 is its own rounding. *)
Lemma roundPos_exact (m e : Z) :
  (0 < m < 2 ^ prec)%Z -> (emin <= e)%Z ->
  roundPos (inject_Z m * pow2 e) == inject_Z m * pow2 e.
Proof.
  intros Hm He. set (x := inject_Z m * pow2 e).
  assert (Hx : 0 < x).
  { subst x. apply Qmult_lt_0_compat; [apply (inject_Z_lt 0); lia | apply pow2_pos]. }
  destruct (ilog2_spec x Hx) as [Hlo _].
  assert (Hl : (ilog2 x < prec + e)%Z).
  { apply pow2_lt_inv. eapply Qle_lt_trans; [exact Hlo|].
    subst x. rewrite pow2_add. apply Qmult_lt_compat_r; [apply pow2_pos|].
    rewrite pow2_Z by (unfold prec; lia). apply inject_Z_lt. lia. }
  assert (Hee : (expo x <= e)%Z) by (unfold expo, prec in *; lia).
  rewrite roundPos_unfold. generalize dependent (expo x). intros e0 He0.
  assert (Hs : x / pow2 e0 == inject_Z (m * 2 ^ (e - e0))).
  { subst x. rewrite inject_Z_mult, <- pow2_Z by lia.
    rewrite <- (pow2_div e e0). field. apply pow2_neq0. }
  rewrite (rne_comp _ _ Hs), rne_inject_Z.
  rewrite inject_Z_mult, <- pow2_Z by lia.
  rewrite <- Qmult_assoc, <- pow2_add.
  replace (e - e0 + e0)%Z with e by lia. reflexivity.
Qed.

(** *** Rounding *)

Lemma Qnum_pos (x : Q) : 0 < x -> exists p, Qnum x = Zpos p.
Proof.
  destruct x as [[|p|p] d]; unfold Qlt; simpl; intros H; try lia.
  exists p. reflexivity.
Qed.

Lemma Qnum_neg (x : Q) : x < 0 -> exists p, Qnum x = Zneg p.
Proof.
  destruct x as [[|p|p] d]; unfold Qlt; simpl; intros H; try lia.
  exists p. reflexivity.
Qed.

Lemma Qnum_zero (x : Q) : x == 0 -> Qnum x = 0%Z.
Proof. destruct x as [n d]. unfold Qeq. simpl. lia. Qed.

Lemma round_pos (x : Q) : 0 < x -> round x = roundPos x.
Proof. intros H. unfold round. destruct (Qnum_pos x H) as [p ->]. reflexivity. Qed.

Lemma round_neg (x : Q) : x < 0 -> round x = - roundPos (- x).
Proof. intros H. unfold round. destruct (Qnum_neg x H) as [p ->]. reflexivity. Qed.

Lemma round_zero (x : Q) : x == 0 -> round x = 0.
Proof. intros H. unfold round. rewrite (Qnum_zero x H). reflexivity. Qed.

Lemma Q_sign_cases (x : Q) : x < 0 \/ x == 0 \/ 0 < x.
Proof.
  destruct (Q_dec x 0) as [[H | H] | H]; [left | right; right | right; left];
    assumption.
Qed.

#[global] Instance round_comp : Proper (Qeq ==> Qeq) round.
Proof.
  intros x y Hxy. destruct (Q_sign_cases x) as [Hx | [Hx | Hx]].
  - rewrite (round_neg x Hx), (round_neg y) by (rewrite <- Hxy; exact Hx).
    apply Qopp_comp. apply roundPos_comp; [lra | rewrite Hxy; reflexivity].
  - rewrite (round_zero x Hx), (round_zero y) by (rewrite <- Hxy; exact Hx).
    reflexivity.
  - rewrite (round_pos x Hx), (round_pos y) by (rewrite <- Hxy; exact Hx).
    apply roundPos_comp; assumption.
Qed.

Lemma round_nonneg (x : Q) : 0 <= x -> 0 <= round x.
Proof.
  intros H. destruct (Q_sign_cases x) as [Hx | [Hx | Hx]]; [lra | |].
  - rewrite (round_zero x Hx). lra.
  - rewrite (round_pos x Hx). apply roundPos_nonneg, Hx.
Qed.

Lemma round_nonpos (x : Q) : x <= 0 -> round x <= 0.
Proof.
  intros H. destruct (Q_sign_cases x) as [Hx | [Hx | Hx]]; [ | | lra].
  - rewrite (round_neg x Hx).
    assert (0 <= roundPos (- x)) by (apply roundPos_nonneg; lra). lra.
  - rewrite (round_zero x Hx). lra.
Qed.

(** Rounding is monotone. *)
Lemma round_mono (x y : Q) : x <= y -> round x <= round y.
Proof.
  intros Hxy. destruct (Q_sign_cases x) as [Hx | [Hx | Hx]].
  - destruct (Q_sign_cases y) as [Hy | [Hy | Hy]].
    + rewrite (round_neg x Hx), (round_neg y Hy).
      assert (roundPos (- y) <= roundPos (- x))
        by (apply roundPos_mono; lra).
      lra.
    + apply Qle_trans with 0; [apply round_nonpos | apply round_nonneg]; lra.
    + apply Qle_trans with 0; [apply round_nonpos | apply round_nonneg]; lra.
  - apply Qle_trans with 0; [apply round_nonpos | apply round_nonneg]; lra.
  - rewrite (round_pos x Hx), (round_pos y) by lra.
    apply roundPos_mono; assumption.
Qed.

(** Values with a significand below 2^53 are not changed. *)
Lemma round_exact (m e : Z) :
  (Z.abs m < 2 ^ prec)%Z -> (emin <= e)%Z ->
  round (inject_Z m * pow2 e) == inject_Z m * pow2 e.
Proof.
  intros Hm He. pose proof (pow2_pos e) as Hp.
  destruct (Z.lt_trichotomy m 0) as [Hneg | [-> | Hpos]].
  - assert (Hx : inject_Z m * pow2 e < 0).
    { setoid_replace (inject_Z m * pow2 e) with (- (inject_Z (- m) * pow2 e))
        by (rewrite inject_Z_opp; ring).
      assert (0 < inject_Z (- m) * pow2 e); [|lra].
      apply Qmult_lt_0_compat; [apply (inject_Z_lt 0); lia | exact Hp]. }
    rewrite (round_neg _ Hx).
    rewrite (roundPos_comp (- (inject_Z m * pow2 e)) (inject_Z (- m) * pow2 e));
      [ | lra | rewrite inject_Z_opp; ring ].
    rewrite roundPos_exact by lia. rewrite inject_Z_opp. ring.
  - rewrite round_zero; ring.
  - assert (Hx : 0 < inject_Z m * pow2 e)
      by (apply Qmult_lt_0_compat; [apply (inject_Z_lt 0); lia | exact Hp]).
    rewrite (round_pos _ Hx). apply roundPos_exact; lia.
Qed.

Lemma round_int (z : Z) :
  (Z.abs z < 2 ^ prec)%Z -> round (inject_Z z) == inject_Z z.
Proof.
  intros H.
  assert (Hz : inject_Z z == inject_Z z * pow2 0) by (unfold pow2; simpl; ring).
  rewrite Hz at 1. rewrite round_exact; [symmetry; exact Hz | exact H |].
  unfold emin. lia.
Qed.

Lemma of_int_exact (z : Z) :
  (Z.abs z < 2 ^ prec)%Z -> of_int z == inject_Z z.
Proof. apply round_int. Qed.

(** *** Truncation *)

Lemma trunc_nonneg (x : Q) : 0 <= x -> trunc x = Qfloor x.
Proof.
  destruct x as [n d]. unfold Qle, trunc, Qfloor. simpl. intros H.
  apply Z.quot_div_nonneg; lia.
Qed.

Lemma Qfloor_between (x : Q) (z : Z) :
  inject_Z z <= x -> x < inject_Z (z + 1) -> Qfloor x = z.
Proof.
  intros H1 H2. apply Qfloor_resp_le in H1. rewrite Qfloor_Z in H1.
  assert (Qfloor x < z + 1)%Z; [|lia].
  rewrite Zlt_Qlt. eapply Qle_lt_trans; [apply Qfloor_le | exact H2].
Qed.

Lemma trunc_mono_nonneg (x y : Q) : 0 <= x -> x <= y -> (trunc x <= trunc y)%Z.
Proof.
  intros Hx Hxy. rewrite !trunc_nonneg by lra. apply Qfloor_resp_le, Hxy.
Qed.

(** *** Division by a positive integer constant *)

Lemma div_mono (x y : Q) (c : Z) :
  (0 < c < 2 ^ prec)%Z -> x <= y -> div x (of_int c) <= div y (of_int c).
Proof.
  intros Hc Hxy. unfold div. apply round_mono.
  rewrite of_int_exact by lia.
  apply Qmult_le_compat_r; [exact Hxy|].
  apply Qlt_le_weak, Qinv_lt_0_compat. apply (inject_Z_lt 0). lia.
Qed.

(** For an integer numerator the rounded quotient has the integer part of
    the exact one: the exact quotient is at least 1/c below the next
    integer, and a float64 lies in between. *)
Lemma trunc_div_int (s c : Z) :
  (0 <= s)%Z -> (0 < c <= 1024)%Z -> (s / c < 2 ^ 42)%Z ->
  trunc (div (inject_Z s) (of_int c)) = (s / c)%Z.
Proof.
  intros Hs Hc Hq.
  set (q := (s / c)%Z).
  assert (Hq0 : (0 <= q)%Z) by (apply Z.div_pos; lia).
  pose proof (Z.div_mod s c ltac:(lia)) as Hdm.
  pose proof (Z.mod_pos_bound s c ltac:(lia)) as Hr. fold q in Hdm.
  assert (HcQ : 0 < inject_Z c) by (apply (inject_Z_lt 0); lia).
  set (x := inject_Z s / inject_Z c).
  assert (Hdiv : div (inject_Z s) (of_int c) == round x).
  { unfold div. apply round_comp. subst x.
    rewrite of_int_exact; [reflexivity|].
    unfold prec. change (2 ^ 53)%Z with 9007199254740992%Z. lia. }
  assert (Hlo : inject_Z q <= x).
  { subst x. apply Qle_shift_div_l; [exact HcQ|].
    rewrite <- inject_Z_mult. apply inject_Z_le. lia. }
  set (hi := inject_Z ((q + 1) * 1024 - 1) * pow2 (-10)).
  assert (Hp10 : pow2 (-10) == 1 # 1024) by reflexivity.
  assert (Hhi : x <= hi).
  { subst x hi. apply Qle_shift_div_r; [exact HcQ|].
    setoid_replace (inject_Z ((q + 1) * 1024 - 1) * pow2 (-10) * inject_Z c)
      with (inject_Z (((q + 1) * 1024 - 1) * c) * (1 # 1024))
      by (rewrite Hp10, (inject_Z_mult _ c); ring).
    setoid_replace (inject_Z s) with (inject_Z (s * 1024) * (1 # 1024))
      by (rewrite inject_Z_mult; field).
    apply Qmult_le_compat_r; [|discriminate].
    apply inject_Z_le. nia. }
  assert (Hhi1 : hi < inject_Z (q + 1)).
  { subst hi. rewrite Hp10.
    setoid_replace (inject_Z (q + 1)) with (inject_Z ((q + 1) * 1024) * (1 # 1024))
      by (rewrite inject_Z_mult; field).
    apply Qmult_lt_compat_r; [reflexivity|]. apply inject_Z_lt. lia. }
  assert (Hrlo : inject_Z q <= round x).
  { rewrite <- (round_int q).
    - apply round_mono, Hlo.
    - unfold prec. change (2 ^ 53)%Z with 9007199254740992%Z.
      change (2 ^ 42)%Z with 4398046511104%Z in Hq. lia. }
  assert (Hrhi : round x <= hi).
  { subst hi. rewrite <- (round_exact ((q + 1) * 1024 - 1) (-10)).
    - apply round_mono, Hhi.
    - unfold prec. change (2 ^ 53)%Z with 9007199254740992%Z.
      change (2 ^ 42)%Z with 4398046511104%Z in Hq. lia.
    - unfold emin. lia. }
  rewrite trunc_nonneg.
  - apply Qfloor_between; rewrite Hdiv; [exact Hrlo|].
    eapply Qle_lt_trans; eassumption.
  - rewrite Hdiv. eapply Qle_trans; [|exact Hrlo]. apply (inject_Z_le 0), Hq0.
Qed.

End Float64Facts.

(** ** Durations in seconds and the height estimate *)
Module EstimateFacts.

Import Float64 Float64Facts.
Local Open Scope Q_scope.

Lemma trunc_comp_nonneg (x y : Q) : 0 <= x -> x == y -> trunc x = trunc y.
Proof.
  intros Hx Hxy. rewrite !trunc_nonneg by (try rewrite <- Hxy; exact Hx).
  rewrite Hxy. reflexivity.
Qed.

Lemma small_int (z : Z) : (Z.abs z < 2 ^ 40)%Z -> (Z.abs z < 2 ^ prec)%Z.
Proof.
  unfold prec. change (2 ^ 40)%Z with 1099511627776%Z.
  change (2 ^ 53)%Z with 9007199254740992%Z. lia.
Qed.

Ltac small :=
  apply small_int;
  change (2 ^ 34)%Z with 17179869184%Z in *;
  change (2 ^ 40)%Z with 1099511627776%Z in *;
  unfold time.Second in *; lia.

Lemma frac_eq (nsec : Z) :
  (Z.abs nsec < 2 ^ 40)%Z ->
  frac nsec == round (inject_Z nsec / inject_Z 1000000000).
Proof.
  intros H. unfold frac, div. apply round_comp.
  rewrite !of_int_exact; [reflexivity | | apply small_int, H].
  apply small_int. change (2 ^ 40)%Z with 1099511627776%Z. lia.
Qed.

Lemma frac_mono (n1 n2 : Z) :
  (Z.abs n1 < 2 ^ 40)%Z -> (Z.abs n2 < 2 ^ 40)%Z -> (n1 <= n2)%Z ->
  frac n1 <= frac n2.
Proof.
  intros H1 H2 H. rewrite !frac_eq by assumption. apply round_mono.
  apply Qmult_le_compat_r; [apply inject_Z_le, H | discriminate].
Qed.

Lemma frac_bounds (nsec : Z) :
  (0 <= nsec < time.Second)%Z -> 0 <= frac nsec /\ frac nsec <= 1.
Proof.
  unfold time.Second. intros H.
  assert (Hs : (Z.abs nsec < 2 ^ 40)%Z)
    by (change (2 ^ 40)%Z with 1099511627776%Z; lia).
  rewrite frac_eq by exact Hs. split.
  - apply round_nonneg. apply Qle_shift_div_l; [reflexivity|].
    rewrite Qmult_0_l. apply (inject_Z_le 0). lia.
  - rewrite <- (round_int 1) by (unfold prec; simpl; lia).
    apply round_mono. apply Qle_shift_div_r; [reflexivity|].
    rewrite Qmult_1_l. apply inject_Z_le. lia.
Qed.

Lemma duration_parts (d : Z) :
  (0 <= d <= time.maxDuration)%Z ->
  Z.quot d time.Second = (d / time.Second)%Z
  /\ Z.rem d time.Second = (d mod time.Second)%Z
  /\ (0 <= d / time.Second < 2 ^ 34)%Z
  /\ (0 <= d mod time.Second < time.Second)%Z.
Proof.
  unfold time.maxDuration, time.Second. intros H.
  assert (Hm : (0 <= d mod 1000000000 < 1000000000)%Z)
    by (apply Z.mod_pos_bound; lia).
  assert (Hq : (0 <= d / 1000000000 < 2 ^ 34)%Z).
  { split; [apply Z.div_pos; lia|].
    apply Z.div_lt_upper_bound; [lia|].
    change (2 ^ 63)%Z with 9223372036854775808%Z in H.
    change (2 ^ 34)%Z with 17179869184%Z. lia. }
  repeat split; try lia.
  - apply Z.quot_div_nonneg; lia.
  - apply Z.rem_mod_nonneg; lia.
Qed.

Lemma Seconds_eq (d : Z) :
  (0 <= d <= time.maxDuration)%Z ->
  time.Seconds d
  == round (inject_Z (d / time.Second) + frac (d mod time.Second)).
Proof.
  intros H. destruct (duration_parts d H) as (Hq & Hr & Hqb & Hrb).
  unfold time.Seconds. rewrite Hq, Hr. unfold add. apply round_comp.
  rewrite of_int_exact by small. reflexivity.
Qed.

(** A whole number of seconds is represented exactly. *)
Lemma Seconds_whole (s : Z) :
  (0 <= s * time.Second <= time.maxDuration)%Z ->
  time.Seconds (s * time.Second)%Z == inject_Z s.
Proof.
  intros H. rewrite Seconds_eq by exact H.
  rewrite Z.div_mul, Z.mod_mul by (unfold time.Second; lia).
  assert (Hf : frac 0 == 0) by reflexivity.
  rewrite Hf, Qplus_0_r. apply round_int.
  destruct (duration_parts _ H) as (_ & _ & Hqb & _).
  rewrite Z.div_mul in Hqb by (unfold time.Second; lia).
  small.
Qed.

Lemma Seconds_bounds (d : Z) :
  (0 <= d <= time.maxDuration)%Z ->
  0 <= time.Seconds d /\ time.Seconds d <= inject_Z (d / time.Second + 1).
Proof.
  intros H. destruct (duration_parts d H) as (_ & _ & Hqb & Hrb).
  destruct (frac_bounds _ Hrb) as [Hf0 Hf1].
  rewrite Seconds_eq by exact H. split.
  - apply round_nonneg.
    assert (0 <= inject_Z (d / time.Second)) by (apply (inject_Z_le 0); lia).
    lra.
  - rewrite <- (round_int (d / time.Second + 1)) by small.
    apply round_mono. rewrite inject_Z_plus. change (inject_Z 1) with 1. lra.
Qed.

(** Longer durations have no fewer seconds. *)
Lemma Seconds_mono (d1 d2 : Z) :
  (0 <= d1)%Z -> (d1 <= d2)%Z -> (d2 <= time.maxDuration)%Z ->
  time.Seconds d1 <= time.Seconds d2.
Proof.
  intros H0 H12 H2.
  destruct (duration_parts d1 ltac:(lia)) as (_ & _ & Hq1 & Hr1).
  destruct (duration_parts d2 ltac:(lia)) as (_ & _ & Hq2 & Hr2).
  rewrite !Seconds_eq by lia. apply round_mono.
  assert (Hdiv : (d1 / time.Second <= d2 / time.Second)%Z)
    by (apply Z.div_le_mono; [unfold time.Second; lia | exact H12]).
  destruct (Z.eq_dec (d1 / time.Second) (d2 / time.Second)) as [He | Hne].
  - rewrite He. apply Qplus_le_r. apply frac_mono.
    + unfold time.Second in *. change (2 ^ 40)%Z with 1099511627776%Z. lia.
    + unfold time.Second in *. change (2 ^ 40)%Z with 1099511627776%Z. lia.
    + pose proof (Z.div_mod d1 time.Second ltac:(unfold time.Second; lia)).
      pose proof (Z.div_mod d2 time.Second ltac:(unfold time.Second; lia)).
      rewrite He in *. lia.
  - destruct (frac_bounds _ Hr1) as [_ Hf1].
    destruct (frac_bounds _ Hr2) as [Hf2 _].
    assert (inject_Z (d1 / time.Second) + 1 <= inject_Z (d2 / time.Second)).
    { change 1 with (inject_Z 1). rewrite <- inject_Z_plus.
      apply inject_Z_le. lia. }
    lra.
Qed.

Lemma height64_mono (d1 d2 : Z) :
  (0 <= d1)%Z -> (d1 <= d2)%Z -> (d2 <= time.maxDuration)%Z ->
  height64 d1 <= height64 d2.
Proof.
  intros. apply div_mono; [unfold prec; simpl; lia|].
  apply Seconds_mono; assumption.
Qed.

Lemma height64_bounds (d : Z) :
  (0 <= d <= time.maxDuration)%Z ->
  0 <= height64 d /\ (0 <= trunc (height64 d) < 2 ^ 32)%Z.
Proof.
  intros H. destruct (Seconds_bounds d H) as [Hs0 Hs1].
  destruct (duration_parts d H) as (_ & _ & Hqb & _).
  assert (H600 : of_int 600 == inject_Z 600)
    by (apply of_int_exact; unfold prec; simpl; lia).
  assert (Hlo : 0 <= height64 d).
  { unfold height64, div. apply round_nonneg. rewrite H600.
    apply Qle_shift_div_l; [reflexivity|]. rewrite Qmult_0_l. exact Hs0. }
  split; [exact Hlo|]. rewrite trunc_nonneg by exact Hlo. split.
  - apply Qfloor_resp_le in Hlo. exact Hlo.
  - set (b := (d / time.Second + 1)%Z) in *.
    assert (Hb : (b <= 9223372037)%Z).
    { subst b. unfold time.maxDuration, time.Second in *.
      change (2 ^ 63)%Z with 9223372036854775808%Z in H.
      assert (d / 1000000000 < 9223372037)%Z; [|lia].
      apply Z.div_lt_upper_bound; lia. }
    assert (Hup : height64 d <= inject_Z 15372287).
    { rewrite <- (round_int 15372287) by (unfold prec; simpl; lia).
      unfold height64, div. apply round_mono. rewrite H600.
      apply Qle_shift_div_r; [reflexivity|].
      eapply Qle_trans; [exact Hs1|].
      eapply Qle_trans; [apply inject_Z_le, Hb|].
      rewrite <- inject_Z_mult. apply inject_Z_le. lia. }
    apply Qfloor_resp_le in Hup. rewrite Qfloor_Z in Hup.
    change (2 ^ 32)%Z with 4294967296%Z. lia.
Qed.

(** Within the range of a duration that is not negative the conversion to
    [uint32] is the truncation, whatever the platform. *)
Lemma uint32_height64 (oor : Z -> Z) (d : Z) :
  (0 <= d <= time.maxDuration)%Z ->
  uint32_of_float64 oor (height64 d) = trunc (height64 d).
Proof.
  intros H. destruct (height64_bounds d H) as [_ [H0 H1]].
  unfold uint32_of_float64.
  destruct (Z.leb_spec 0 (trunc (height64 d))); [|lia].
  destruct (Z.ltb_spec (trunc (height64 d)) (2 ^ 32)); [|lia].
  reflexivity.
Qed.

Lemma uint32_height64_mono (oor : Z -> Z) (d1 d2 : Z) :
  (0 <= d1)%Z -> (d1 <= d2)%Z -> (d2 <= time.maxDuration)%Z ->
  (uint32_of_float64 oor (height64 d1) <= uint32_of_float64 oor (height64 d2))%Z.
Proof.
  intros H0 H12 H2. rewrite !uint32_height64 by lia.
  apply trunc_mono_nonneg.
  - apply height64_bounds. lia.
  - apply height64_mono; assumption.
Qed.

(** For a whole number of seconds the height is the quotient by 600. *)
Lemma uint32_height64_whole (oor : Z -> Z) (s : Z) :
  (0 <= s * time.Second <= time.maxDuration)%Z ->
  uint32_of_float64 oor (height64 (s * time.Second)) = (s / 600)%Z.
Proof.
  intros H. rewrite uint32_height64 by exact H.
  destruct (height64_bounds _ H) as [H0 _].
  assert (Hs : (0 <= s < 2 ^ 34)%Z).
  { destruct (duration_parts _ H) as (_ & _ & Hqb & _).
    rewrite Z.div_mul in Hqb by (unfold time.Second; lia). exact Hqb. }
  rewrite (trunc_comp_nonneg _ (div (inject_Z s) (of_int 600)) H0).
  - apply trunc_div_int; [lia | lia |].
    apply Z.div_lt_upper_bound; [lia|].
    change (2 ^ 34)%Z with 17179869184%Z in Hs.
    change (2 ^ 42)%Z with 4398046511104%Z. lia.
  - unfold height64, div. apply round_comp.
    rewrite (Seconds_whole s H). reflexivity.
Qed.

Ltac sub_cases :=
  unfold time.Sub, time.minDuration, time.maxDuration in *;
  change (2 ^ 63)%Z with 9223372036854775808%Z in *;
  repeat match goal with
         | |- context [if (?a <? ?b)%Z then _ else _] =>
             destruct (Z.ltb_spec a b)
         end;
  try lia.

Lemma Sub_nonneg (t u : Z) :
  (u <= t)%Z -> (0 <= time.Sub t u <= time.maxDuration)%Z.
Proof. intros H. sub_cases. Qed.

Lemma Sub_mono (t1 t2 u : Z) :
  (t1 <= t2)%Z -> (time.Sub t1 u <= time.Sub t2 u)%Z.
Proof. intros H. sub_cases. Qed.

Lemma Sub_exact (t u : Z) :
  (time.minDuration <= t - u <= time.maxDuration)%Z -> time.Sub t u = (t - u)%Z.
Proof. intros H. sub_cases. Qed.

End EstimateFacts.

(** ** Output, loops and printers *)
Section RunFacts.

Context (E : Env).

Lemma bind_Ok {A B : Type} (o : list string) (a : A) (f : A -> M B) :
  bind (o, Ok a) f = (o ++ fst (f a), snd (f a)).
Proof. reflexivity. Qed.

Lemma bind_Err {A B : Type} (o : list string) (e : string) (f : A -> M B) :
  bind (o, Err e) f = (o, Err e).
Proof. reflexivity. Qed.

Lemma bind_Panic {A B : Type} (o : list string) (p : string) (f : A -> M B) :
  bind (o, Panic p) f = (o, Panic p).
Proof. reflexivity. Qed.

Lemma bind_call_Ok {A B : Type} (a : A) (f : A -> M B) :
  bind (call (Ok a)) f = f a.
Proof. unfold call. rewrite bind_Ok. simpl. destruct (f a); reflexivity. Qed.

Lemma forRange_forEach (n : nat) (i : Z) (body : Z -> M unit) :
  forRange n i body = forEach (map (fun k => i + Z.of_nat k) (seq 0 n)) body.
Proof.
  revert i. induction n as [|n IH]; intros i; [reflexivity|].
  simpl. rewrite Z.add_0_r, IH, <- seq_shift, map_map.
  assert (Hm : map (fun k => i + 1 + Z.of_nat k) (seq 0 n)
               = map (fun k => i + Z.of_nat (S k)) (seq 0 n))
    by (apply map_ext; intros k; lia).
  rewrite Hm. reflexivity.
Qed.

(** The loop visits [indices W]. *)
Lemma forRange_indices (W : Z) (body : Z -> M unit) :
  forRange (Z.to_nat W) 0 body = forEach (indices W) body.
Proof. rewrite forRange_forEach. reflexivity. Qed.

Lemma indices_length (W : Z) : List.length (indices W) = Z.to_nat W.
Proof. unfold indices. rewrite length_map, length_seq. reflexivity. Qed.

Lemma indices_nth (W : Z) (k : nat) :
  (k < Z.to_nat W)%nat -> nth k (indices W) 0 = Z.of_nat k.
Proof.
  intros H. unfold indices.
  rewrite (nth_indep _ 0 (Z.of_nat 0)) by (rewrite length_map, length_seq; exact H).
  rewrite map_nth, seq_nth by exact H. reflexivity.
Qed.

Lemma indices_In (W i : Z) : In i (indices W) <-> 0 <= i < W.
Proof.
  unfold indices. rewrite in_map_iff. split.
  - intros (k & <- & Hk). apply in_seq in Hk. lia.
  - intros H. exists (Z.to_nat i). split; [lia|]. apply in_seq. lia.
Qed.

Lemma indices_succ (n : Z) : 0 <= n -> indices (n + 1) = indices n ++ [n].
Proof.
  intros H. unfold indices.
  replace (Z.to_nat (n + 1)) with (Z.to_nat n + 1)%nat by lia.
  rewrite seq_app, map_app. simpl. rewrite Z2Nat.id by exact H. reflexivity.
Qed.

(** A loop all of whose rounds succeed writes what the rounds write. *)
Lemma forEach_all_ok (l : list Z) (body : Z -> M unit) :
  (forall i, In i l -> snd (body i) = Ok tt) ->
  forEach l body = (flat_map (fun i => fst (body i)) l, Ok tt).
Proof.
  induction l as [|i rest IH]; intros H; [reflexivity|].
  simpl. unfold bind at 1. rewrite (H i) by (left; reflexivity).
  rewrite IH by (intros j Hj; apply H; right; exact Hj). reflexivity.
Qed.

(** A loop stops at the first round that does not succeed. *)
Lemma forEach_stops (before after : list Z) (i : Z) (body : Z -> M unit) :
  (forall j, In j before -> snd (body j) = Ok tt) ->
  snd (body i) <> Ok tt ->
  forEach (before ++ i :: after) body
  = (flat_map (fun j => fst (body j)) before ++ fst (body i), snd (body i)).
Proof.
  induction before as [|j rest IH]; intros Hb Hi.
  - simpl. unfold bind. destruct (snd (body i)) as [[]| |]; congruence.
  - simpl. unfold bind at 1. rewrite (Hb j) by (left; reflexivity).
    rewrite IH; [|intros k Hk; apply Hb; right; exact Hk | exact Hi].
    simpl. rewrite app_assoc. reflexivity.
Qed.

(** *** The printers: one line on success, nothing on failure *)

Ltac step_call :=
  match goal with
  | |- context [call (wrapErr ?p ?r)] =>
      destruct r; simpl wrapErr;
      [rewrite bind_call_Ok | right; split; [reflexivity | discriminate] ..]
  end.

Lemma printBitcoinCli_shape k path b i :
  oneLineOrNothing (printBitcoinCli E k path b i).
Proof.
  unfold printBitcoinCli. repeat step_call.
  left. eexists. reflexivity.
Qed.

Lemma printBitcoinCliWatchOnly_shape k path b i :
  oneLineOrNothing (printBitcoinCliWatchOnly E k path b i).
Proof.
  unfold printBitcoinCliWatchOnly. repeat step_call.
  left. eexists. reflexivity.
Qed.

Lemma printBitcoinImportWallet_shape k path b i :
  oneLineOrNothing (printBitcoinImportWallet E k path b i).
Proof.
  unfold printBitcoinImportWallet. repeat step_call.
  left. eexists. reflexivity.
Qed.

Lemma selectFormat_cases (format : string) :
  selectFormat E format = (printBitcoinCli E, pasteComment)
  \/ selectFormat E format = (printBitcoinCliWatchOnly E, pasteComment)
  \/ selectFormat E format = (printBitcoinImportWallet E, importwalletComment).
Proof.
  unfold selectFormat.
  destruct (String.eqb format "bitcoin-cli"); [left; reflexivity|].
  destruct (String.eqb format "bitcoin-cli-watchonly"); [right; left; reflexivity|].
  destruct (String.eqb format "bitcoin-importwallet"); [right; right; reflexivity|].
  left; reflexivity.
Qed.

Lemma selected_printer_shape format k path b i :
  oneLineOrNothing (fst (selectFormat E format) k path b i).
Proof.
  destruct (selectFormat_cases format) as [-> | [-> | ->]]; simpl.
  - apply printBitcoinCli_shape.
  - apply printBitcoinCliWatchOnly_shape.
  - apply printBitcoinImportWallet_shape.
Qed.

Lemma deriveAndPrint_unfold printFn root prefix path b i :
  deriveAndPrint E printFn root prefix path b i
  = match DeriveChildren E root (keyPath prefix b i) with
    | Ok k => printFn k path b i
    | Err e => ([], Err e)
    | Panic p => ([], Panic p)
    end.
Proof.
  unfold deriveAndPrint.
  destruct (DeriveChildren E root (keyPath prefix b i)) as [k | e | p].
  - exact (bind_call_Ok k (fun derivedKey => printFn derivedKey path b i)).
  - reflexivity.
  - reflexivity.
Qed.

Lemma stepSucceeds_line printFn root prefix path b i :
  printerShape printFn ->
  stepSucceeds E printFn root prefix path b i ->
  exists line, keyLineAt E printFn root prefix path b i line
               /\ deriveAndPrint E printFn root prefix path b i = ([line], Ok tt).
Proof.
  intros Hshape (k & Hk & Hok).
  destruct (Hshape k path b i) as [[line Hline] | [_ Hbad]]; [|congruence].
  exists line. split.
  - exists k. split; assumption.
  - rewrite deriveAndPrint_unfold, Hk. exact Hline.
Qed.

(** A branch whose positions all succeed writes their key lines in order. *)
Lemma branch_ok printFn root prefix path b (l : list Z) :
  printerShape printFn ->
  (forall i, In i l -> stepSucceeds E printFn root prefix path b i) ->
  exists lines,
    forEach l (deriveAndPrint E printFn root prefix path b) = (lines, Ok tt)
    /\ Forall2 (keyLineAt E printFn root prefix path b) l lines.
Proof.
  intros Hshape. induction l as [|i rest IH]; intros H.
  - exists []. split; [reflexivity | constructor].
  - destruct (stepSucceeds_line _ _ _ _ _ _ Hshape (H i (or_introl eq_refl)))
      as (line & Hline & Hrun).
    destruct IH as (lines & Hrest & Hall);
      [intros j Hj; apply H; right; exact Hj|].
    exists (line :: lines). split.
    + simpl. rewrite Hrun, bind_Ok, Hrest. reflexivity.
    + constructor; assumption.
Qed.

(** A branch stops at a position whose derived key the printer refuses. *)
Lemma branch_stops printFn root prefix path b (before after : list Z) i k e :
  printerShape printFn ->
  (forall j, In j before -> stepSucceeds E printFn root prefix path b j) ->
  DeriveChildren E root (keyPath prefix b i) = Ok k ->
  snd (printFn k path b i) = Err e ->
  exists lines,
    forEach (before ++ i :: after) (deriveAndPrint E printFn root prefix path b)
    = (lines, Err e)
    /\ Forall2 (keyLineAt E printFn root prefix path b) before lines.
Proof.
  intros Hshape Hb Hk He.
  destruct (branch_ok printFn root prefix path b before Hshape Hb)
    as (lines & Hrun & Hall).
  exists lines. split; [|exact Hall].
  assert (Hi : deriveAndPrint E printFn root prefix path b i = ([], Err e)).
  { rewrite deriveAndPrint_unfold, Hk.
    destruct (Hshape k path b i) as [[line Hline] | [Hnil _]].
    - rewrite Hline in He. discriminate.
    - destruct (printFn k path b i) as [o r]. simpl in *. congruence. }
  clear Hb. revert lines Hrun Hall.
  induction before as [|j rest IH]; intros lines Hrun Hall.
  - simpl in Hrun. injection Hrun as <-. simpl. rewrite Hi. reflexivity.
  - simpl in Hrun. simpl.
    inversion Hall as [|? line ? lines' Hj Hrest]; subst.
    destruct Hj as (kj & Hkj & Hpj).
    assert (Hdj : deriveAndPrint E printFn root prefix path b j = ([line], Ok tt))
      by (rewrite deriveAndPrint_unfold, Hkj; exact Hpj).
    rewrite Hdj, bind_Ok in Hrun. rewrite Hdj, bind_Ok.
    destruct (forEach rest _) as [o r] eqn:Hr. simpl in Hrun.
    injection Hrun as Ho Hrr. subst r.
    assert (Ho' : o = lines') by (simpl in Ho; congruence). subst o.
    rewrite (IH lines' eq_refl Hrest). reflexivity.
Qed.

Lemma indices_split (W i : Z) :
  0 <= i < W ->
  exists after, indices W = indices i ++ i :: after.
Proof.
  intros H. unfold indices.
  replace (Z.to_nat W) with (Z.to_nat i + S (Z.to_nat (W - i - 1)))%nat by lia.
  rewrite seq_app, map_app. simpl. rewrite Z2Nat.id by lia.
  eexists. reflexivity.
Qed.

(** *** The run after the root key *)

Lemma generate_unfold root c prefix :
  ParsePath E (DerivationPath c) = Ok prefix ->
  generate E root c
  = (print (headerLine E) ;;;
     print (snd (selectFormat E (Format c))) ;;;
     forEach (indices (RecoveryWindow c))
             (deriveAndPrint E (fst (selectFormat E (Format c))) root prefix
                             (DerivationPath c) 0) ;;;
     forEach (indices (RecoveryWindow c))
             (deriveAndPrint E (fst (selectFormat E (Format c))) root prefix
                             (DerivationPath c) 1) ;;;
     print (rescanLine (RescanFrom c))).
Proof.
  intros H. unfold generate. rewrite H. simpl wrapErr.
  rewrite bind_call_Ok, !forRange_indices. reflexivity.
Qed.

(** When every position succeeds the run writes the header, the comment,
    the key lines of branch 0, those of branch 1 and the rescan line. *)
Lemma generate_ok root c prefix :
  ParsePath E (DerivationPath c) = Ok prefix ->
  (forall b i, b = 0 \/ b = 1 -> 0 <= i < RecoveryWindow c ->
               stepSucceeds E (fst (selectFormat E (Format c))) root prefix
                            (DerivationPath c) b i) ->
  exists ext int,
    generate E root c
    = ([headerLine E; snd (selectFormat E (Format c))]
         ++ ext ++ int ++ [rescanLine (RescanFrom c)], Ok tt)
    /\ Forall2 (keyLineAt E (fst (selectFormat E (Format c))) root prefix
                          (DerivationPath c) 0)
               (indices (RecoveryWindow c)) ext
    /\ Forall2 (keyLineAt E (fst (selectFormat E (Format c))) root prefix
                          (DerivationPath c) 1)
               (indices (RecoveryWindow c)) int.
Proof.
  intros Hp Hall.
  assert (Hshape : printerShape (fst (selectFormat E (Format c))))
    by (intros k path b i; apply selected_printer_shape).
  destruct (branch_ok _ root prefix (DerivationPath c) 0
                      (indices (RecoveryWindow c)) Hshape)
    as (ext & Hext & Fext).
  { intros i Hi. apply Hall; [left; reflexivity | apply indices_In, Hi]. }
  destruct (branch_ok _ root prefix (DerivationPath c) 1
                      (indices (RecoveryWindow c)) Hshape)
    as (int & Hint & Fint).
  { intros i Hi. apply Hall; [right; reflexivity | apply indices_In, Hi]. }
  exists ext, int. split; [|split; assumption].
  rewrite (generate_unfold root c prefix Hp).
  unfold print at 1 2. rewrite !bind_Ok. rewrite Hext, bind_Ok, Hint, bind_Ok.
  simpl. reflexivity.
Qed.

Lemma Forall2_pair printFn root prefix path b (l : list Z) lines :
  Forall2 (keyLineAt E printFn root prefix path b) l lines ->
  Forall2 (keyLineOf E printFn root prefix path) (map (pair b) l) lines.
Proof.
  induction 1; simpl; constructor; assumption.
Qed.

(** The run stops at the first position whose key the printer refuses:
    nothing is written after the key lines of the positions before it. *)
Lemma generate_stops root c prefix b i k e :
  ParsePath E (DerivationPath c) = Ok prefix ->
  b = 0 \/ b = 1 -> 0 <= i < RecoveryWindow c ->
  (forall b' i', b' = 0 \/ b' = 1 -> 0 <= i' < RecoveryWindow c ->
                 b' < b \/ (b' = b /\ i' < i) ->
                 stepSucceeds E (fst (selectFormat E (Format c))) root prefix
                              (DerivationPath c) b' i') ->
  DeriveChildren E root (keyPath prefix b i) = Ok k ->
  snd (fst (selectFormat E (Format c)) k (DerivationPath c) b i) = Err e ->
  exists lines,
    generate E root c
    = ([headerLine E; snd (selectFormat E (Format c))] ++ lines, Err e)
    /\ Forall2 (keyLineOf E (fst (selectFormat E (Format c))) root prefix
                          (DerivationPath c))
               (positionsBefore (RecoveryWindow c) b i) lines.
Proof.
  intros Hp Hb Hi Hearlier Hk He.
  assert (Hshape : printerShape (fst (selectFormat E (Format c))))
    by (intros k' path b' i'; apply selected_printer_shape).
  destruct (indices_split (RecoveryWindow c) i Hi) as [after Hsplit].
  rewrite (generate_unfold root c prefix Hp).
  unfold print at 1 2. rewrite !bind_Ok.
  destruct Hb as [-> | ->].
  - destruct (branch_stops _ root prefix (DerivationPath c) 0
                           (indices i) after i k e Hshape)
      as (lines & Hrun & Hall); [|exact Hk|exact He|].
    { intros j Hj. apply indices_In in Hj.
      apply Hearlier; [left; reflexivity | lia | right; lia]. }
    exists lines. split.
    + rewrite Hsplit, Hrun, bind_Err. reflexivity.
    + unfold positionsBefore. simpl. apply Forall2_pair, Hall.
  - destruct (branch_ok _ root prefix (DerivationPath c) 0
                        (indices (RecoveryWindow c)) Hshape)
      as (ext & Hext & Fext).
    { intros j Hj. apply indices_In in Hj.
      apply Hearlier; [left; reflexivity | lia | left; lia]. }
    destruct (branch_stops _ root prefix (DerivationPath c) 1
                           (indices i) after i k e Hshape)
      as (lines & Hrun & Hall); [|exact Hk|exact He|].
    { intros j Hj. apply indices_In in Hj.
      apply Hearlier; [right; reflexivity | lia | right; lia]. }
    exists (ext ++ lines). split.
    + rewrite Hext, bind_Ok, Hsplit, Hrun, bind_Err. simpl. reflexivity.
    + unfold positionsBefore. simpl.
      apply Forall2_app; apply Forall2_pair; assumption.
Qed.

(** *** Reading the root key *)

Lemma readRootKey_string c :
  RootKey c <> EmptyString ->
  readRootKey E c
  = ([], match NewKeyFromString E (RootKey c) with
         | Ok k => Ok (k, c)
         | Err e => Err ("error reading root key: " ++ e)%string
         | Panic p => Panic p
         end).
Proof.
  intros H. unfold readRootKey.
  destruct (String.eqb_spec (RootKey c) EmptyString) as [He | _]; [congruence|].
  simpl negb. cbv iota.
  destruct (NewKeyFromString E (RootKey c)); reflexivity.
Qed.

Lemma readRootKey_console c :
  RootKey c = EmptyString ->
  readRootKey E c
  = (fst (rootKeyFromConsole E),
     match snd (rootKeyFromConsole E) with
     | Ok kb =>
         match seedBirthdayToBlock E (time.Add (snd kb) (- 48 * time.Hour)) with
         | Ok h => Ok (fst kb, withRescanFrom c h)
         | Err e => Err e
         | Panic p => Panic p
         end
     | Err e => Err ("error reading root key: " ++ e)%string
     | Panic p => Panic p
     end).
Proof.
  intros H. unfold readRootKey. rewrite H. simpl negb. cbv iota.
  destruct (rootKeyFromConsole E) as [o [[k b] | e | p]]; simpl; try reflexivity.
  unfold bind at 1. simpl.
  destruct (seedBirthdayToBlock E _); simpl; rewrite ?app_nil_r; reflexivity.
Qed.

(** Reading the root key changes no field but [RescanFrom]. *)
Lemma readRootKey_fields c pre root c1 :
  readRootKey E c = (pre, Ok (root, c1)) ->
  exists h, c1 = withRescanFrom c h.
Proof.
  intros H. destruct (string_dec (RootKey c) EmptyString) as [He | Hne].
  - rewrite (readRootKey_console c He) in H.
    destruct (snd (rootKeyFromConsole E)) as [kb | |]; try discriminate.
    destruct (seedBirthdayToBlock E _) as [h | |]; try discriminate.
    exists h. congruence.
  - rewrite (readRootKey_string c Hne) in H.
    destruct (NewKeyFromString E (RootKey c)); try discriminate.
    exists (RescanFrom c). destruct c. unfold withRescanFrom. simpl. congruence.
Qed.

(** *** Defaults *)

Lemma setDefaults_RecoveryWindow c :
  RecoveryWindow (setDefaults c)
  = if Z.eqb (RecoveryWindow c) 0 then defaultRecoveryWindow else RecoveryWindow c.
Proof.
  unfold setDefaults.
  destruct (Z.eqb (RecoveryWindow c) 0) eqn:Hw; simpl;
    destruct (Z.eqb (RescanFrom c) 0); simpl;
    destruct (String.eqb (DerivationPath c) EmptyString); reflexivity.
Qed.

Lemma setDefaults_RescanFrom c :
  RescanFrom (setDefaults c)
  = if Z.eqb (RescanFrom c) 0 then defaultRescanFrom else RescanFrom c.
Proof.
  unfold setDefaults.
  destruct (Z.eqb (RecoveryWindow c) 0); simpl;
    destruct (Z.eqb (RescanFrom c) 0) eqn:Hr; simpl;
    destruct (String.eqb (DerivationPath c) EmptyString); reflexivity.
Qed.

Lemma setDefaults_DerivationPath c :
  DerivationPath (setDefaults c)
  = if String.eqb (DerivationPath c) EmptyString
    then defaultDerivationPath else DerivationPath c.
Proof.
  unfold setDefaults.
  destruct (Z.eqb (RecoveryWindow c) 0); simpl;
    destruct (Z.eqb (RescanFrom c) 0); simpl;
    destruct (String.eqb (DerivationPath c) EmptyString) eqn:Hp; reflexivity.
Qed.

Lemma setDefaults_RootKey c : RootKey (setDefaults c) = RootKey c.
Proof.
  unfold setDefaults.
  destruct (Z.eqb (RecoveryWindow c) 0); simpl;
    destruct (Z.eqb (RescanFrom c) 0); simpl;
    destruct (String.eqb (DerivationPath c) EmptyString); reflexivity.
Qed.

Lemma setDefaults_Format c : Format (setDefaults c) = Format c.
Proof.
  unfold setDefaults.
  destruct (Z.eqb (RecoveryWindow c) 0); simpl;
    destruct (Z.eqb (RescanFrom c) 0); simpl;
    destruct (String.eqb (DerivationPath c) EmptyString); reflexivity.
Qed.

Lemma setDefaults_withRescanFrom c h :
  RecoveryWindow (setDefaults (withRescanFrom c h)) = RecoveryWindow (setDefaults c)
  /\ DerivationPath (setDefaults (withRescanFrom c h)) = DerivationPath (setDefaults c)
  /\ Format (setDefaults (withRescanFrom c h)) = Format (setDefaults c).
Proof.
  rewrite !setDefaults_RecoveryWindow, !setDefaults_DerivationPath,
    !setDefaults_Format. repeat split; reflexivity.
Qed.

Lemma setDefaults_withFormat c f :
  setDefaults (withFormat c f) = withFormat (setDefaults c) f.
Proof.
  unfold setDefaults. simpl.
  destruct (Z.eqb (RecoveryWindow c) 0); simpl;
    destruct (Z.eqb (RescanFrom c) 0); simpl;
    destruct (String.eqb (DerivationPath c) EmptyString); reflexivity.
Qed.


End RunFacts.

(** ** The height estimate *)
Section EstimateProperties.

Context (E : Env).

Import EstimateFacts.

Lemma estimateFrom_height64 (genesis birthday : time.Time) :
  estimateFrom E genesis birthday
  = uint32_of_float64 (cvtOutOfRange E) (height64 (time.Sub birthday genesis)).
Proof. reflexivity. Qed.

Lemma seedBirthdayToBlock_mainnet (birthday : time.Time) :
  chainParamsName E = "mainnet"%string ->
  seedBirthdayToBlock E birthday
  = Ok (estimateFrom E chaincfg.MainNetGenesisTimestamp birthday).
Proof. intros H. unfold seedBirthdayToBlock. rewrite H. reflexivity. Qed.

Lemma seedBirthdayToBlock_testnet3 (birthday : time.Time) :
  chainParamsName E = "testnet3"%string ->
  seedBirthdayToBlock E birthday
  = Ok (estimateFrom E chaincfg.TestNet3GenesisTimestamp birthday).
Proof. intros H. unfold seedBirthdayToBlock. rewrite H. reflexivity. Qed.

Lemma seedBirthdayToBlock_regtest_simnet (birthday : time.Time) :
  chainParamsName E = "regtest"%string \/ chainParamsName E = "simnet"%string ->
  seedBirthdayToBlock E birthday = Ok 0.
Proof.
  intros [H | H]; unfold seedBirthdayToBlock; rewrite H; reflexivity.
Qed.

Lemma seedBirthdayToBlock_unknown (birthday : time.Time) :
  ~ supportedNetwork (chainParamsName E) ->
  seedBirthdayToBlock E birthday
  = Panic ("unimplemented network " ++ chainParamsName E)%string.
Proof.
  intros H. unfold seedBirthdayToBlock, supportedNetwork in *.
  destruct (String.eqb_spec (chainParamsName E) "mainnet"); [tauto|].
  destruct (String.eqb_spec (chainParamsName E) "testnet3"); [tauto|].
  destruct (String.eqb_spec (chainParamsName E) "regtest"); [tauto|].
  destruct (String.eqb_spec (chainParamsName E) "simnet"); [tauto|].
  reflexivity.
Qed.

Lemma estimateFrom_whole (g s : Z) :
  0 <= (s - g) * time.Second <= time.maxDuration ->
  estimateFrom E (time.Unix g 0) (time.Unix s 0) = (s - g) / 600.
Proof.
  intros H. rewrite estimateFrom_height64.
  assert (Hsub : time.Sub (time.Unix s 0) (time.Unix g 0) = (s - g) * time.Second).
  { unfold time.Unix, time.maxDuration, time.Second in *.
    change (2 ^ 63) with 9223372036854775808 in H.
    rewrite Sub_exact; unfold time.minDuration, time.maxDuration;
      change (2 ^ 63) with 9223372036854775808; lia. }
  rewrite Hsub. apply uint32_height64_whole. exact H.
Qed.

Lemma estimateFrom_mono (g t1 t2 : Z) :
  g <= t1 -> t1 <= t2 -> estimateFrom E g t1 <= estimateFrom E g t2.
Proof.
  intros Hg H. rewrite !estimateFrom_height64.
  pose proof (Sub_nonneg t1 g Hg). pose proof (Sub_nonneg t2 g ltac:(lia)).
  apply uint32_height64_mono; [lia | apply Sub_mono; exact H | lia].
Qed.

(** C3 (amended).  On mainnet and testnet3, for every birthday that is a
    whole number of seconds, not before the network's genesis timestamp and
    at most the largest duration after it, [seedBirthdayToBlock] returns
    the floor of the difference in seconds divided by 600, a block height
    in the range of a [uint32]. *)
Theorem estimate_is_floor_of_seconds_by_600 (genesis : time.Time) (s : Z) :
  (chainParamsName E = "mainnet"%string
   /\ genesis = chaincfg.MainNetGenesisTimestamp)
  \/ (chainParamsName E = "testnet3"%string
      /\ genesis = chaincfg.TestNet3GenesisTimestamp) ->
  0 <= time.Unix s 0 - genesis <= time.maxDuration ->
  seedBirthdayToBlock E (time.Unix s 0)
  = Ok ((time.Unix s 0 - genesis) / (600 * time.Second))
  /\ isUint32 ((time.Unix s 0 - genesis) / (600 * time.Second)).
Proof.
  intros Hnet Hrange.
  assert (Hg : exists g, genesis = time.Unix g 0
                         /\ seedBirthdayToBlock E (time.Unix s 0)
                            = Ok (estimateFrom E (time.Unix g 0) (time.Unix s 0))).
  { destruct Hnet as [[Hn ->] | [Hn ->]].
    - exists 1231006505. split; [reflexivity|].
      apply seedBirthdayToBlock_mainnet, Hn.
    - exists 1296688602. split; [reflexivity|].
      apply seedBirthdayToBlock_testnet3, Hn. }
  destruct Hg as (g & -> & Hrun).
  assert (Hd : time.Unix s 0 - time.Unix g 0 = (s - g) * time.Second)
    by (unfold time.Unix; lia).
  rewrite Hd in *.
  assert (Hq : (s - g) * time.Second / (600 * time.Second) = (s - g) / 600).
  { rewrite Z.div_mul_cancel_r; [reflexivity | lia | unfold time.Second; lia]. }
  rewrite Hq, Hrun, estimateFrom_whole by exact Hrange.
  split; [reflexivity|].
  unfold isUint32, time.maxDuration, time.Second in *.
  change (2 ^ 63) with 9223372036854775808 in Hrange.
  change (2 ^ 32) with 4294967296.
  split; [apply Z.div_pos; lia | apply Z.div_lt_upper_bound; lia].
Qed.

(** From the genesis timestamp on the estimate is monotone: for a supported
    network and timestamps [t1 <= t2], where on mainnet and testnet3 [t1] is
    not before the genesis timestamp, both estimates are returned and the
    first is at most the second. *)
Theorem estimate_monotone_from_genesis (t1 t2 : time.Time) :
  supportedNetwork (chainParamsName E) ->
  t1 <= t2 ->
  (chainParamsName E = "mainnet"%string ->
   chaincfg.MainNetGenesisTimestamp <= t1) ->
  (chainParamsName E = "testnet3"%string ->
   chaincfg.TestNet3GenesisTimestamp <= t1) ->
  exists h1 h2,
    seedBirthdayToBlock E t1 = Ok h1
    /\ seedBirthdayToBlock E t2 = Ok h2
    /\ h1 <= h2.
Proof.
  intros Hnet H12 Hmain Htest.
  destruct Hnet as [Hn | [Hn | Hn]].
  - rewrite !(seedBirthdayToBlock_mainnet _ Hn).
    do 2 eexists. repeat split. apply estimateFrom_mono; [apply Hmain, Hn | exact H12].
  - rewrite !(seedBirthdayToBlock_testnet3 _ Hn).
    do 2 eexists. repeat split. apply estimateFrom_mono; [apply Htest, Hn | exact H12].
  - rewrite !(seedBirthdayToBlock_regtest_simnet _ Hn).
    exists 0, 0. repeat split. lia.
Qed.

(** C8.  On regtest and on simnet [seedBirthdayToBlock] returns 0 for every
    birthday. *)
Theorem estimate_is_zero_on_regtest_and_simnet (birthday : time.Time) :
  chainParamsName E = "regtest"%string \/ chainParamsName E = "simnet"%string ->
  seedBirthdayToBlock E birthday = Ok 0.
Proof.
  intros Hnet. unfold seedBirthdayToBlock.
  destruct Hnet as [H | H]; rewrite H.
  - (* "regtest" is neither "mainnet" nor "testnet3" *)
    reflexivity.
  - (* "simnet" is reached through the second alternative of the case *)
    reflexivity.
Qed.

End EstimateProperties.

Lemma estimate_is_floor_of_seconds_by_600_witness :
  seedBirthdayToBlock Sample.mainnet (time.Unix 1577836800 0)
  = Ok ((time.Unix 1577836800 0 - chaincfg.MainNetGenesisTimestamp)
        / (600 * time.Second))
  /\ isUint32 ((time.Unix 1577836800 0 - chaincfg.MainNetGenesisTimestamp)
               / (600 * time.Second)).
Proof.
  apply (estimate_is_floor_of_seconds_by_600 Sample.mainnet).
  - left. split; reflexivity.
  - vm_compute. split; discriminate.
Defined.

(** C3, as stated, fails in three ways.  One nanosecond below a multiple of
    600 seconds the float64 number of seconds rounds up, and the height with
    it: the floor is 578049, the code yields 578050.  Before the genesis
    block the floor is negative: one hour before it the floor is -6, while
    the code yields [2^32 - 6] on amd64 and 0 on arm64.  Beyond the largest
    duration the difference saturates: the floor is 15372287, the code yields
    15372286. *)
Lemma estimate_is_not_always_the_floor :
  ((time.Add chaincfg.MainNetGenesisTimestamp (346830000 * time.Second - 1)
    - chaincfg.MainNetGenesisTimestamp) / (600 * time.Second) = 578049
   /\ seedBirthdayToBlock Sample.mainnet
        (time.Add chaincfg.MainNetGenesisTimestamp (346830000 * time.Second - 1))
      = Ok 578050)
  /\ ((time.Unix (1231006505 - 3600) 0 - chaincfg.MainNetGenesisTimestamp)
      / (600 * time.Second) = -6
      /\ seedBirthdayToBlock Sample.mainnet (time.Unix (1231006505 - 3600) 0)
         = Ok 4294967290
      /\ seedBirthdayToBlock Sample.mainnet_arm64
           (time.Unix (1231006505 - 3600) 0)
         = Ok 0)
  /\ ((time.Add chaincfg.MainNetGenesisTimestamp (2 ^ 63 + 600 * time.Second)
       - chaincfg.MainNetGenesisTimestamp) / (600 * time.Second) = 15372287
      /\ seedBirthdayToBlock Sample.mainnet
           (time.Add chaincfg.MainNetGenesisTimestamp
                     (2 ^ 63 + 600 * time.Second))
         = Ok 15372286).
Proof. repeat split; vm_compute; reflexivity. Qed.

Lemma estimate_monotone_from_genesis_witness :
  exists h1 h2,
    seedBirthdayToBlock Sample.mainnet (time.Unix 1577836800 0) = Ok h1
    /\ seedBirthdayToBlock Sample.mainnet (time.Unix 1577836800 999999999) = Ok h2
    /\ h1 <= h2.
Proof.
  apply (estimate_monotone_from_genesis Sample.mainnet).
  - left. reflexivity.
  - vm_compute. discriminate.
  - intros _. vm_compute. discriminate.
  - intros H. vm_compute in H. discriminate H.
Defined.

(** C4.  The estimate is not monotone across the genesis block: on mainnet
    and amd64, for [t1] one hour before the genesis timestamp and [t2] the
    genesis timestamp, [t1 <= t2] but the estimate for [t1] is [2^32 - 6]
    and that for [t2] is 0.  The float64 height [-6.0] is converted to
    [uint32] without a guard. *)
Lemma estimate_not_monotone_across_genesis :
  time.Unix (1231006505 - 3600) 0 <= chaincfg.MainNetGenesisTimestamp
  /\ seedBirthdayToBlock Sample.mainnet (time.Unix (1231006505 - 3600) 0)
     = Ok 4294967290
  /\ seedBirthdayToBlock Sample.mainnet chaincfg.MainNetGenesisTimestamp = Ok 0
  /\ ~ 4294967290 <= 0.
Proof.
  split; [vm_compute; discriminate|].
  split; [vm_compute; reflexivity|].
  split; [vm_compute; reflexivity | lia].
Qed.

Lemma estimate_is_zero_on_regtest_and_simnet_witness :
  seedBirthdayToBlock Sample.regtest Sample.birthday = Ok 0.
Proof.
  apply (estimate_is_zero_on_regtest_and_simnet Sample.regtest).
  left. reflexivity.
Defined.

(** ** The run *)
Section RunProperties.

Context (E : Env).

Lemma Execute_after_root c pre root c1 :
  readRootKey E c = (pre, Ok (root, c1)) ->
  Execute E c
  = (pre ++ fst (generate E root (setDefaults c1)),
     snd (generate E root (setDefaults c1))).
Proof. intros H. unfold Execute. rewrite H. reflexivity. Qed.

(** When the root key is read, the path parses and every position
    succeeds, the run writes what came with the root key, the header, the
    comment, the key lines of branch 0 over [0 .. W-1], those of branch 1
    over [0 .. W-1] and the rescan line. *)
Lemma Execute_ok c pre root c1 prefix :
  readRootKey E c = (pre, Ok (root, c1)) ->
  ParsePath E (DerivationPath (setDefaults c1)) = Ok prefix ->
  (forall b i, b = 0 \/ b = 1 -> 0 <= i < RecoveryWindow (setDefaults c1) ->
               stepSucceeds E (fst (selectFormat E (Format (setDefaults c1))))
                            root prefix (DerivationPath (setDefaults c1)) b i) ->
  exists ext int,
    Execute E c
    = (pre ++ [headerLine E; snd (selectFormat E (Format (setDefaults c1)))]
           ++ ext ++ int ++ [rescanLine (RescanFrom (setDefaults c1))], Ok tt)
    /\ Forall2 (keyLineAt E (fst (selectFormat E (Format (setDefaults c1))))
                          root prefix (DerivationPath (setDefaults c1)) 0)
               (indices (RecoveryWindow (setDefaults c1))) ext
    /\ Forall2 (keyLineAt E (fst (selectFormat E (Format (setDefaults c1))))
                          root prefix (DerivationPath (setDefaults c1)) 1)
               (indices (RecoveryWindow (setDefaults c1))) int.
Proof.
  intros Hroot Hpath Hall.
  destruct (generate_ok E root (setDefaults c1) prefix Hpath Hall)
    as (ext & int & Hgen & Fext & Fint).
  exists ext, int. split; [|split; assumption].
  rewrite (Execute_after_root c pre root c1 Hroot), Hgen. reflexivity.
Qed.

Lemma resolved_window_nonneg c :
  isUint32 (RecoveryWindow c) -> 0 <= RecoveryWindow (setDefaults c).
Proof.
  unfold isUint32. intros H. rewrite setDefaults_RecoveryWindow.
  destruct (Z.eqb (RecoveryWindow c) 0); unfold defaultRecoveryWindow; lia.
Qed.

(** C1 (amended).  When the root key is read, the path prefix parses and
    every derive and print step succeeds, the run with resolved window [W]
    writes exactly [2 * W] key lines: first those of branch 0 for the
    indices [0 .. W-1] in ascending order, then those of branch 1 likewise;
    each is the line printed for the key derived along the parsed prefix
    extended by the two levels branch and index; exactly one line
    [bitcoin-cli rescanblockchain <height>] follows them.  Both added
    levels are non-hardened whenever [W <= 2^31]. *)
Theorem enumeration_is_complete_and_ordered c pre root c1 prefix :
  isUint32 (RecoveryWindow c1) ->
  readRootKey E c = (pre, Ok (root, c1)) ->
  ParsePath E (DerivationPath (setDefaults c1)) = Ok prefix ->
  (forall b i, b = 0 \/ b = 1 -> 0 <= i < RecoveryWindow (setDefaults c1) ->
               stepSucceeds E (fst (selectFormat E (Format (setDefaults c1))))
                            root prefix (DerivationPath (setDefaults c1)) b i) ->
  exists ext int,
    Execute E c
    = (pre ++ [headerLine E; snd (selectFormat E (Format (setDefaults c1)))]
           ++ ext ++ int ++ [rescanLine (RescanFrom (setDefaults c1))], Ok tt)
    /\ Forall2 (keyLineAt E (fst (selectFormat E (Format (setDefaults c1))))
                          root prefix (DerivationPath (setDefaults c1)) 0)
               (indices (RecoveryWindow (setDefaults c1))) ext
    /\ Forall2 (keyLineAt E (fst (selectFormat E (Format (setDefaults c1))))
                          root prefix (DerivationPath (setDefaults c1)) 1)
               (indices (RecoveryWindow (setDefaults c1))) int
    /\ Z.of_nat (List.length (ext ++ int)) = 2 * RecoveryWindow (setDefaults c1)
    /\ (forall b i, keyPath prefix b i = prefix ++ [b; i])
    /\ (RecoveryWindow (setDefaults c1) <= HardenedKeyStart ->
        forall b i, b = 0 \/ b = 1 -> 0 <= i < RecoveryWindow (setDefaults c1) ->
                    isHardened b = false /\ isHardened i = false).
Proof.
  intros Hw Hroot Hpath Hall.
  destruct (Execute_ok c pre root c1 prefix Hroot Hpath Hall)
    as (ext & int & Hrun & Fext & Fint).
  exists ext, int.
  split; [exact Hrun|]. split; [exact Fext|]. split; [exact Fint|].
  split; [|split].
  - pose proof (resolved_window_nonneg c1 Hw) as H0.
    pose proof (Forall2_length Fext) as Le.
    pose proof (Forall2_length Fint) as Li.
    rewrite length_app, <- Le, <- Li, indices_length. lia.
  - intros b i. reflexivity.
  - intros Hle b i Hb Hi. unfold isHardened. split; apply Z.leb_gt.
    + unfold HardenedKeyStart. destruct Hb as [-> | ->]; reflexivity.
    + lia.
Qed.

(** *** The format selector *)

Lemma selectFormat_fallback (format : string) :
  format <> "bitcoin-cli"%string ->
  format <> "bitcoin-cli-watchonly"%string ->
  format <> "bitcoin-importwallet"%string ->
  selectFormat E format = selectFormat E "bitcoin-cli".
Proof.
  intros H1 H2 H3. unfold selectFormat.
  destruct (String.eqb_spec format "bitcoin-cli"); [congruence|].
  destruct (String.eqb_spec format "bitcoin-cli-watchonly"); [congruence|].
  destruct (String.eqb_spec format "bitcoin-importwallet"); [congruence|].
  reflexivity.
Qed.

Lemma generate_same_printer root c c' :
  selectFormat E (Format c) = selectFormat E (Format c') ->
  DerivationPath c = DerivationPath c' ->
  RecoveryWindow c = RecoveryWindow c' ->
  RescanFrom c = RescanFrom c' ->
  generate E root c = generate E root c'.
Proof.
  intros Hf Hp Hw Hr. unfold generate. rewrite Hf, Hp, Hw, Hr. reflexivity.
Qed.

Lemma readRootKey_withFormat c f :
  readRootKey E (withFormat c f)
  = (fst (readRootKey E c),
     match snd (readRootKey E c) with
     | Ok kc => Ok (fst kc, withFormat (snd kc) f)
     | Err e => Err e
     | Panic p => Panic p
     end).
Proof.
  destruct (string_dec (RootKey c) EmptyString) as [He | Hne].
  - rewrite (readRootKey_console E (withFormat c f) He),
      (readRootKey_console E c He). simpl.
    destruct (snd (rootKeyFromConsole E)) as [kb | |]; try reflexivity.
    destruct (seedBirthdayToBlock E _); reflexivity.
  - rewrite (readRootKey_string E (withFormat c f) Hne),
      (readRootKey_string E c Hne). simpl.
    destruct (NewKeyFromString E (RootKey c)); reflexivity.
Qed.

(** C5.  With a format selector other than the three recognised ones the
    run selects without error what ["bitcoin-cli"] selects, and its output
    and outcome are those of the same run with the format set to
    ["bitcoin-cli"]. *)
Theorem unknown_format_runs_as_bitcoin_cli c (format : string) :
  format <> "bitcoin-cli"%string ->
  format <> "bitcoin-cli-watchonly"%string ->
  format <> "bitcoin-importwallet"%string ->
  selectFormat E format = (printBitcoinCli E, pasteComment)
  /\ Execute E (withFormat c format) = Execute E (withFormat c "bitcoin-cli").
Proof.
  intros H1 H2 H3. split.
  - rewrite (selectFormat_fallback format H1 H2 H3). reflexivity.
  - unfold Execute. rewrite !readRootKey_withFormat.
    destruct (readRootKey E c) as [o [[k c1] | e | p]]; simpl; try reflexivity.
    unfold bind. simpl.
    rewrite (generate_same_printer k (setDefaults (withFormat c1 format))
                                   (setDefaults (withFormat c1 "bitcoin-cli")));
      [reflexivity | | | | ];
      rewrite !setDefaults_withFormat; simpl; try reflexivity.
    apply selectFormat_fallback; assumption.
Qed.

(** *** Keys without private material *)

Lemma printBitcoinCli_public_only k point path b i :
  material k = PublicOnly point ->
  printBitcoinCli E k path b i = ([], Err signingKeyError).
Proof.
  intros H. unfold printBitcoinCli, ECPrivKey. rewrite H. reflexivity.
Qed.

Lemma printBitcoinImportWallet_public_only k point path b i :
  material k = PublicOnly point ->
  printBitcoinImportWallet E k path b i = ([], Err signingKeyError).
Proof.
  intros H. unfold printBitcoinImportWallet, ECPrivKey. rewrite H. reflexivity.
Qed.

Lemma signing_printer_public_only (format : string) k point path b i :
  format <> "bitcoin-cli-watchonly"%string ->
  material k = PublicOnly point ->
  fst (selectFormat E format) k path b i = ([], Err signingKeyError).
Proof.
  intros Hf Hk. unfold selectFormat.
  destruct (String.eqb_spec format "bitcoin-cli");
    [apply (printBitcoinCli_public_only k point), Hk|].
  destruct (String.eqb_spec format "bitcoin-cli-watchonly"); [congruence|].
  destruct (String.eqb_spec format "bitcoin-importwallet"); simpl.
  - apply (printBitcoinImportWallet_public_only k point), Hk.
  - apply (printBitcoinCli_public_only k point), Hk.
Qed.

(** C6.  For a derived key that holds only public material the two
    printers that export the signing key fail with an error and write
    nothing; the run returns that error at the first such position
    [(b, i)]: its output is what came with the root key, the header, the
    comment and the key lines of the positions before [(b, i)], with no
    further key line and no rescan line. *)
Theorem public_only_key_aborts_the_run c pre root c1 prefix b i k point :
  readRootKey E c = (pre, Ok (root, c1)) ->
  ParsePath E (DerivationPath (setDefaults c1)) = Ok prefix ->
  Format c1 <> "bitcoin-cli-watchonly"%string ->
  b = 0 \/ b = 1 ->
  0 <= i < RecoveryWindow (setDefaults c1) ->
  (forall b' i', b' = 0 \/ b' = 1 ->
                 0 <= i' < RecoveryWindow (setDefaults c1) ->
                 b' < b \/ (b' = b /\ i' < i) ->
                 stepSucceeds E (fst (selectFormat E (Format (setDefaults c1))))
                              root prefix (DerivationPath (setDefaults c1))
                              b' i') ->
  DeriveChildren E root (keyPath prefix b i) = Ok k ->
  material k = PublicOnly point ->
  printBitcoinCli E k (DerivationPath (setDefaults c1)) b i
  = ([], Err signingKeyError)
  /\ printBitcoinImportWallet E k (DerivationPath (setDefaults c1)) b i
     = ([], Err signingKeyError)
  /\ exists lines,
       Execute E c
       = (pre ++ [headerLine E; snd (selectFormat E (Format (setDefaults c1)))]
              ++ lines, Err signingKeyError)
       /\ Forall2 (keyLineOf E (fst (selectFormat E (Format (setDefaults c1))))
                             root prefix (DerivationPath (setDefaults c1)))
                  (positionsBefore (RecoveryWindow (setDefaults c1)) b i)
                  lines.
Proof.
  intros Hroot Hpath Hfmt Hb Hi Hearlier Hk Hpub.
  split; [apply (printBitcoinCli_public_only k point), Hpub|].
  split; [apply (printBitcoinImportWallet_public_only k point), Hpub|].
  destruct (generate_stops E root (setDefaults c1) prefix b i k signingKeyError
                           Hpath Hb Hi Hearlier Hk)
    as (lines & Hgen & Hall).
  { rewrite (signing_printer_public_only _ k point); [reflexivity | | exact Hpub].
    rewrite setDefaults_Format. exact Hfmt. }
  exists lines. split; [|exact Hall].
  rewrite (Execute_after_root c pre root c1 Hroot), Hgen. reflexivity.
Qed.

(** *** Defaults and the rescan height *)

(** C7.  The defaults are set field by field after the root key is read
    and before anything is generated: a zero [RecoveryWindow] becomes 2500,
    a zero [RescanFrom] becomes 500000, an empty [DerivationPath] becomes
    [m/84'/0'/0'], and a field that is not zero (not empty) keeps its
    value; the other fields are not touched. *)
Theorem defaults_are_set_per_field c :
  RecoveryWindow (setDefaults c)
  = (if Z.eqb (RecoveryWindow c) 0 then 2500 else RecoveryWindow c)
  /\ RescanFrom (setDefaults c)
     = (if Z.eqb (RescanFrom c) 0 then 500000 else RescanFrom c)
  /\ DerivationPath (setDefaults c)
     = (if String.eqb (DerivationPath c) EmptyString
        then "m/84'/0'/0'"%string else DerivationPath c)
  /\ RootKey (setDefaults c) = RootKey c
  /\ Format (setDefaults c) = Format c
  /\ Execute E c
     = (kc <- readRootKey E c ;; generate E (fst kc) (setDefaults (snd kc))).
Proof.
  rewrite setDefaults_RecoveryWindow, setDefaults_RescanFrom,
    setDefaults_DerivationPath, setDefaults_RootKey, setDefaults_Format.
  repeat split; reflexivity.
Qed.

Lemma Execute_rescan_irrelevant_on_console c r :
  RootKey c = EmptyString ->
  Execute E (withRescanFrom c r) = Execute E c.
Proof.
  intros H. unfold Execute.
  rewrite (readRootKey_console E (withRescanFrom c r) H),
    (readRootKey_console E c H).
  reflexivity.
Qed.

(** C9.  When the [rootkey] flag is empty the root key comes from the
    console and [RescanFrom] is overwritten with the estimate for the
    birthday minus 48 hours, whatever value was supplied: the run does not
    depend on the supplied value.  When the flag is not empty the supplied
    value is kept. *)
Theorem console_birthday_overrides_rescanFrom c (r : Z) :
  RootKey c = EmptyString ->
  Execute E (withRescanFrom c r) = Execute E c
  /\ (forall k birthday h,
        snd (rootKeyFromConsole E) = Ok (k, birthday) ->
        seedBirthdayToBlock E (time.Add birthday (- 48 * time.Hour)) = Ok h ->
        readRootKey E (withRescanFrom c r)
        = (fst (rootKeyFromConsole E), Ok (k, withRescanFrom c h)))
  /\ (forall c' k,
        RootKey c' <> EmptyString ->
        NewKeyFromString E (RootKey c') = Ok k ->
        readRootKey E c' = ([], Ok (k, c'))).
Proof.
  intros H. split; [apply Execute_rescan_irrelevant_on_console, H|]. split.
  - intros k birthday h Hc Hs.
    rewrite (readRootKey_console E (withRescanFrom c r) H), Hc.
    cbn [fst snd]. rewrite Hs. reflexivity.
  - intros c' k Hne Hk. rewrite (readRootKey_string E c' Hne), Hk. reflexivity.
Qed.

Lemma bind_Ok_inv {A B : Type} (m : M A) (f : A -> M B) out (b : B) :
  bind m f = (out, Ok b) ->
  exists o1 a o2, m = (o1, Ok a) /\ f a = (o2, Ok b) /\ out = o1 ++ o2.
Proof.
  destruct m as [o1 [a | e | p]]; unfold bind; simpl; intros H;
    try discriminate.
  destruct (f a) as [o2 r] eqn:Hf. simpl in H. injection H as Ho Hr.
  subst out r. exists o1, a, o2. split; [reflexivity|]. split; [exact Hf|].
  reflexivity.
Qed.

(** A run that succeeds ends with the rescan line of the resolved height. *)
Lemma generate_Ok_inv root c out :
  generate E root c = (out, Ok tt) ->
  exists body, out = body ++ [rescanLine (RescanFrom c)].
Proof.
  unfold generate. intros H.
  apply bind_Ok_inv in H. destruct H as (o1 & prefix & o2 & _ & H & ->).
  apply bind_Ok_inv in H. destruct H as (o3 & [] & o4 & _ & H & ->).
  apply bind_Ok_inv in H. destruct H as (o5 & [] & o6 & _ & H & ->).
  apply bind_Ok_inv in H. destruct H as (o7 & [] & o8 & _ & H & ->).
  apply bind_Ok_inv in H. destruct H as (o9 & [] & o10 & _ & H & ->).
  unfold print in H. injection H as <-.
  exists (o1 ++ o3 ++ o5 ++ o7 ++ o9). rewrite <- !app_assoc. reflexivity.
Qed.

Lemma Execute_Ok_inv c out :
  Execute E c = (out, Ok tt) ->
  exists pre root c1 body,
    readRootKey E c = (pre, Ok (root, c1))
    /\ out = body ++ [rescanLine (RescanFrom (setDefaults c1))].
Proof.
  unfold Execute. intros H.
  apply bind_Ok_inv in H. destruct H as (pre & [root c1] & o2 & Hroot & H & ->).
  simpl in H. apply generate_Ok_inv in H. destruct H as [body ->].
  exists pre, root, c1, (pre ++ body). split; [exact Hroot|].
  rewrite app_assoc. reflexivity.
Qed.

Lemma string_length_append (a b : string) :
  String.length (a ++ b) = (String.length a + String.length b)%nat.
Proof. induction a as [|x a IH]; simpl; [reflexivity | rewrite IH; reflexivity]. Qed.

Lemma append_tail_inj (a b c : string) :
  (a ++ c)%string = (b ++ c)%string -> a = b.
Proof.
  revert b. induction a as [|x a IH]; intros [|y b] H; simpl in H.
  - reflexivity.
  - apply (f_equal String.length) in H. simpl in H.
    rewrite string_length_append in H. lia.
  - apply (f_equal String.length) in H. simpl in H.
    rewrite string_length_append in H. lia.
  - injection H as -> H. f_equal. apply IH, H.
Qed.

Lemma fmt_d_inj (a b : Z) : fmt_d a = fmt_d b -> a = b.
Proof.
  unfold fmt_d. intros H.
  assert (Hnn : forall z, Z.to_int z <> Decimal.Pos Decimal.Nil
                          /\ Z.to_int z <> Decimal.Neg Decimal.Nil).
  { intros [|p|p]; simpl; split; try discriminate;
      intros Hp; injection Hp as Hp;
      apply (DecimalPos.Unsigned.to_uint_nonnil p Hp). }
  apply (f_equal NilZero.int_of_string) in H.
  destruct (Hnn a) as [Ha1 Ha2]. destruct (Hnn b) as [Hb1 Hb2].
  rewrite !NilZero.isi in H by assumption.
  injection H as H. apply DecimalZ.to_int_inj, H.
Qed.

Lemma rescanLine_inj (a b : Z) : rescanLine a = rescanLine b -> a = b.
Proof.
  unfold rescanLine. intros H. simpl in H.
  repeat match type of H with
         | String _ _ = String _ _ => injection H as H
         end.
  apply append_tail_inj in H. apply fmt_d_inj, H.
Qed.

(** C10.  A run that succeeds ends with the rescan line of a height that
    is not 0, a line other than [bitcoin-cli rescanblockchain 0]; when the
    height is zero before the defaults are set, as it is after a console
    birthday on regtest and simnet, the line is
    [bitcoin-cli rescanblockchain 500000]. *)
Theorem rescan_line_never_carries_zero c out :
  Execute E c = (out, Ok tt) ->
  exists pre root c1 body,
    readRootKey E c = (pre, Ok (root, c1))
    /\ out = body ++ [rescanLine (RescanFrom (setDefaults c1))]
    /\ RescanFrom (setDefaults c1) <> 0
    /\ rescanLine (RescanFrom (setDefaults c1)) <> rescanLine 0
    /\ (RescanFrom c1 = 0 ->
        last out EmptyString
        = ("bitcoin-cli rescanblockchain 500000" ++ nl)%string)
    /\ (RootKey c = EmptyString ->
        chainParamsName E = "regtest"%string
        \/ chainParamsName E = "simnet"%string ->
        RescanFrom c1 = 0).
Proof.
  intros H. destruct (Execute_Ok_inv c out H) as (pre & root & c1 & body & Hroot & ->).
  exists pre, root, c1, body.
  assert (Hnz : RescanFrom (setDefaults c1) <> 0).
  { rewrite setDefaults_RescanFrom.
    destruct (Z.eqb_spec (RescanFrom c1) 0); unfold defaultRescanFrom; lia. }
  split; [exact Hroot|]. split; [reflexivity|]. split; [exact Hnz|].
  split; [|split].
  - intros Heq. apply Hnz, rescanLine_inj, Heq.
  - intros Hz. rewrite last_last, setDefaults_RescanFrom, Hz. reflexivity.
  - intros Hk Hnet. rewrite (readRootKey_console E c Hk) in Hroot.
    destruct (snd (rootKeyFromConsole E)) as [kb | |]; try discriminate.
    rewrite (seedBirthdayToBlock_regtest_simnet E _ Hnet) in Hroot.
    injection Hroot as _ _ <-. reflexivity.
Qed.

(** C2 (amended).  On a network other than mainnet, testnet3, regtest and
    simnet, [seedBirthdayToBlock] panics with the message
    [unimplemented network <name>] and returns no height; a run that takes
    its root key from the console ends in that panic, which [Execute] does
    not recover, after what the console wrote. *)
Theorem unknown_network_panics (birthday : time.Time) :
  ~ supportedNetwork (chainParamsName E) ->
  seedBirthdayToBlock E birthday
  = Panic ("unimplemented network " ++ chainParamsName E)%string
  /\ (forall c k b,
        RootKey c = EmptyString ->
        snd (rootKeyFromConsole E) = Ok (k, b) ->
        Execute E c
        = (fst (rootKeyFromConsole E),
           Panic ("unimplemented network " ++ chainParamsName E)%string)).
Proof.
  intros H. split; [apply seedBirthdayToBlock_unknown, H|].
  intros c k b Hk Hc. unfold Execute.
  rewrite (readRootKey_console E c Hk), Hc. cbn [fst snd].
  rewrite (seedBirthdayToBlock_unknown E _ H). reflexivity.
Qed.

End RunProperties.

(** ** The rounding model and the machine

    On the sample durations the rational model of [Seconds] and of the
    height computes the values the primitive binary64 operations compute. *)
Example rounding_model_agrees_with_binary64 :
  forallb Binary64.agrees Binary64.samples = true.
Proof. vm_compute. reflexivity. Qed.

(** A seed of day 0 or 1 reaches that case on mainnet: the birthday minus 48
    hours lies before the genesis block, and the run asks for a rescan from
    a height above four billion. *)
Example day_zero_seed_rescans_from_a_wrapped_height :
  last (fst (Execute Sample.mainnetDayZero
                     (Sample.cmd EmptyString "bitcoin-cli-watchonly" 1 0)))
       EmptyString
  = ("bitcoin-cli rescanblockchain 4294967008" ++ nl)%string.
Proof. vm_compute. reflexivity. Qed.

(** ** The model at work *)

Example run_bitcoin_cli :
  Execute Sample.mainnet (Sample.cmd "xprv" "bitcoin-cli" 2 0)
  = ([ ("# Wallet dump created by chantools on 2020-06-01 12:00:00 +0000 UTC"
        ++ nl)%string;
       ("# Paste the following lines into a command line window." ++ nl)%string;
       ("bitcoin-cli importprivkey K01 " ++ dquote ++ "m/84'/0'/0'/0/0/"
        ++ dquote ++ " false" ++ nl)%string;
       ("bitcoin-cli importprivkey K01 " ++ dquote ++ "m/84'/0'/0'/0/1/"
        ++ dquote ++ " false" ++ nl)%string;
       ("bitcoin-cli importprivkey K01 " ++ dquote ++ "m/84'/0'/0'/1/0/"
        ++ dquote ++ " false" ++ nl)%string;
       ("bitcoin-cli importprivkey K01 " ++ dquote ++ "m/84'/0'/0'/1/1/"
        ++ dquote ++ " false" ++ nl)%string;
       ("bitcoin-cli rescanblockchain 500000" ++ nl)%string ],
     Ok tt).
Proof. vm_compute. reflexivity. Qed.

Example run_importwallet_from_console :
  Execute Sample.mainnet (Sample.cmd EmptyString "bitcoin-importwallet" 1 7)
  = ([ ("# Wallet dump created by chantools on 2020-06-01 12:00:00 +0000 UTC"
        ++ nl)%string;
       ("# Save this output to a file and use the importwallet command of "
        ++ "bitcoin core." ++ nl)%string;
       ("K01 1970-01-01T00:00:01Z label=m/84'/0'/0'/0/0/ "
        ++ "# addr=101,30014,bc101" ++ nl)%string;
       ("K01 1970-01-01T00:00:01Z label=m/84'/0'/0'/1/0/ "
        ++ "# addr=101,30014,bc101" ++ nl)%string;
       ("bitcoin-cli rescanblockchain 577762" ++ nl)%string ],
     Ok tt).
Proof. vm_compute. reflexivity. Qed.

(** In the sample environment every position of a private root key
    succeeds, whatever the index. *)
Lemma sample_step_succeeds (name : string) (oor : Z -> Z) (t : time.Time)
      (prefix : list Z) (path : string) (b i : Z) :
  stepSucceeds (Sample.env name oor t) (printBitcoinCli (Sample.env name oor t))
               Sample.rootKey prefix path b i.
Proof.
  unfold stepSucceeds. eexists. split; reflexivity.
Qed.

Lemma enumeration_is_complete_and_ordered_witness :
  exists ext int,
    Execute Sample.mainnet (Sample.cmd "xprv" "bitcoin-cli" 2 0)
    = ([] ++ [headerLine Sample.mainnet; pasteComment]
          ++ ext ++ int ++ [rescanLine 500000], Ok tt)
    /\ Z.of_nat (List.length (ext ++ int)) = 2 * 2.
Proof.
  destruct (enumeration_is_complete_and_ordered
              Sample.mainnet (Sample.cmd "xprv" "bitcoin-cli" 2 0) []
              Sample.rootKey (Sample.cmd "xprv" "bitcoin-cli" 2 0)
              Sample.defaultPrefix)
    as (ext & int & Hrun & _ & _ & Hlen & _).
  - vm_compute. split; [discriminate | reflexivity].
  - reflexivity.
  - reflexivity.
  - intros b i _ _. apply sample_step_succeeds.
  - exists ext, int. split; [exact Hrun | exact Hlen].
Defined.

(** C1, as stated, fails for a window above 2^31: with [W = 2^31 + 1] the
    run succeeds, and the key line that follows the header, the comment and
    the 2^31 key lines before it is printed for the key derived along the
    prefix extended by the levels 0 and 2^31, the second of which is
    hardened. *)
Lemma huge_window_reaches_a_hardened_index :
  exists before line after k,
    Execute Sample.mainnet Sample.hugeWindowCmd
    = (before ++ line :: after, Ok tt)
    /\ List.length before = (2 + Z.to_nat (2 ^ 31))%nat
    /\ 0 <= 2 ^ 31 < RecoveryWindow (setDefaults Sample.hugeWindowCmd)
    /\ DeriveChildren Sample.mainnet Sample.rootKey
                      (Sample.defaultPrefix ++ [0; 2 ^ 31]) = Ok k
    /\ printBitcoinCli Sample.mainnet k "m/84'/0'/0'" 0 (2 ^ 31)
       = ([line], Ok tt)
    /\ isHardened (2 ^ 31) = true.
Proof.
  destruct (Execute_ok Sample.mainnet Sample.hugeWindowCmd []
                       Sample.rootKey Sample.hugeWindowCmd Sample.defaultPrefix)
    as (ext & int & Hrun & Fext & _).
  - reflexivity.
  - reflexivity.
  - intros b i _ _. apply sample_step_succeeds.
  - change (RecoveryWindow (setDefaults Sample.hugeWindowCmd))
      with (2 ^ 31 + 1) in Fext.
    rewrite (indices_succ (2 ^ 31)) in Fext by (vm_compute; discriminate).
    apply Forall2_app_inv_l in Fext.
    destruct Fext as (ext1 & ext2 & F1 & F2 & ->).
    inversion F2 as [|? line ? rest Hline Hnil]; subst.
    inversion Hnil; subst.
    destruct Hline as (k & Hk & Hprint).
    exists ([headerLine Sample.mainnet; pasteComment] ++ ext1), line,
      (int ++ [rescanLine (RescanFrom (setDefaults Sample.hugeWindowCmd))]), k.
    split; [|split; [|split; [|split; [|split]]]].
    + rewrite Hrun. f_equal. cbn [app]. rewrite <- !app_assoc. reflexivity.
    + pose proof (Forall2_length F1) as L. rewrite indices_length in L.
      cbn [app List.length]. rewrite <- L. reflexivity.
    + vm_compute. split; [discriminate | reflexivity].
    + exact Hk.
    + exact Hprint.
    + reflexivity.
Qed.

Lemma unknown_network_panics_witness :
  seedBirthdayToBlock Sample.signet Sample.birthday
  = Panic "unimplemented network signet"
  /\ Execute Sample.signet (Sample.cmd EmptyString "bitcoin-cli" 1 0)
     = ([], Panic "unimplemented network signet").
Proof.
  destruct (unknown_network_panics Sample.signet Sample.birthday) as [Hs Hrun].
  - unfold supportedNetwork. simpl.
    intros [H | [H | [H | H]]]; discriminate H.
  - split; [exact Hs|].
    apply (Hrun (Sample.cmd EmptyString "bitcoin-cli" 1 0)
                Sample.rootKey Sample.birthday); reflexivity.
Defined.

(** C2, as stated, fails: on signet the estimate does not return an error,
    it panics, and the run from the console ends in that panic and in no
    returned error. *)
Lemma unknown_network_is_not_a_returned_error :
  seedBirthdayToBlock Sample.signet Sample.birthday
  = Panic "unimplemented network signet"
  /\ Execute Sample.signet (Sample.cmd EmptyString "bitcoin-cli" 1 0)
     = ([], Panic "unimplemented network signet")
  /\ ~ (exists cause,
           snd (Execute Sample.signet (Sample.cmd EmptyString "bitcoin-cli" 1 0))
           = Err cause).
Proof.
  split; [reflexivity|]. split; [reflexivity|].
  intros [cause H]. vm_compute in H. discriminate H.
Qed.

Lemma unknown_format_runs_as_bitcoin_cli_witness :
  selectFormat Sample.mainnet "electrum"
  = (printBitcoinCli Sample.mainnet, pasteComment)
  /\ Execute Sample.mainnet
             (withFormat (Sample.cmd "xprv" "bitcoin-cli-watchonly" 2 0) "electrum")
     = Execute Sample.mainnet
               (withFormat (Sample.cmd "xprv" "bitcoin-cli-watchonly" 2 0)
                           "bitcoin-cli").
Proof.
  apply (unknown_format_runs_as_bitcoin_cli Sample.mainnet); discriminate.
Defined.

Lemma public_only_key_aborts_the_run_witness :
  exists lines,
    Execute Sample.mainnet (Sample.watchOnlyCmd "bitcoin-importwallet")
    = ([] ++ [headerLine Sample.mainnet; importwalletComment] ++ lines,
       Err signingKeyError)
    /\ lines = [].
Proof.
  destruct (public_only_key_aborts_the_run
              Sample.mainnet (Sample.watchOnlyCmd "bitcoin-importwallet") []
              Sample.pubRootKey (Sample.watchOnlyCmd "bitcoin-importwallet")
              [0] 0 0
              (mkExtendedKey 3 [] 0 "mainnet" (PublicOnly [Byte.x02]))
              [Byte.x02])
    as (_ & _ & lines & Hrun & Hall).
  - reflexivity.
  - reflexivity.
  - discriminate.
  - left. reflexivity.
  - vm_compute. split; [discriminate | reflexivity].
  - intros b' i' Hb' Hi' [Hlt | [_ Hlt]]; lia.
  - reflexivity.
  - reflexivity.
  - exists lines. split; [exact Hrun|].
    inversion Hall. reflexivity.
Defined.

Lemma console_birthday_overrides_rescanFrom_witness :
  Execute Sample.mainnet
          (withRescanFrom (Sample.cmd EmptyString "bitcoin-cli" 1 0) 123456)
  = Execute Sample.mainnet (Sample.cmd EmptyString "bitcoin-cli" 1 0)
  /\ readRootKey Sample.mainnet
                 (withRescanFrom (Sample.cmd EmptyString "bitcoin-cli" 1 0) 123456)
     = ([], Ok (Sample.rootKey,
                withRescanFrom (Sample.cmd EmptyString "bitcoin-cli" 1 0) 577762)).
Proof.
  destruct (console_birthday_overrides_rescanFrom
              Sample.mainnet (Sample.cmd EmptyString "bitcoin-cli" 1 0) 123456
              eq_refl)
    as (Hrun & Hread & _).
  split; [exact Hrun|].
  apply (Hread Sample.rootKey Sample.birthday 577762).
  - reflexivity.
  - vm_compute. reflexivity.
Defined.

Lemma rescan_line_never_carries_zero_witness :
  exists body,
    fst (Execute Sample.regtest (Sample.cmd EmptyString "bitcoin-cli" 1 7))
    = body ++ [("bitcoin-cli rescanblockchain 500000" ++ nl)%string].
Proof.
  destruct (rescan_line_never_carries_zero
              Sample.regtest (Sample.cmd EmptyString "bitcoin-cli" 1 7)
              (fst (Execute Sample.regtest
                            (Sample.cmd EmptyString "bitcoin-cli" 1 7))))
    as (pre & root & c1 & body & Hroot & Hout & _ & _ & _ & Hzero).
  - vm_compute. reflexivity.
  - exists body. rewrite Hout. f_equal. f_equal.
    assert (Hz : RescanFrom c1 = 0).
    { apply Hzero; [reflexivity | left; reflexivity]. }
    unfold rescanLine. rewrite setDefaults_RescanFrom, Hz. reflexivity.
Defined.

(** * More of the run *)

(** ** Defaults *)

(** X1.  After the defaults no field is left unset: the window and the
    rescan height are not zero and the path is not empty; setting the
    defaults again changes nothing. *)
Theorem defaults_leave_nothing_unset_and_are_idempotent c :
  RecoveryWindow (setDefaults c) <> 0
  /\ RescanFrom (setDefaults c) <> 0
  /\ DerivationPath (setDefaults c) <> EmptyString
  /\ setDefaults (setDefaults c) = setDefaults c.
Proof.
  assert (Hw : RecoveryWindow (setDefaults c) <> 0).
  { rewrite setDefaults_RecoveryWindow.
    destruct (Z.eqb_spec (RecoveryWindow c) 0); [discriminate | assumption]. }
  assert (Hr : RescanFrom (setDefaults c) <> 0).
  { rewrite setDefaults_RescanFrom.
    destruct (Z.eqb_spec (RescanFrom c) 0); [discriminate | assumption]. }
  assert (Hp : DerivationPath (setDefaults c) <> EmptyString).
  { rewrite setDefaults_DerivationPath.
    destruct (String.eqb_spec (DerivationPath c) EmptyString);
      [discriminate | assumption]. }
  repeat split; try assumption.
  unfold setDefaults at 1.
  apply Z.eqb_neq in Hw, Hr. apply String.eqb_neq in Hp.
  rewrite Hw. cbv zeta. rewrite Hr. cbv zeta. rewrite Hp. reflexivity.
Qed.

Section FailingRuns.

Context (E : Env).

(** ** Errors before the header *)

(** X2.  When the root key is given and does not parse, the run returns
    [error reading root key: <cause>] and writes nothing. *)
Theorem unreadable_root_key_string c (cause : string) :
  RootKey c <> EmptyString ->
  NewKeyFromString E (RootKey c) = Err cause ->
  Execute E c = ([], Err ("error reading root key: " ++ cause)%string).
Proof.
  intros Hk He. unfold Execute.
  rewrite (readRootKey_string E c Hk), He. reflexivity.
Qed.

(** X3.  When the console fails, the run returns
    [error reading root key: <cause>] after what the console wrote; no
    height is estimated, so not even an unknown network panics. *)
Theorem unreadable_console c (cause : string) :
  RootKey c = EmptyString ->
  snd (rootKeyFromConsole E) = Err cause ->
  Execute E c
  = (fst (rootKeyFromConsole E),
     Err ("error reading root key: " ++ cause)%string).
Proof.
  intros Hk He. unfold Execute.
  rewrite (readRootKey_console E c Hk), He. reflexivity.
Qed.

(** X4.  When the path does not parse, the run returns
    [error parsing path: <cause>] before the header: it writes nothing of
    its own. *)
Theorem unparsable_path c pre root c1 (cause : string) :
  readRootKey E c = (pre, Ok (root, c1)) ->
  ParsePath E (DerivationPath (setDefaults c1)) = Err cause ->
  Execute E c = (pre, Err ("error parsing path: " ++ cause)%string).
Proof.
  intros Hroot Hp. rewrite (Execute_after_root E c pre root c1 Hroot).
  unfold generate. rewrite Hp. simpl. rewrite app_nil_r. reflexivity.
Qed.

(** ** The first failing position *)

Lemma deriveAndPrint_shape printFn root prefix path b i :
  printerShape printFn ->
  oneLineOrNothing (deriveAndPrint E printFn root prefix path b i).
Proof.
  intros Hshape. rewrite deriveAndPrint_unfold.
  destruct (DeriveChildren E root (keyPath prefix b i)) as [k | e | p].
  - apply Hshape.
  - right. split; [reflexivity | discriminate].
  - right. split; [reflexivity | discriminate].
Qed.

Lemma deriveAndPrint_line printFn root prefix path b i line :
  deriveAndPrint E printFn root prefix path b i = ([line], Ok tt) ->
  keyLineAt E printFn root prefix path b i line.
Proof.
  rewrite deriveAndPrint_unfold.
  destruct (DeriveChildren E root (keyPath prefix b i)) as [k | e | p] eqn:Hk;
    intros H; try discriminate.
  exists k. split; [exact Hk | exact H].
Qed.

(** A branch stops at the first position that writes nothing and fails,
    with the outcome of that position. *)
Lemma branch_stops_with printFn root prefix path b before after i r :
  (forall j, In j before -> stepSucceeds E printFn root prefix path b j) ->
  printerShape printFn ->
  deriveAndPrint E printFn root prefix path b i = ([], r) ->
  r <> Ok tt ->
  exists lines,
    forEach (before ++ i :: after) (deriveAndPrint E printFn root prefix path b)
    = (lines, r)
    /\ Forall2 (keyLineAt E printFn root prefix path b) before lines.
Proof.
  intros Hb Hshape Hi Hr.
  induction before as [|j rest IH].
  - exists []. split; [|constructor].
    simpl. rewrite Hi. unfold bind. simpl.
    destruct r as [[] | e | p]; [congruence | reflexivity | reflexivity].
  - destruct (stepSucceeds_line E _ _ _ _ _ _ Hshape (Hb j (or_introl eq_refl)))
      as (line & Hline & Hrun).
    destruct IH as (lines & Hrest & Hall);
      [intros k Hk; apply Hb; right; exact Hk|].
    exists (line :: lines). split; [|constructor; assumption].
    simpl. rewrite Hrun, bind_Ok, Hrest. reflexivity.
Qed.

(** Every branch either succeeds throughout or has a first position that
    fails. *)
Lemma branch_outcome printFn root prefix path b (l : list Z) :
  printerShape printFn ->
  (forall i, In i l -> stepSucceeds E printFn root prefix path b i)
  \/ exists before i after r,
       l = before ++ i :: after
       /\ (forall j, In j before -> stepSucceeds E printFn root prefix path b j)
       /\ deriveAndPrint E printFn root prefix path b i = ([], r)
       /\ r <> Ok tt.
Proof.
  intros Hshape. induction l as [|i rest IH].
  - left. intros i [].
  - destruct (deriveAndPrint_shape printFn root prefix path b i Hshape)
      as [[line Hline] | [Hnil Hbad]].
    + assert (Hi : stepSucceeds E printFn root prefix path b i).
      { destruct (deriveAndPrint_line _ _ _ _ _ _ _ Hline) as (k & Hk & Hp).
        exists k. split; [exact Hk | rewrite Hp; reflexivity]. }
      destruct IH as [Hall | (before & j & after & r & -> & Hb & Hj & Hr)].
      * left. intros j [<- | Hj]; [exact Hi | apply Hall, Hj].
      * right. exists (i :: before), j, after, r.
        split; [reflexivity|]. split; [|split; assumption].
        intros k [<- | Hk]; [exact Hi | apply Hb, Hk].
    + right. exists [], i, rest, (snd (deriveAndPrint E printFn root prefix path b i)).
      split; [reflexivity|]. split; [intros j []|]. split; [|exact Hbad].
      destruct (deriveAndPrint E printFn root prefix path b i) as [o r].
      simpl in *. subst o. reflexivity.
Qed.

Lemma firstn_seq_le (k n a : nat) :
  (k <= n)%nat -> firstn k (seq a n) = seq a k.
Proof.
  revert n a. induction k as [|k IH]; intros [|n] a H; simpl;
    try reflexivity; try lia.
  f_equal. apply IH. lia.
Qed.

Lemma indices_firstn (W : Z) (k : nat) :
  (k <= Z.to_nat W)%nat -> firstn k (indices W) = indices (Z.of_nat k).
Proof.
  intros H. unfold indices. rewrite Nat2Z.id, firstn_map.
  f_equal. apply firstn_seq_le, H.
Qed.

(** A split of [indices W] is the split at the index itself. *)
Lemma indices_decompose (W i : Z) (before after : list Z) :
  indices W = before ++ i :: after -> before = indices i /\ 0 <= i < W.
Proof.
  intros H.
  assert (Hlen : (List.length before < Z.to_nat W)%nat).
  { rewrite <- indices_length, H, length_app. simpl. lia. }
  assert (Hi : i = Z.of_nat (List.length before)).
  { rewrite <- (indices_nth W _ Hlen), H, app_nth2, Nat.sub_diag by lia.
    reflexivity. }
  split.
  - rewrite Hi, <- (indices_firstn W) by lia.
    rewrite H, firstn_app, Nat.sub_diag, firstn_all. simpl.
    rewrite app_nil_r. reflexivity.
  - lia.
Qed.

(** The run stops at the first position that fails, with the outcome of that
    position and the key lines of the positions before it. *)
Lemma generate_stops_with root c prefix b i r :
  ParsePath E (DerivationPath c) = Ok prefix ->
  b = 0 \/ b = 1 -> 0 <= i < RecoveryWindow c ->
  (forall b' i', b' = 0 \/ b' = 1 -> 0 <= i' < RecoveryWindow c ->
                 b' < b \/ (b' = b /\ i' < i) ->
                 stepSucceeds E (fst (selectFormat E (Format c))) root prefix
                              (DerivationPath c) b' i') ->
  deriveAndPrint E (fst (selectFormat E (Format c))) root prefix
                 (DerivationPath c) b i = ([], r) ->
  r <> Ok tt ->
  exists lines,
    generate E root c
    = ([headerLine E; snd (selectFormat E (Format c))] ++ lines, r)
    /\ Forall2 (keyLineOf E (fst (selectFormat E (Format c))) root prefix
                          (DerivationPath c))
               (positionsBefore (RecoveryWindow c) b i) lines.
Proof.
  intros Hp Hb Hi Hearlier Hstep Hr.
  assert (Hshape : printerShape (fst (selectFormat E (Format c))))
    by (intros k' path b' i'; apply selected_printer_shape).
  destruct (indices_split (RecoveryWindow c) i Hi) as [after Hsplit].
  rewrite (generate_unfold E root c prefix Hp).
  unfold print at 1 2. rewrite !bind_Ok.
  destruct Hb as [-> | ->].
  - destruct (branch_stops_with (fst (selectFormat E (Format c))) root prefix
                                (DerivationPath c) 0
                                (indices i) after i r)
      as (lines & Hrun & Hall); try assumption.
    { intros j Hj. apply indices_In in Hj.
      apply Hearlier; [left; reflexivity | lia | right; lia]. }
    exists lines. split.
    + rewrite Hsplit, Hrun. unfold bind. simpl.
      destruct r as [[] | e | p]; [congruence | reflexivity | reflexivity].
    + unfold positionsBefore. simpl. apply Forall2_pair, Hall.
  - destruct (branch_ok E _ root prefix (DerivationPath c) 0
                        (indices (RecoveryWindow c)) Hshape)
      as (ext & Hext & Fext).
    { intros j Hj. apply indices_In in Hj.
      apply Hearlier; [left; reflexivity | lia | left; lia]. }
    destruct (branch_stops_with (fst (selectFormat E (Format c))) root prefix
                                (DerivationPath c) 1
                                (indices i) after i r)
      as (lines & Hrun & Hall); try assumption.
    { intros j Hj. apply indices_In in Hj.
      apply Hearlier; [right; reflexivity | lia | right; lia]. }
    exists (ext ++ lines). split.
    + rewrite Hext, bind_Ok, Hsplit, Hrun. unfold bind. simpl.
      destruct r as [[] | e | p]; [congruence | | ];
        rewrite <- ?app_assoc; reflexivity.
    + unfold positionsBefore. simpl.
      apply Forall2_app; apply Forall2_pair; assumption.
Qed.

(** X5.  When the derivation fails at position [(b, i)] and every position
    before it succeeds, the run returns the error of the derivation as it
    is, without a prefix, after the header, the comment and the key lines of
    the positions before [(b, i)]. *)
Theorem derivation_error_aborts_the_run c pre root c1 prefix b i (cause : string) :
  readRootKey E c = (pre, Ok (root, c1)) ->
  ParsePath E (DerivationPath (setDefaults c1)) = Ok prefix ->
  b = 0 \/ b = 1 ->
  0 <= i < RecoveryWindow (setDefaults c1) ->
  (forall b' i', b' = 0 \/ b' = 1 ->
                 0 <= i' < RecoveryWindow (setDefaults c1) ->
                 b' < b \/ (b' = b /\ i' < i) ->
                 stepSucceeds E (fst (selectFormat E (Format (setDefaults c1))))
                              root prefix (DerivationPath (setDefaults c1))
                              b' i') ->
  DeriveChildren E root (keyPath prefix b i) = Err cause ->
  exists lines,
    Execute E c
    = (pre ++ [headerLine E; snd (selectFormat E (Format (setDefaults c1)))]
           ++ lines, Err cause)
    /\ Forall2 (keyLineOf E (fst (selectFormat E (Format (setDefaults c1))))
                          root prefix (DerivationPath (setDefaults c1)))
               (positionsBefore (RecoveryWindow (setDefaults c1)) b i)
               lines.
Proof.
  intros Hroot Hpath Hb Hi Hearlier Hk.
  destruct (generate_stops_with root (setDefaults c1) prefix b i (Err cause)
                                Hpath Hb Hi Hearlier)
    as (lines & Hgen & Hall).
  - rewrite deriveAndPrint_unfold, Hk. reflexivity.
  - discriminate.
  - exists lines. split; [|exact Hall].
    rewrite (Execute_after_root E c pre root c1 Hroot), Hgen. reflexivity.
Qed.

(** X6.  A run that does not succeed has either written nothing of its own
    (the root key or the path failed), or it has stopped at a position
    [(b, i)]: it returns the outcome of that position and has written the
    header, the comment and exactly the key lines of the positions before
    [(b, i)], never the rescan line. *)
Theorem failed_run_stops_at_a_position c out r :
  Execute E c = (out, r) ->
  r <> Ok tt ->
  (out = fst (readRootKey E c)
   /\ forall root c1 prefix,
        snd (readRootKey E c) = Ok (root, c1) ->
        ParsePath E (DerivationPath (setDefaults c1)) <> Ok prefix)
  \/ exists pre root c1 prefix b i lines,
       readRootKey E c = (pre, Ok (root, c1))
       /\ ParsePath E (DerivationPath (setDefaults c1)) = Ok prefix
       /\ (b = 0 \/ b = 1)
       /\ 0 <= i < RecoveryWindow (setDefaults c1)
       /\ deriveAndPrint E (fst (selectFormat E (Format (setDefaults c1))))
                         root prefix (DerivationPath (setDefaults c1)) b i
          = ([], r)
       /\ out = pre ++ [headerLine E;
                        snd (selectFormat E (Format (setDefaults c1)))]
                    ++ lines
       /\ Forall2 (keyLineOf E (fst (selectFormat E (Format (setDefaults c1))))
                             root prefix (DerivationPath (setDefaults c1)))
                  (positionsBefore (RecoveryWindow (setDefaults c1)) b i)
                  lines.
Proof.
  intros Hrun Hr.
  destruct (readRootKey E c) as [pre [[root c1] | e | p]] eqn:Hroot.
  2: { left. unfold Execute in Hrun. rewrite Hroot, bind_Err in Hrun.
       injection Hrun as <- _. split; [reflexivity|]. discriminate. }
  2: { left. unfold Execute in Hrun. rewrite Hroot, bind_Panic in Hrun.
       injection Hrun as <- _. split; [reflexivity|]. discriminate. }
  rewrite (Execute_after_root E c pre root c1 Hroot) in Hrun.
  set (c2 := setDefaults c1) in *.
  destruct (ParsePath E (DerivationPath c2)) as [prefix | e | p] eqn:Hpath.
  2: { left. unfold generate in Hrun. rewrite Hpath in Hrun. simpl in Hrun.
       rewrite app_nil_r in Hrun. injection Hrun as <- _.
       split; [reflexivity|]. simpl. intros root' c1' prefix' Heq.
       injection Heq as _ <-. fold c2. rewrite Hpath. discriminate. }
  2: { left. unfold generate in Hrun. rewrite Hpath in Hrun. simpl in Hrun.
       rewrite app_nil_r in Hrun. injection Hrun as <- _.
       split; [reflexivity|]. simpl. intros root' c1' prefix' Heq.
       injection Heq as _ <-. fold c2. rewrite Hpath. discriminate. }
  right.
  assert (Hshape : printerShape (fst (selectFormat E (Format c2))))
    by (intros k' path b' i'; apply selected_printer_shape).
  assert (Hfail :
            exists b i r',
              (b = 0 \/ b = 1) /\ 0 <= i < RecoveryWindow c2
              /\ (forall b' i', b' = 0 \/ b' = 1 ->
                                0 <= i' < RecoveryWindow c2 ->
                                b' < b \/ (b' = b /\ i' < i) ->
                                stepSucceeds E (fst (selectFormat E (Format c2)))
                                             root prefix (DerivationPath c2)
                                             b' i')
              /\ deriveAndPrint E (fst (selectFormat E (Format c2))) root
                                prefix (DerivationPath c2) b i = ([], r')
              /\ r' <> Ok tt).
  { destruct (branch_outcome (fst (selectFormat E (Format c2))) root prefix
                             (DerivationPath c2) 0 (indices (RecoveryWindow c2))
                             Hshape)
      as [Hall0 | (before & i & after & r' & Hsplit & Hb & Hi & Hr')].
    - destruct (branch_outcome (fst (selectFormat E (Format c2))) root prefix
                               (DerivationPath c2) 1
                               (indices (RecoveryWindow c2)) Hshape)
        as [Hall1 | (before & i & after & r' & Hsplit & Hb & Hi & Hr')].
      + exfalso.
        destruct (generate_ok E root c2 prefix Hpath) as (ext & int & Hgen & _).
        { intros b i [-> | ->] Hi; [apply Hall0 | apply Hall1];
            apply indices_In, Hi. }
        rewrite Hgen in Hrun. simpl in Hrun. congruence.
      + destruct (indices_decompose _ _ _ _ Hsplit) as [-> Hi'].
        exists 1, i, r'. split; [right; reflexivity|]. split; [exact Hi'|].
        split; [|split; assumption].
        intros b' i' [-> | ->] Hi'' [Hlt | [Heq Hlt]]; try lia.
        * apply Hall0, indices_In, Hi''.
        * apply Hb, indices_In. lia.
    - destruct (indices_decompose _ _ _ _ Hsplit) as [-> Hi'].
      exists 0, i, r'. split; [left; reflexivity|]. split; [exact Hi'|].
      split; [|split; assumption].
      intros b' i' [-> | ->] Hi'' [Hlt | [Heq Hlt]]; try lia.
      apply Hb, indices_In. lia. }
  destruct Hfail as (b & i & r' & Hb & Hi & Hearlier & Hstep & Hr').
  destruct (generate_stops_with root c2 prefix b i r' Hpath Hb Hi Hearlier
                                Hstep Hr')
    as (lines & Hgen & Hall).
  rewrite Hgen in Hrun. simpl in Hrun. injection Hrun as <- <-.
  exists pre, root, c1, prefix, b, i, lines.
  split; [reflexivity|]. split; [exact Hpath|]. split; [exact Hb|].
  split; [exact Hi|]. split; [exact Hstep|]. split; [reflexivity | exact Hall].
Qed.

End FailingRuns.

Section WatchOnlyAndHeights.

Context (E : Env).

(** ** The watch-only format *)

Lemma printBitcoinCliWatchOnly_line k pubKey path b i :
  ECPubKey E k = Ok pubKey ->
  printBitcoinCliWatchOnly E k path b i
  = ([watchOnlyLine E pubKey path b i], Ok tt).
Proof.
  intros H. unfold printBitcoinCliWatchOnly. rewrite H. reflexivity.
Qed.

Lemma fmt_x_length (bs : list Byte.byte) :
  String.length (fmt_x bs) = (2 * List.length bs)%nat.
Proof.
  induction bs as [|b rest IH]; [reflexivity|].
  cbn [fmt_x String.length List.length]. rewrite IH. lia.
Qed.

Lemma watchOnly_lines root prefix path b (l : list Z) lines :
  (forall i, In i l ->
             exists k pubKey,
               DeriveChildren E root (keyPath prefix b i) = Ok k
               /\ ECPubKey E k = Ok pubKey) ->
  Forall2 (keyLineAt E (printBitcoinCliWatchOnly E) root prefix path b) l lines ->
  Forall2 (watchOnlyLineAt E root prefix path b) l lines.
Proof.
  intros Hall F. induction F as [|i line l lines Hline F IH]; constructor.
  - destruct Hline as (k & Hk & Hp).
    destruct (Hall i (or_introl eq_refl)) as (k' & pubKey & Hk' & Hpub).
    assert (k' = k) by congruence. subst k'.
    rewrite (printBitcoinCliWatchOnly_line k pubKey path b i Hpub) in Hp.
    exists k, pubKey. repeat split; try assumption. congruence.
  - apply IH. intros j Hj. apply Hall. right. exact Hj.
Qed.

(** X7.  The watch-only format needs no private material: when the format is
    [bitcoin-cli-watchonly], the path parses and every position derives a
    key whose public key can be read, the run succeeds, whatever material the
    keys hold, and each of its key lines is
    [bitcoin-cli importpubkey <hex> "<path>/<branch>/<index>/" false] with
    two hexadecimal digits for every byte of the compressed public key. *)
Theorem watch_only_run_needs_no_private_material c pre root c1 prefix :
  readRootKey E c = (pre, Ok (root, c1)) ->
  Format c1 = "bitcoin-cli-watchonly"%string ->
  ParsePath E (DerivationPath (setDefaults c1)) = Ok prefix ->
  (forall b i, b = 0 \/ b = 1 -> 0 <= i < RecoveryWindow (setDefaults c1) ->
               exists k pubKey,
                 DeriveChildren E root (keyPath prefix b i) = Ok k
                 /\ ECPubKey E k = Ok pubKey) ->
  (exists ext int,
      Execute E c
      = (pre ++ [headerLine E; pasteComment] ++ ext ++ int
             ++ [rescanLine (RescanFrom (setDefaults c1))], Ok tt)
      /\ Forall2 (watchOnlyLineAt E root prefix (DerivationPath (setDefaults c1)) 0)
                 (indices (RecoveryWindow (setDefaults c1))) ext
      /\ Forall2 (watchOnlyLineAt E root prefix (DerivationPath (setDefaults c1)) 1)
                 (indices (RecoveryWindow (setDefaults c1))) int)
  /\ (forall (pubKey : PublicKey E) path b i,
         exists label,
           watchOnlyLine E pubKey path b i
           = ("bitcoin-cli importpubkey " ++ fmt_x (SerializeCompressed E pubKey)
              ++ label)%string
           /\ String.length (fmt_x (SerializeCompressed E pubKey))
              = (2 * List.length (SerializeCompressed E pubKey))%nat).
Proof.
  intros Hroot Hfmt Hpath Hall. split.
  - assert (Hsel : selectFormat E (Format (setDefaults c1))
                   = (printBitcoinCliWatchOnly E, pasteComment)).
    { rewrite setDefaults_Format, Hfmt. reflexivity. }
    destruct (Execute_ok E c pre root c1 prefix Hroot Hpath)
      as (ext & int & Hrun & Fext & Fint).
    { intros b i Hb Hi. destruct (Hall b i Hb Hi) as (k & pubKey & Hk & Hpub).
      exists k. split; [exact Hk|].
      rewrite Hsel. simpl.
      rewrite (printBitcoinCliWatchOnly_line k pubKey _ b i Hpub). reflexivity. }
    rewrite Hsel in Hrun, Fext, Fint. simpl in Hrun, Fext, Fint.
    exists ext, int. split; [exact Hrun|]. split.
    + apply watchOnly_lines; [|exact Fext].
      intros i Hi. apply Hall; [left; reflexivity | apply indices_In, Hi].
    + apply watchOnly_lines; [|exact Fint].
      intros i Hi. apply Hall; [right; reflexivity | apply indices_In, Hi].
  - intros pubKey path b i. eexists. split; [reflexivity | apply fmt_x_length].
Qed.

(** ** The rescan height *)

Import EstimateFacts.

(** X8.  The slack of 48 hours is 288 blocks: on mainnet and testnet3, for a
    birthday that is a whole number of seconds and at least 48 hours after
    the genesis timestamp, the height estimated for the birthday minus 48
    hours is the floor of (birthday - genesis) in seconds by 600, less 288;
    a run from the console sets [RescanFrom] to it. *)
Theorem slack_of_48_hours_is_288_blocks (genesis : time.Time) (s : Z) :
  (chainParamsName E = "mainnet"%string
   /\ genesis = chaincfg.MainNetGenesisTimestamp)
  \/ (chainParamsName E = "testnet3"%string
      /\ genesis = chaincfg.TestNet3GenesisTimestamp) ->
  48 * time.Hour <= time.Unix s 0 - genesis <= time.maxDuration ->
  seedBirthdayToBlock E (time.Add (time.Unix s 0) (- 48 * time.Hour))
  = Ok ((time.Unix s 0 - genesis) / (600 * time.Second) - 288)
  /\ forall c k,
       RootKey c = EmptyString ->
       snd (rootKeyFromConsole E) = Ok (k, time.Unix s 0) ->
       readRootKey E c
       = (fst (rootKeyFromConsole E),
          Ok (k, withRescanFrom
                   c ((time.Unix s 0 - genesis) / (600 * time.Second) - 288))).
Proof.
  intros Hnet Hrange.
  assert (Hest : seedBirthdayToBlock E (time.Add (time.Unix s 0) (- 48 * time.Hour))
                 = Ok ((time.Unix s 0 - genesis) / (600 * time.Second) - 288)).
  { assert (Hadd : time.Add (time.Unix s 0) (- 48 * time.Hour)
                   = time.Unix (s - 172800) 0)
      by (unfold time.Add, time.Unix, time.Hour, time.Second; lia).
    rewrite Hadd.
    assert (Hg : exists g,
               genesis = time.Unix g 0
               /\ seedBirthdayToBlock E (time.Unix (s - 172800) 0)
                  = Ok (estimateFrom E (time.Unix g 0) (time.Unix (s - 172800) 0))).
    { destruct Hnet as [[Hn ->] | [Hn ->]].
      - exists 1231006505. split; [reflexivity|].
        apply seedBirthdayToBlock_mainnet, Hn.
      - exists 1296688602. split; [reflexivity|].
        apply seedBirthdayToBlock_testnet3, Hn. }
    destruct Hg as (g & -> & Hrun). rewrite Hrun. f_equal.
    unfold time.Unix, time.Hour, time.maxDuration, time.Second in Hrange.
    change (2 ^ 63) with 9223372036854775808 in Hrange.
    rewrite estimateFrom_whole
      by (unfold time.maxDuration, time.Second;
          change (2 ^ 63) with 9223372036854775808; lia).
    assert (Hd : time.Unix s 0 - time.Unix g 0 = (s - g) * time.Second)
      by (unfold time.Unix; lia).
    rewrite Hd, Z.div_mul_cancel_r by (unfold time.Second; lia).
    replace (s - 172800 - g) with ((s - g) + (- 288) * 600) by lia.
    rewrite Z.div_add by lia. lia. }
  split; [exact Hest|].
  intros c k Hk Hc.
  rewrite (readRootKey_console E c Hk), Hc. cbn [fst snd].
  rewrite Hest. reflexivity.
Qed.

(** X9.  From the genesis timestamp on the estimate is bounded: on mainnet
    and testnet3 it is at most 15372286 for every timestamp, on every
    platform, and it is 15372286 for every timestamp at least the largest
    duration after the genesis timestamp. *)
Theorem estimate_is_bounded_from_genesis (genesis t : time.Time) :
  (chainParamsName E = "mainnet"%string
   /\ genesis = chaincfg.MainNetGenesisTimestamp)
  \/ (chainParamsName E = "testnet3"%string
      /\ genesis = chaincfg.TestNet3GenesisTimestamp) ->
  genesis <= t ->
  exists h,
    seedBirthdayToBlock E t = Ok h
    /\ 0 <= h <= 15372286
    /\ (time.maxDuration <= t - genesis -> h = 15372286).
Proof.
  intros Hnet Hge.
  assert (Hrun : seedBirthdayToBlock E t = Ok (estimateFrom E genesis t)).
  { destruct Hnet as [[Hn ->] | [Hn ->]].
    - apply seedBirthdayToBlock_mainnet, Hn.
    - apply seedBirthdayToBlock_testnet3, Hn. }
  exists (estimateFrom E genesis t). split; [exact Hrun|].
  rewrite estimateFrom_height64.
  pose proof (Sub_nonneg t genesis Hge) as Hsub.
  assert (Hmax : Float64.trunc (height64 time.maxDuration) = 15372286)
    by (vm_compute; reflexivity).
  split.
  - rewrite uint32_height64 by exact Hsub. split.
    + apply (height64_bounds _ Hsub).
    + rewrite <- Hmax. apply Float64Facts.trunc_mono_nonneg.
      * apply (height64_bounds _ Hsub).
      * apply height64_mono; lia.
  - intros Hsat.
    assert (Hs : time.Sub t genesis = time.maxDuration).
    { unfold time.Sub.
      destruct (Z.ltb_spec (t - genesis) time.minDuration) as [Hlt | _].
      - unfold time.minDuration, time.maxDuration in *.
        change (2 ^ 63) with 9223372036854775808 in *. lia.
      - destruct (Z.ltb_spec time.maxDuration (t - genesis)); [reflexivity | lia]. }
    rewrite Hs, uint32_height64; [exact Hmax|].
    unfold time.maxDuration. change (2 ^ 63) with 9223372036854775808. lia.
Qed.

End WatchOnlyAndHeights.

Section FieldsAndNetwork.

Context (E : Env).

(** [generate] is [generateLines], then the rescan line. *)
Lemma generate_split root c :
  generate E root c
  = (generateLines E root c ;;; print (rescanLine (RescanFrom c))).
Proof.
  unfold generate, generateLines.
  destruct (ParsePath E (DerivationPath c)) as [prefix | e | p];
    simpl wrapErr; [|reflexivity|reflexivity].
  rewrite !bind_call_Ok.
  set (L0 := forRange _ 0 (deriveAndPrint E _ root prefix (DerivationPath c) 0)).
  set (L1 := forRange _ 0 (deriveAndPrint E _ root prefix (DerivationPath c) 1)).
  destruct L0 as [o0 [[] | e | p]]; destruct L1 as [o1 [[] | e' | p']];
    unfold bind, print; simpl; rewrite <- ?app_assoc; reflexivity.
Qed.

(** The lines before the rescan line do not depend on [RescanFrom]. *)
Lemma generateLines_withRescanFrom root c r :
  generateLines E root (withRescanFrom c r) = generateLines E root c.
Proof. reflexivity. Qed.

Lemma setDefaults_after_withRescanFrom c r :
  setDefaults (withRescanFrom c r)
  = withRescanFrom (setDefaults c) (if Z.eqb r 0 then defaultRescanFrom else r).
Proof.
  unfold setDefaults. simpl.
  destruct (Z.eqb (RecoveryWindow c) 0); simpl;
    destruct (Z.eqb r 0); simpl;
    destruct (Z.eqb (RescanFrom c) 0); simpl;
    destruct (String.eqb (DerivationPath c) EmptyString); reflexivity.
Qed.

(** X10.  With a root key given as a string, the supplied rescan height
    decides the last line of a successful run and nothing else: two runs
    that differ in [RescanFrom] alone have the same outcome, write the same
    lines before the rescan line, and a run that fails is not changed at
    all. *)
Theorem rescanFrom_decides_only_the_last_line c (r : Z) :
  RootKey c <> EmptyString ->
  exists body,
    (snd (Execute E c) = Ok tt ->
     Execute E c
     = (body ++ [rescanLine (if Z.eqb (RescanFrom c) 0 then 500000
                             else RescanFrom c)], Ok tt)
     /\ Execute E (withRescanFrom c r)
        = (body ++ [rescanLine (if Z.eqb r 0 then 500000 else r)], Ok tt))
    /\ (snd (Execute E c) <> Ok tt ->
        Execute E (withRescanFrom c r) = Execute E c).
Proof.
  intros Hk. unfold Execute.
  rewrite (readRootKey_string E c Hk),
    (readRootKey_string E (withRescanFrom c r) Hk).
  cbn [RootKey withRescanFrom].
  destruct (NewKeyFromString E (RootKey c)) as [root | e | p].
  2: { exists []. split; [discriminate | reflexivity]. }
  2: { exists []. split; [discriminate | reflexivity]. }
  rewrite !bind_Ok. cbn [fst snd app].
  fold (withRescanFrom c r).
  rewrite !generate_split.
  rewrite (setDefaults_after_withRescanFrom c r), generateLines_withRescanFrom.
  cbn [RescanFrom withRescanFrom].
  rewrite setDefaults_RescanFrom.
  destruct (generateLines E root (setDefaults c)) as [body [[] | e | p]].
  - exists body. split; [|intros H; exfalso; apply H; reflexivity].
    intros _. split; reflexivity.
  - exists body. split; [discriminate | reflexivity].
  - exists body. split; [discriminate | reflexivity].
Qed.

Lemma setDefaults_empty_path c :
  setDefaults (withDerivationPath c EmptyString)
  = setDefaults (withDerivationPath c "m/84'/0'/0'").
Proof.
  unfold setDefaults. simpl.
  destruct (Z.eqb (RecoveryWindow c) 0); simpl;
    destruct (Z.eqb (RescanFrom c) 0); reflexivity.
Qed.

Lemma Execute_same_defaults_string c c' :
  RootKey c <> EmptyString ->
  RootKey c' = RootKey c ->
  setDefaults c' = setDefaults c ->
  Execute E c' = Execute E c.
Proof.
  intros Hne Hk Hd. unfold Execute.
  rewrite (readRootKey_string E c Hne), (readRootKey_string E c')
    by (rewrite Hk; exact Hne).
  rewrite Hk. destruct (NewKeyFromString E (RootKey c)); try reflexivity.
  rewrite !bind_Ok. cbn [fst snd]. rewrite Hd. reflexivity.
Qed.

Lemma Execute_same_defaults_console c c' :
  RootKey c = EmptyString ->
  RootKey c' = EmptyString ->
  (forall h, setDefaults (withRescanFrom c' h) = setDefaults (withRescanFrom c h)) ->
  Execute E c' = Execute E c.
Proof.
  intros He He' Hd. unfold Execute.
  rewrite (readRootKey_console E c He), (readRootKey_console E c' He').
  destruct (rootKeyFromConsole E) as [o [[k b] | e | p]]; try reflexivity.
  cbn [fst snd].
  destruct (seedBirthdayToBlock E _) as [h | e | p]; try reflexivity.
  rewrite !bind_Ok. cbn [fst snd]. rewrite Hd. reflexivity.
Qed.

Lemma setDefaults_zero_window c :
  setDefaults (withRecoveryWindow c 0) = setDefaults (withRecoveryWindow c 2500).
Proof. reflexivity. Qed.

(** X12.  A zero or empty field cannot be told from its default: a window
    of 0 runs as 2500, an empty path as [m/84'/0'/0'], and, with a root key
    given as a string, a rescan height of 0 as 500000. *)
Theorem zero_fields_run_as_their_defaults c :
  Execute E (withRecoveryWindow c 0) = Execute E (withRecoveryWindow c 2500)
  /\ Execute E (withDerivationPath c EmptyString)
     = Execute E (withDerivationPath c "m/84'/0'/0'")
  /\ (RootKey c <> EmptyString ->
      Execute E (withRescanFrom c 0) = Execute E (withRescanFrom c 500000)).
Proof.
  split; [|split].
  - destruct (string_dec (RootKey c) EmptyString) as [He | Hne].
    + apply Execute_same_defaults_console; try exact He.
      intros h. apply (setDefaults_zero_window (withRescanFrom c h)).
    + apply Execute_same_defaults_string;
        [exact Hne | reflexivity | apply setDefaults_zero_window].
  - destruct (string_dec (RootKey c) EmptyString) as [He | Hne].
    + apply Execute_same_defaults_console; try exact He.
      intros h. apply (setDefaults_empty_path (withRescanFrom c h)).
    + apply Execute_same_defaults_string;
        [exact Hne | reflexivity | apply setDefaults_empty_path].
  - intros Hne. apply Execute_same_defaults_string; [exact Hne | reflexivity |].
    rewrite !setDefaults_after_withRescanFrom. reflexivity.
Qed.


End FieldsAndNetwork.

(** ** Labels *)

Lemma digits_slashFree (d : Decimal.uint) :
  charFree "/" (NilEmpty.string_of_uint d).
Proof.
  unfold charFree.
  induction d; simpl; intros c H;
    try (destruct H as [<- | H]; [discriminate | apply IHd, H]).
  destruct H.
Qed.

Lemma fmt_d_slashFree (z : Z) : charFree "/" (fmt_d z).
Proof.
  unfold fmt_d, NilZero.string_of_int, NilZero.string_of_uint.
  destruct (Z.to_int z) as [d | d].
  - destruct d; try apply digits_slashFree.
    intros c [<- | []]. discriminate.
  - intros c [<- | H]; [discriminate|].
    destruct d; try (apply (digits_slashFree _ c H)).
    destruct H as [<- | []]. discriminate.
Qed.

Lemma append_head_inj (p a b : string) :
  (p ++ a)%string = (p ++ b)%string -> a = b.
Proof.
  induction p as [|x p IH]; simpl; intros H; [exact H|].
  injection H as H. apply IH, H.
Qed.

(** Two strings without the separator that are followed by the separator
    and the rest are found again from the whole. *)
Lemma split_at_char (sep : ascii) (a a' r r' : string) :
  charFree sep a -> charFree sep a' ->
  (a ++ String sep r)%string = (a' ++ String sep r')%string ->
  a = a' /\ r = r'.
Proof.
  revert a'. induction a as [|x a IH]; intros [|y a'] Ha Ha' H; simpl in H.
  - injection H as ->. split; reflexivity.
  - injection H as <- _. exfalso. apply (Ha' sep); [left|]; reflexivity.
  - injection H as -> _. exfalso. apply (Ha sep); [left|]; reflexivity.
  - injection H as -> H.
    destruct (IH a') as [-> ->]; [| |exact H|split; reflexivity].
    + intros c Hc. apply Ha. right. exact Hc.
    + intros c Hc. apply Ha'. right. exact Hc.
Qed.

Lemma keyLabel_inj (path : string) (b i b' i' : Z) :
  keyLabel path b i = keyLabel path b' i' -> b = b' /\ i = i'.
Proof.
  unfold keyLabel. intros H.
  apply append_head_inj in H. simpl in H. injection H as H.
  apply split_at_char in H; try apply fmt_d_slashFree.
  destruct H as [Hb Hi]. apply fmt_d_inj in Hb.
  change (String "/" EmptyString) with ("/"%string) in Hi.
  apply append_tail_inj in Hi. apply fmt_d_inj in Hi.
  split; assumption.
Qed.

(** X11.  The label tells the positions apart: under one path, two
    positions that differ in the branch or in the index have different
    labels [<path>/<branch>/<index>/]. *)
Theorem labels_tell_positions_apart (path : string) (b i b' i' : Z) :
  b <> b' \/ i <> i' ->
  keyLabel path b i <> keyLabel path b' i'.
Proof.
  intros Hne Heq. destruct (keyLabel_inj path b i b' i' Heq) as [Hb Hi].
  destruct Hne as [H | H]; [apply H, Hb | apply H, Hi].
Qed.

Lemma labels_tell_positions_apart_witness :
  keyLabel "m/84'/0'/0'" 1 11 <> keyLabel "m/84'/0'/0'" 11 1.
Proof.
  apply (labels_tell_positions_apart "m/84'/0'/0'" 1 11 11 1).
  left. discriminate.
Defined.

(** ** The window *)
Section Window.

Context (E : Env).

Lemma readRootKey_withRecoveryWindow c w pre root c1 :
  readRootKey E c = (pre, Ok (root, c1)) ->
  readRootKey E (withRecoveryWindow c w)
  = (pre, Ok (root, withRecoveryWindow c1 w)).
Proof.
  intros H. destruct (string_dec (RootKey c) EmptyString) as [He | Hne].
  - rewrite (readRootKey_console E c He) in H.
    rewrite (readRootKey_console E (withRecoveryWindow c w) He).
    destruct (rootKeyFromConsole E) as [o [[k b] | e | p]]; try discriminate.
    cbn [fst snd] in *.
    destruct (seedBirthdayToBlock E _) as [h | e | p]; try discriminate.
    injection H as <- <- <-. reflexivity.
  - rewrite (readRootKey_string E c Hne) in H.
    rewrite (readRootKey_string E (withRecoveryWindow c w) Hne).
    cbn [RootKey withRecoveryWindow].
    destruct (NewKeyFromString E (RootKey c)); try discriminate.
    injection H as <- <- <-. reflexivity.
Qed.

Lemma setDefaults_withRecoveryWindow c w :
  w <> 0 ->
  RecoveryWindow (setDefaults (withRecoveryWindow c w)) = w
  /\ RescanFrom (setDefaults (withRecoveryWindow c w)) = RescanFrom (setDefaults c)
  /\ DerivationPath (setDefaults (withRecoveryWindow c w))
     = DerivationPath (setDefaults c)
  /\ Format (setDefaults (withRecoveryWindow c w)) = Format (setDefaults c).
Proof.
  intros Hw. rewrite !setDefaults_RecoveryWindow, !setDefaults_RescanFrom,
    !setDefaults_DerivationPath, !setDefaults_Format.
  cbn [RecoveryWindow RescanFrom DerivationPath Format withRecoveryWindow].
  apply Z.eqb_neq in Hw. rewrite Hw. repeat split; reflexivity.
Qed.

Lemma indices_app (W1 W2 : Z) :
  0 <= W1 <= W2 ->
  exists more, indices W2 = indices W1 ++ more
               /\ List.length more = Z.to_nat (W2 - W1).
Proof.
  intros H. unfold indices.
  replace (Z.to_nat W2) with (Z.to_nat W1 + Z.to_nat (W2 - W1))%nat by lia.
  rewrite seq_app, map_app. eexists. split; [reflexivity|].
  rewrite length_map, length_seq. reflexivity.
Qed.

(** The key line of a position is determined by the position. *)
Lemma keyLines_unique printFn root prefix path b (l : list Z) lines lines' :
  Forall2 (keyLineAt E printFn root prefix path b) l lines ->
  Forall2 (keyLineAt E printFn root prefix path b) l lines' ->
  lines = lines'.
Proof.
  intros F. revert lines'.
  induction F as [|i line l lines Hline F IH]; intros lines' F';
    inversion F' as [|? line' ? rest' Hline' Frest]; subst; [reflexivity|].
  f_equal; [|apply IH, Frest].
  destruct Hline as (k & Hk & Hp). destruct Hline' as (k' & Hk' & Hp').
  congruence.
Qed.

(** X13.  A larger window only adds key lines at the end of each branch:
    when the run with window [W2] succeeds at every position, the run with a
    window [W1], [0 < W1 <= W2], writes in each branch the first [W1] key
    lines of the larger run, between the same header, comment and rescan
    line. *)
Theorem larger_window_extends_each_branch c pre root c1 prefix (W1 W2 : Z) :
  0 < W1 <= W2 ->
  readRootKey E c = (pre, Ok (root, c1)) ->
  ParsePath E (DerivationPath (setDefaults c1)) = Ok prefix ->
  (forall b i, b = 0 \/ b = 1 -> 0 <= i < W2 ->
               stepSucceeds E (fst (selectFormat E (Format (setDefaults c1))))
                            root prefix (DerivationPath (setDefaults c1)) b i) ->
  exists ext more0 int more1,
    Execute E (withRecoveryWindow c W1)
    = (pre ++ [headerLine E; snd (selectFormat E (Format (setDefaults c1)))]
           ++ ext ++ int ++ [rescanLine (RescanFrom (setDefaults c1))], Ok tt)
    /\ Execute E (withRecoveryWindow c W2)
       = (pre ++ [headerLine E; snd (selectFormat E (Format (setDefaults c1)))]
              ++ (ext ++ more0) ++ (int ++ more1)
              ++ [rescanLine (RescanFrom (setDefaults c1))], Ok tt)
    /\ Z.of_nat (List.length ext) = W1 /\ Z.of_nat (List.length int) = W1
    /\ Z.of_nat (List.length more0) = W2 - W1
    /\ Z.of_nat (List.length more1) = W2 - W1.
Proof.
  intros HW Hroot Hpath Hall.
  destruct (setDefaults_withRecoveryWindow c1 W1 ltac:(lia))
    as (Hw1 & Hr1 & Hp1 & Hf1).
  destruct (setDefaults_withRecoveryWindow c1 W2 ltac:(lia))
    as (Hw2 & Hr2 & Hp2 & Hf2).
  destruct (Execute_ok E (withRecoveryWindow c W2) pre root
                       (withRecoveryWindow c1 W2) prefix)
    as (ext2 & int2 & Hrun2 & Fext2 & Fint2).
  { apply readRootKey_withRecoveryWindow, Hroot. }
  { rewrite Hp2. exact Hpath. }
  { rewrite Hw2, Hp2, Hf2. exact Hall. }
  destruct (Execute_ok E (withRecoveryWindow c W1) pre root
                       (withRecoveryWindow c1 W1) prefix)
    as (ext1 & int1 & Hrun1 & Fext1 & Fint1).
  { apply readRootKey_withRecoveryWindow, Hroot. }
  { rewrite Hp1. exact Hpath. }
  { rewrite Hw1, Hp1, Hf1. intros b i Hb Hi. apply Hall; [exact Hb | lia]. }
  rewrite Hw1, Hr1, Hp1, Hf1 in *. rewrite Hw2, Hr2, Hp2, Hf2 in *.
  destruct (indices_app W1 W2 ltac:(lia)) as (more & Hsplit & Hmore).
  rewrite Hsplit in Fext2, Fint2.
  apply Forall2_app_inv_l in Fext2, Fint2.
  destruct Fext2 as (e1 & more0 & Fe1 & Fm0 & ->).
  destruct Fint2 as (i1 & more1 & Fi1 & Fm1 & ->).
  assert (e1 = ext1) by (eapply keyLines_unique; eassumption). subst e1.
  assert (i1 = int1) by (eapply keyLines_unique; eassumption). subst i1.
  exists ext1, more0, int1, more1.
  split; [exact Hrun1|]. split; [exact Hrun2|].
  pose proof (Forall2_length Fext1) as L1. pose proof (Forall2_length Fint1) as L2.
  pose proof (Forall2_length Fm0) as L3. pose proof (Forall2_length Fm1) as L4.
  rewrite indices_length in L1, L2. rewrite Hmore in L3, L4.
  repeat split; lia.
Qed.

End Window.

(** ** The watch-only line *)

Lemma hexValue_hexDigit (n : N) : (n < 16)%N -> hexValue (hexDigit n) = n.
Proof.
  intros H. destruct n as [|p]; [reflexivity|].
  do 4 (destruct p as [p | p |]; try reflexivity); lia.
Qed.

Lemma hexDigit_not_space (n : N) : hexDigit n <> " "%char.
Proof.
  destruct n as [|p]; [discriminate|].
  do 4 (destruct p as [p | p |]; try discriminate).
Qed.

Lemma fmt_x_spaceFree (bs : list Byte.byte) : charFree " " (fmt_x bs).
Proof.
  unfold charFree. induction bs as [|b rest IH]; intros c H.
  - destruct H.
  - cbn [fmt_x list_ascii_of_string] in H.
    destruct H as [<- | [<- | H]]; [apply hexDigit_not_space ..|].
    apply IH, H.
Qed.

Lemma byte_of_nibbles (b b' : Byte.byte) :
  hexDigit (Byte.to_N b / 16) = hexDigit (Byte.to_N b' / 16) ->
  hexDigit (Byte.to_N b mod 16) = hexDigit (Byte.to_N b' mod 16) ->
  b = b'.
Proof.
  intros Hhi Hlo.
  pose proof (Byte.to_N_bounded b) as Hb. pose proof (Byte.to_N_bounded b') as Hb'.
  apply (f_equal hexValue) in Hhi, Hlo.
  rewrite !hexValue_hexDigit in Hhi, Hlo
    by (try (apply N.mod_lt; discriminate);
        apply N.Div0.div_lt_upper_bound; lia).
  assert (Heq : Byte.to_N b = Byte.to_N b').
  { rewrite (N.div_mod (Byte.to_N b) 16), (N.div_mod (Byte.to_N b') 16)
      by discriminate.
    rewrite Hhi, Hlo. reflexivity. }
  assert (Hs : Some b = Some b')
    by (rewrite <- (Byte.of_to_N b), <- (Byte.of_to_N b'), Heq; reflexivity).
  injection Hs as Hs. exact Hs.
Qed.

(** The hexadecimal text determines the bytes. *)
Lemma fmt_x_inj (bs bs' : list Byte.byte) : fmt_x bs = fmt_x bs' -> bs = bs'.
Proof.
  revert bs'. induction bs as [|b rest IH]; intros [|b' rest'] H;
    cbn [fmt_x] in H; try discriminate; [reflexivity|].
  injection H as Hhi Hlo Hrest.
  f_equal; [apply byte_of_nibbles; assumption | apply IH, Hrest].
Qed.

Section LinesAndBirthdays.

Context (E : Env).

Lemma watchOnlyLine_inj (pubKey pubKey' : PublicKey E) (path : string)
      (b i b' i' : Z) :
  watchOnlyLine E pubKey path b i = watchOnlyLine E pubKey' path b' i' ->
  SerializeCompressed E pubKey = SerializeCompressed E pubKey'
  /\ b = b' /\ i = i'.
Proof.
  unfold watchOnlyLine. intros H.
  apply append_head_inj in H.
  change (" " ++ dquote ++ keyLabel path b i ++ dquote ++ " false" ++ nl)%string
    with (String " " (dquote ++ keyLabel path b i
                             ++ dquote ++ " false" ++ nl))%string in H.
  change (" " ++ dquote ++ keyLabel path b' i' ++ dquote ++ " false" ++ nl)%string
    with (String " " (dquote ++ keyLabel path b' i'
                             ++ dquote ++ " false" ++ nl))%string in H.
  apply split_at_char in H; try apply fmt_x_spaceFree.
  destruct H as [Hhex Hrest].
  apply append_head_inj in Hrest. apply append_tail_inj in Hrest.
  apply keyLabel_inj in Hrest.
  split; [apply fmt_x_inj, Hhex | exact Hrest].
Qed.

(** X15.  A watch-only key line determines what it imports: under one path,
    the lines of [printBitcoinCliWatchOnly] for two keys and positions that
    differ in the compressed public key, in the branch or in the index are
    different. *)
Theorem watch_only_lines_differ
        (pubKey pubKey' : PublicKey E) (path : string) (b i b' i' : Z) :
  SerializeCompressed E pubKey <> SerializeCompressed E pubKey'
  \/ b <> b' \/ i <> i' ->
  watchOnlyLine E pubKey path b i <> watchOnlyLine E pubKey' path b' i'.
Proof.
  intros Hne Heq.
  destruct (watchOnlyLine_inj _ _ _ _ _ _ _ Heq) as (Hk & Hb & Hi).
  destruct Hne as [H | [H | H]]; [apply H, Hk | apply H, Hb | apply H, Hi].
Qed.

(** ** A birthday in the first ten minutes *)

Import EstimateFacts.

(** X16.  An estimate of 0 is taken for an unset height: on mainnet and
    testnet3, when the console birthday minus 48 hours falls in the first
    600 seconds from the genesis timestamp, the estimate is 0 and a run that
    succeeds asks for a rescan from 500000. *)
Theorem birthday_in_the_first_block_rescans_from_the_default
        (genesis birthday : time.Time) c k out :
  (chainParamsName E = "mainnet"%string
   /\ genesis = chaincfg.MainNetGenesisTimestamp)
  \/ (chainParamsName E = "testnet3"%string
      /\ genesis = chaincfg.TestNet3GenesisTimestamp) ->
  RootKey c = EmptyString ->
  snd (rootKeyFromConsole E) = Ok (k, birthday) ->
  genesis <= time.Add birthday (- 48 * time.Hour) < genesis + 600 * time.Second ->
  seedBirthdayToBlock E (time.Add birthday (- 48 * time.Hour)) = Ok 0
  /\ (Execute E c = (out, Ok tt) ->
      last out EmptyString
      = ("bitcoin-cli rescanblockchain 500000" ++ nl)%string).
Proof.
  intros Hnet Hk Hc Hrange.
  set (t := time.Add birthday (- 48 * time.Hour)) in *.
  assert (Hrun : seedBirthdayToBlock E t = Ok (estimateFrom E genesis t)).
  { destruct Hnet as [[Hn ->] | [Hn ->]].
    - apply seedBirthdayToBlock_mainnet, Hn.
    - apply seedBirthdayToBlock_testnet3, Hn. }
  assert (Hzero : estimateFrom E genesis t = 0).
  { rewrite estimateFrom_height64.
    assert (Hd : 0 <= time.Sub t genesis <= 599999999999).
    { unfold time.Second in Hrange. rewrite Sub_exact.
      - lia.
      - unfold time.minDuration, time.maxDuration.
        change (2 ^ 63) with 9223372036854775808. lia. }
    assert (Hmax : time.Sub t genesis <= time.maxDuration).
    { unfold time.maxDuration. change (2 ^ 63) with 9223372036854775808. lia. }
    rewrite uint32_height64 by lia.
    assert (Htop : Float64.trunc (height64 599999999999) = 0)
      by (vm_compute; reflexivity).
    assert (Float64.trunc (height64 (time.Sub t genesis)) <= 0).
    { rewrite <- Htop. apply Float64Facts.trunc_mono_nonneg.
      - apply height64_bounds. lia.
      - apply height64_mono; try lia.
        unfold time.maxDuration. change (2 ^ 63) with 9223372036854775808. lia. }
    pose proof (height64_bounds (time.Sub t genesis) ltac:(lia)) as [_ Hb].
    lia. }
  rewrite Hrun, Hzero. split; [reflexivity|].
  intros Hok.
  destruct (Execute_Ok_inv E c out Hok) as (pre & root & c1 & body & Hroot & ->).
  rewrite (readRootKey_console E c Hk), Hc in Hroot. cbn [fst snd] in Hroot.
  fold t in Hroot. rewrite Hrun, Hzero in Hroot.
  injection Hroot as _ _ <-.
  rewrite last_last, setDefaults_RescanFrom. reflexivity.
Qed.

End LinesAndBirthdays.

(** ** The properties at work *)

Lemma unreadable_root_key_string_witness :
  Execute (Faulty.env Faulty.badKey Faulty.goodConsole Sample.derive)
          (Sample.cmd "xprv" "bitcoin-cli" 2 0)
  = ([], Err "error reading root key: the provided serialized extended key length is invalid").
Proof.
  apply (unreadable_root_key_string
           (Faulty.env Faulty.badKey Faulty.goodConsole Sample.derive)).
  - discriminate.
  - reflexivity.
Defined.

Lemma unreadable_console_witness :
  Execute (Faulty.env Faulty.goodKey Faulty.badConsole Sample.derive)
          (Sample.cmd EmptyString "bitcoin-cli" 2 0)
  = (["Input your 24-word mnemonic: "%string],
     Err "error reading root key: wrong number of words").
Proof.
  apply (unreadable_console
           (Faulty.env Faulty.goodKey Faulty.badConsole Sample.derive)).
  - reflexivity.
  - reflexivity.
Defined.

Lemma unparsable_path_witness :
  Execute Sample.mainnet (mkCommand "xprv" "bitcoin-cli" "84'/0'/0'" 2 0)
  = ([], Err "error parsing path: path must start with m/").
Proof.
  apply (unparsable_path Sample.mainnet _ [] Sample.rootKey
                         (mkCommand "xprv" "bitcoin-cli" "84'/0'/0'" 2 0)).
  - reflexivity.
  - reflexivity.
Defined.

(** With the derivation that fails at index 1 of branch 1 and a window of 2,
    the three positions before it succeed. *)
Lemma faulty_steps_succeed (b' i' : Z) :
  b' = 0 \/ b' = 1 -> 0 <= i' < 2 -> b' < 1 \/ (b' = 1 /\ i' < 1) ->
  stepSucceeds (Faulty.env Faulty.goodKey Faulty.goodConsole Faulty.deriveUntil)
               (printBitcoinCli
                  (Faulty.env Faulty.goodKey Faulty.goodConsole
                              Faulty.deriveUntil))
               Sample.rootKey Sample.defaultPrefix "m/84'/0'/0'" b' i'.
Proof.
  intros Hb Hi Hlt.
  assert (Hcases : (b' = 0 /\ i' = 0) \/ (b' = 0 /\ i' = 1)
                   \/ (b' = 1 /\ i' = 0)) by lia.
  destruct Hcases as [[-> ->] | [[-> ->] | [-> ->]]];
    eexists; split; reflexivity.
Qed.

Lemma derivation_error_aborts_the_run_witness :
  exists lines,
    Execute (Faulty.env Faulty.goodKey Faulty.goodConsole Faulty.deriveUntil)
            (Sample.cmd "xprv" "bitcoin-cli" 2 0)
    = ([] ++ [headerLine Sample.mainnet; pasteComment] ++ lines,
       Err "the extended key at this index is invalid")
    /\ List.length lines = 3%nat.
Proof.
  destruct (derivation_error_aborts_the_run
              (Faulty.env Faulty.goodKey Faulty.goodConsole Faulty.deriveUntil)
              (Sample.cmd "xprv" "bitcoin-cli" 2 0) [] Sample.rootKey
              (Sample.cmd "xprv" "bitcoin-cli" 2 0) Sample.defaultPrefix 1 1
              "the extended key at this index is invalid")
    as (lines & Hrun & Hall).
  - reflexivity.
  - reflexivity.
  - right. reflexivity.
  - vm_compute. split; [discriminate | reflexivity].
  - intros b' i' Hb Hi Hlt. apply faulty_steps_succeed; assumption.
  - reflexivity.
  - exists lines. split; [exact Hrun|].
    apply Forall2_length in Hall. rewrite <- Hall. reflexivity.
Defined.

Lemma failed_run_stops_at_a_position_witness :
  exists b i lines,
    (b = 0 \/ b = 1) /\ 0 <= i < 2
    /\ fst (Execute (Faulty.env Faulty.goodKey Faulty.goodConsole
                                Faulty.deriveUntil)
                    (Sample.cmd "xprv" "bitcoin-cli" 2 0))
       = [] ++ [headerLine Sample.mainnet; pasteComment] ++ lines.
Proof.
  destruct (failed_run_stops_at_a_position
              (Faulty.env Faulty.goodKey Faulty.goodConsole Faulty.deriveUntil)
              (Sample.cmd "xprv" "bitcoin-cli" 2 0)
              (fst (Execute (Faulty.env Faulty.goodKey Faulty.goodConsole
                                        Faulty.deriveUntil)
                            (Sample.cmd "xprv" "bitcoin-cli" 2 0)))
              (Err "the extended key at this index is invalid"))
    as [[_ Hnot] | (pre & root & c1 & prefix & b & i & lines & Hroot & Hpath
                    & Hb & Hi & _ & Hout & _)].
  - vm_compute. reflexivity.
  - discriminate.
  - exfalso.
    apply (Hnot Sample.rootKey (Sample.cmd "xprv" "bitcoin-cli" 2 0)
                Sample.defaultPrefix); reflexivity.
  - injection Hroot as <- _ <-.
    exists b, i, lines. split; [exact Hb|]. split; [exact Hi | exact Hout].
Defined.

(** From a public root key the two levels after the path [m/0] derive
    public-only keys whose public key can be read. *)
Lemma public_steps_derive (b i : Z) :
  b = 0 \/ b = 1 -> 0 <= i < 2 ->
  exists k pubKey,
    DeriveChildren Sample.mainnet Sample.pubRootKey (keyPath [0] b i) = Ok k
    /\ ECPubKey Sample.mainnet k = Ok pubKey.
Proof.
  intros Hb Hi.
  assert (Hcases : i = 0 \/ i = 1) by lia.
  destruct Hb as [-> | ->]; destruct Hcases as [-> | ->];
    do 2 eexists; split; reflexivity.
Qed.

Lemma watch_only_run_needs_no_private_material_witness :
  exists ext int,
    Execute Sample.mainnet (Sample.watchOnlyCmd "bitcoin-cli-watchonly")
    = ([] ++ [headerLine Sample.mainnet; pasteComment] ++ ext ++ int
          ++ [rescanLine 500000], Ok tt)
    /\ List.length ext = 2%nat /\ List.length int = 2%nat.
Proof.
  destruct (watch_only_run_needs_no_private_material
              Sample.mainnet (Sample.watchOnlyCmd "bitcoin-cli-watchonly") []
              Sample.pubRootKey (Sample.watchOnlyCmd "bitcoin-cli-watchonly")
              [0])
    as [(ext & int & Hrun & Fext & Fint) _].
  - reflexivity.
  - reflexivity.
  - reflexivity.
  - intros b i Hb Hi. apply public_steps_derive; [exact Hb | exact Hi].
  - exists ext, int. split; [exact Hrun|].
    apply Forall2_length in Fext, Fint. rewrite <- Fext, <- Fint.
    split; reflexivity.
Defined.

Lemma slack_of_48_hours_is_288_blocks_witness :
  seedBirthdayToBlock Sample.mainnet
                      (time.Add (time.Unix 1577836800 0) (- 48 * time.Hour))
  = Ok ((time.Unix 1577836800 0 - chaincfg.MainNetGenesisTimestamp)
        / (600 * time.Second) - 288).
Proof.
  apply (slack_of_48_hours_is_288_blocks Sample.mainnet).
  - left. split; reflexivity.
  - vm_compute. split; discriminate.
Defined.

Lemma estimate_is_bounded_from_genesis_witness :
  exists h,
    seedBirthdayToBlock Sample.mainnet (time.Unix 1577836800 0) = Ok h
    /\ 0 <= h <= 15372286.
Proof.
  destruct (estimate_is_bounded_from_genesis
              Sample.mainnet chaincfg.MainNetGenesisTimestamp
              (time.Unix 1577836800 0))
    as (h & Hrun & Hb & _).
  - left. split; reflexivity.
  - vm_compute. discriminate.
  - exists h. split; assumption.
Defined.

Lemma rescanFrom_decides_only_the_last_line_witness :
  exists body,
    Execute Sample.mainnet (Sample.cmd "xprv" "bitcoin-cli" 2 0)
    = (body ++ [rescanLine 500000], Ok tt)
    /\ Execute Sample.mainnet
               (withRescanFrom (Sample.cmd "xprv" "bitcoin-cli" 2 0) 650000)
       = (body ++ [rescanLine 650000], Ok tt).
Proof.
  destruct (rescanFrom_decides_only_the_last_line
              Sample.mainnet (Sample.cmd "xprv" "bitcoin-cli" 2 0) 650000)
    as (body & Hok & _).
  - discriminate.
  - exists body. apply Hok. vm_compute. reflexivity.
Defined.

Lemma larger_window_extends_each_branch_witness :
  exists ext more0 int more1,
    Execute Sample.mainnet
            (withRecoveryWindow (Sample.cmd "xprv" "bitcoin-cli" 1 0) 2)
    = ([] ++ [headerLine Sample.mainnet; pasteComment]
          ++ ext ++ int ++ [rescanLine 500000], Ok tt)
    /\ Execute Sample.mainnet
               (withRecoveryWindow (Sample.cmd "xprv" "bitcoin-cli" 1 0) 5)
       = ([] ++ [headerLine Sample.mainnet; pasteComment]
             ++ (ext ++ more0) ++ (int ++ more1) ++ [rescanLine 500000], Ok tt)
    /\ Z.of_nat (List.length more0) = 5 - 2.
Proof.
  destruct (larger_window_extends_each_branch
              Sample.mainnet (Sample.cmd "xprv" "bitcoin-cli" 1 0) []
              Sample.rootKey (Sample.cmd "xprv" "bitcoin-cli" 1 0)
              Sample.defaultPrefix 2 5)
    as (ext & more0 & int & more1 & H1 & H2 & _ & _ & Hm & _).
  - lia.
  - reflexivity.
  - reflexivity.
  - intros b i _ _. apply sample_step_succeeds.
  - exists ext, more0, int, more1. split; [exact H1|]. split; [exact H2 | exact Hm].
Defined.


Lemma watch_only_lines_differ_witness :
  watchOnlyLine Sample.mainnet [Byte.x02; Byte.xab] "m/0" 0 1
  <> watchOnlyLine Sample.mainnet [Byte.x02; Byte.xac] "m/0" 0 1.
Proof.
  apply (watch_only_lines_differ Sample.mainnet).
  left. discriminate.
Defined.

Lemma birthday_in_the_first_block_rescans_from_the_default_witness :
  seedBirthdayToBlock
    (Sample.env "mainnet" oor_amd64 (time.Unix (1231006505 + 172800 + 599) 0))
    (time.Add (time.Unix (1231006505 + 172800 + 599) 0) (- 48 * time.Hour))
  = Ok 0
  /\ last (fst (Execute (Sample.env "mainnet" oor_amd64
                                    (time.Unix (1231006505 + 172800 + 599) 0))
                        (Sample.cmd EmptyString "bitcoin-cli" 1 0)))
          EmptyString
     = ("bitcoin-cli rescanblockchain 500000" ++ nl)%string.
Proof.
  destruct (birthday_in_the_first_block_rescans_from_the_default
              (Sample.env "mainnet" oor_amd64
                          (time.Unix (1231006505 + 172800 + 599) 0))
              chaincfg.MainNetGenesisTimestamp
              (time.Unix (1231006505 + 172800 + 599) 0)
              (Sample.cmd EmptyString "bitcoin-cli" 1 0) Sample.rootKey
              (fst (Execute (Sample.env "mainnet" oor_amd64
                                        (time.Unix (1231006505 + 172800 + 599) 0))
                            (Sample.cmd EmptyString "bitcoin-cli" 1 0))))
    as [Hz Hlast].
  - left. split; reflexivity.
  - reflexivity.
  - reflexivity.
  - vm_compute. split; [discriminate | reflexivity].
  - split; [exact Hz|]. apply Hlast. vm_compute. reflexivity.
Defined.
